(** * Bathroom pricing engine: a shallow embedding and its properties

    The development follows the Python sources module by module:

    - [Py]: the fragment of Python's dynamic values and builtins the
      engine relies on ([dict.get], iteration, truthiness, [str.lower],
      [round], [max], [repr]);
    - [MaterialDb]: [pricing_logic/material_db.py];
    - [LaborCalc]: [pricing_logic/labor_calc.py];
    - [VatRules]: [pricing_logic/vat_rules.py];
    - [Engine]: [pricing_engine.py].

    Numbers.  Python floats are embedded as exact rationals ([Q]); two
    numbers are the same when they are [Qeq].  [round(x, n)] is rounding to
    the nearest multiple of [10^-n], ties to even, on the exact value.
    Infinities, NaN and binary representation error are outside the model.

    Strings are byte strings; [str.lower] acts on the ASCII letters.

    The world.  The transcript parser calls a remote service: it is a
    function that raises or returns the decoded object.  The clock is read
    as a value handed to the engine and the output directory is a finite
    map from path to stored quote.  The console is an open text stream
    whose encoding extends ASCII: a line of ASCII characters is always
    written, and the stream says whether it can encode any other line. *)

From Stdlib Require Import QArith Qround Qabs Qminmax Lia Lqa Ascii String.
From Stdlib Require Import DecimalString.
From stdpp Require Import gmap strings list.

Set Warnings "-register-all".

Open Scope Q_scope.
Open Scope string_scope.

(* ================================================================== *)
(** * Python values and builtins                                        *)
(* ================================================================== *)

Module Py.

(** Values as [json.loads] produces them. A dict keeps insertion order. *)
Inductive value : Type :=
| VNone
| VBool (b : bool)
| VInt (z : Z)
| VFloat (q : Q)
| VStr (s : string)
| VList (l : list value)
| VDict (d : list (string * value)).

Inductive exn_kind :=
  TypeError | AttributeError | KeyError | ValueError | RuntimeError | UnicodeEncodeError.

(** An exception; [str(e)] is its message. *)
Record exn := Exn { kind : exn_kind; message : string }.

Definition str_exn (e : exn) : string := message e.

(** A computation either raises or returns. *)
Definition result (A : Type) : Type := exn + A.

Definition ret {A} (a : A) : result A := inr a.
Definition raise {A} (k : exn_kind) (m : string) : result A := inl (Exn k m).

Definition bind {A B} (c : result A) (k : A -> result B) : result B :=
  match c with
  | inl e => inl e
  | inr a => k a
  end.

Definition type_name (v : value) : string :=
  match v with
  | VNone => "NoneType"
  | VBool _ => "bool"
  | VInt _ => "int"
  | VFloat _ => "float"
  | VStr _ => "str"
  | VList _ => "list"
  | VDict _ => "dict"
  end.

(** ** Numbers *)

Fixpoint pow10 (n : nat) : positive :=
  match n with
  | O => 1%positive
  | S k => (10 * pow10 k)%positive
  end.

(** Nearest integer, ties to the even neighbour. *)
Definition round_half_even (x : Q) : Z :=
  let f := Qfloor x in
  match Qcompare (x - inject_Z f) (1 # 2) with
  | Lt => f
  | Gt => (f + 1)%Z
  | Eq => if Z.even f then f else (f + 1)%Z
  end.

(** [round(x, ndigits)] *)
Definition py_round (x : Q) (ndigits : nat) : Q :=
  Qred (round_half_even (x * inject_Z (Zpos (pow10 ndigits))) # pow10 ndigits).

(** [max(a, b)]: the first argument unless the second is greater. *)
Definition py_max (a b : Q) : Q :=
  match Qcompare b a with
  | Gt => b
  | _ => a
  end.

(** [sum(xs)], from the integer [0]. *)
Definition py_sum (xs : list Q) : Q := fold_left Qplus xs 0.

(** The number a value stands for when it is multiplied by a float. *)
Definition as_number (v : value) : result Q :=
  match v with
  | VBool b => ret (if b then 1 else 0)
  | VInt z => ret (inject_Z z)
  | VFloat q => ret q
  | VStr _ | VList _ =>
      raise TypeError "can't multiply sequence by non-int of type 'float'"
  | _ => raise TypeError
           ("unsupported operand type(s) for *: '" ++ type_name v ++ "' and 'float'")
  end.

(** ** Truthiness, hashing, iteration *)

Definition truthy (v : value) : bool :=
  match v with
  | VNone => false
  | VBool b => b
  | VInt z => negb (z =? 0)%Z
  | VFloat q => negb (Qeq_bool q 0)
  | VStr s => negb (String.eqb s EmptyString)
  | VList l => match l with [] => false | _ => true end
  | VDict d => match d with [] => false | _ => true end
  end.

Definition hashable (v : value) : bool :=
  match v with
  | VList _ | VDict _ => false
  | _ => true
  end.

Definition unhashable {A} (v : value) : result A :=
  raise TypeError ("unhashable type: '" ++ type_name v ++ "'").

Fixpoint chars (s : string) : list value :=
  match s with
  | EmptyString => []
  | String c r => VStr (String c EmptyString) :: chars r
  end.

(** [for x in v]: the items a loop visits. *)
Definition iter (v : value) : result (list value) :=
  match v with
  | VList l => ret l
  | VStr s => ret (chars s)
  | VDict d => ret (map (fun kv => VStr (fst kv)) d)
  | _ => raise TypeError ("'" ++ type_name v ++ "' object is not iterable")
  end.

(** ** Dictionaries *)

Fixpoint assoc (k : string) (d : list (string * value)) : option value :=
  match d with
  | [] => None
  | (k', v) :: r => if String.eqb k k' then Some v else assoc k r
  end.

(** [d.get(k, default)] on a dict *)
Definition dict_get (d : list (string * value)) (k : string) (default : value) : value :=
  match assoc k d with
  | Some v => v
  | None => default
  end.

(** [v.get(k, default)] on any value: only dicts have the method. *)
Definition get (v : value) (k : string) (default : value) : result value :=
  match v with
  | VDict d => ret (dict_get d k default)
  | _ => raise AttributeError ("'" ++ type_name v ++ "' object has no attribute 'get'")
  end.

(** ** Strings *)

Definition lower_ascii (c : ascii) : ascii :=
  let n := nat_of_ascii c in
  if ((65 <=? n) && (n <=? 90))%nat then ascii_of_nat (n + 32) else c.

Definition upper_ascii (c : ascii) : ascii :=
  let n := nat_of_ascii c in
  if ((97 <=? n) && (n <=? 122))%nat then ascii_of_nat (n - 32) else c.

Fixpoint lower (s : string) : string :=
  match s with
  | EmptyString => EmptyString
  | String c r => String (lower_ascii c) (lower r)
  end.

(** [v.lower()] on any value: only strings have the method. *)
Definition str_lower (v : value) : result string :=
  match v with
  | VStr s => ret (lower s)
  | _ => raise AttributeError ("'" ++ type_name v ++ "' object has no attribute 'lower'")
  end.

Definition is_alpha (c : ascii) : bool :=
  let n := nat_of_ascii c in
  (((65 <=? n) && (n <=? 90)) || ((97 <=? n) && (n <=? 122)))%nat.

(** [s.title()]: a letter is upper-cased after a non-letter, lower-cased
    after a letter. *)
Fixpoint title_from (after_letter : bool) (s : string) : string :=
  match s with
  | EmptyString => EmptyString
  | String c r =>
      String (if after_letter then lower_ascii c else upper_ascii c)
             (title_from (is_alpha c) r)
  end.

Definition title (s : string) : string := title_from false s.

(** [s.replace(c, empty)] for a one-character [c] *)
Fixpoint remove_char (c : ascii) (s : string) : string :=
  match s with
  | EmptyString => EmptyString
  | String c' r => if Ascii.eqb c c' then remove_char c r else String c' (remove_char c r)
  end.

Fixpoint starts_with (p s : string) : bool :=
  match p, s with
  | EmptyString, _ => true
  | String a p', String b s' => Ascii.eqb a b && starts_with p' s'
  | String _ _, EmptyString => false
  end.

(** [p in s] on strings *)
Fixpoint contains (p s : string) : bool :=
  starts_with p s ||
  match s with
  | EmptyString => false
  | String _ r => contains p r
  end.


(** ** [repr] *)

Definition dquote : ascii := ascii_of_nat 34.
Definition squote : ascii := ascii_of_nat 39.
Definition backslash : ascii := ascii_of_nat 92.

Fixpoint has_char (c : ascii) (s : string) : bool :=
  match s with
  | EmptyString => false
  | String c' r => Ascii.eqb c c' || has_char c r
  end.

Definition hex_digit (n : nat) : ascii :=
  if (n <? 10)%nat then ascii_of_nat (48 + n) else ascii_of_nat (87 + n).

(** One character of a string literal delimited by [q]. *)
Definition escape_char (q c : ascii) : string :=
  let n := nat_of_ascii c in
  if Ascii.eqb c backslash then String backslash (String backslash EmptyString)
  else if Ascii.eqb c q then String backslash (String q EmptyString)
  else if (n =? 10)%nat then String backslash "n"
  else if (n =? 13)%nat then String backslash "r"
  else if (n =? 9)%nat then String backslash "t"
  else if ((n <? 32) || (n =? 127))%nat then
    String backslash
      (String "x" (String (hex_digit (n / 16)) (String (hex_digit (n mod 16)) EmptyString)))
  else String c EmptyString.

Fixpoint escape (q : ascii) (s : string) : string :=
  match s with
  | EmptyString => EmptyString
  | String c r => escape_char q c ++ escape q r
  end.

(** [repr(s)]: single quotes unless the string has one and no double quote. *)
Definition repr_str (s : string) : string :=
  let q := if has_char squote s && negb (has_char dquote s) then dquote else squote in
  String q (escape q s ++ String q EmptyString).

Definition repr_int (z : Z) : string := NilZero.string_of_int (Z.to_int z).

Fixpoint frac_digits (fuel : nat) (r d : Z) : string :=
  match fuel with
  | O => EmptyString
  | S k =>
      if (r =? 0)%Z then EmptyString
      else String (ascii_of_nat (48 + Z.to_nat (10 * r / d))) (frac_digits k ((10 * r) mod d) d)
  end.

(** [repr(x)] of a float: positional decimal notation with at least one
    fractional digit (at most 17 are printed; the exponent forms Python
    uses for very large and very small magnitudes are not modelled). *)
Definition repr_float (x : Q) : string :=
  let n := Z.abs (Qnum x) in
  let d := Zpos (Qden x) in
  let fr := frac_digits 17 (n mod d) d in
  (if (Qnum x <? 0)%Z then "-" else EmptyString) ++ repr_int (n / d) ++ "." ++
  (if String.eqb fr EmptyString then "0" else fr).

Fixpoint join (sep : string) (l : list string) : string :=
  match l with
  | [] => EmptyString
  | [s] => s
  | s :: r => s ++ sep ++ join sep r
  end.

Fixpoint repr (v : value) : string :=
  match v with
  | VNone => "None"
  | VBool b => if b then "True" else "False"
  | VInt z => repr_int z
  | VFloat q => repr_float q
  | VStr s => repr_str s
  | VList l => "[" ++ join ", " (map repr l) ++ "]"
  | VDict d =>
      "{" ++ join ", " (map (fun kv => let '(k, x) := kv in repr_str k ++ ": " ++ repr x) d) ++ "}"
  end.

(** [str(v)]: a string is itself, anything else prints as its [repr]. *)
Definition str (v : value) : string :=
  match v with
  | VStr s => s
  | _ => repr v
  end.

(** ** Further builtins: [len], [min], [+] on numbers, item access, [split] *)

(** [len(v)]; byte strings count bytes. *)
Definition py_len (v : value) : result Z :=
  match v with
  | VStr s => ret (Z.of_nat (String.length s))
  | VList l => ret (Z.of_nat (List.length l))
  | VDict d => ret (Z.of_nat (List.length d))
  | _ => raise TypeError ("object of type '" ++ type_name v ++ "' has no len()")
  end.

(** [min(a, b)]: the first argument unless the second is smaller. *)
Definition py_min (a b : Q) : Q :=
  match Qcompare b a with
  | Lt => b
  | _ => a
  end.

(** The integer a value is, [bool] being a subtype of [int]. *)
Definition int_of (v : value) : option Z :=
  match v with
  | VBool b => Some (if b then 1 else 0)%Z
  | VInt z => Some z
  | _ => None
  end.

(** The number a value is. *)
Definition num (v : value) : option Q :=
  match v with
  | VBool b => Some (if b then 1 else 0)
  | VInt z => Some (inject_Z z)
  | VFloat q => Some q
  | _ => None
  end.

(** [a + b] where [a] is a number: integers stay integers, anything else
    numeric becomes a float, any other right operand is a type error. *)
Definition num_add (a b : value) : result value :=
  match int_of a, int_of b with
  | Some x, Some y => ret (VInt (x + y))
  | _, _ =>
      match num a, num b with
      | Some x, Some y => ret (VFloat (x + y))
      | _, _ =>
          raise TypeError
            ("unsupported operand type(s) for +: '" ++ type_name a ++ "' and '"
               ++ type_name b ++ "'")
      end
  end.

(** [sum(vs)], from the integer [0]. *)
Fixpoint sum_from (acc : value) (vs : list value) : result value :=
  match vs with
  | [] => ret acc
  | v :: rest => bind (num_add acc v) (fun acc' => sum_from acc' rest)
  end.

(** The value of a number, [0] for anything else. *)
Definition value_of (v : value) : Q := default 0 (num v).

(** [d[k]] on a dict *)
Definition getitem (d : list (string * value)) (k : string) : result value :=
  match assoc k d with
  | Some v => ret v
  | None => raise KeyError (repr_str k)
  end.

(** [v[k]] for a string key on any value *)
Definition subscript (v : value) (k : string) : result value :=
  match v with
  | VDict d => getitem d k
  | VStr _ => raise TypeError "string indices must be integers, not 'str'"
  | VList _ => raise TypeError "list indices must be integers or slices, not str"
  | _ => raise TypeError ("'" ++ type_name v ++ "' object is not subscriptable")
  end.

(** [v == s] for a string literal [s] *)
Definition eq_str (v : value) (s : string) : bool :=
  match v with
  | VStr s' => String.eqb s' s
  | _ => false
  end.

(** [a < b] for a number [b] of type [b_type]: only numbers are ordered
    with a number. *)
Definition lt_num (a : value) (b : Q) (b_type : string) : result bool :=
  match num a with
  | Some x => ret (match Qcompare x b with Lt => true | _ => false end)
  | None =>
      raise TypeError
        ("'<' not supported between instances of '" ++ type_name a ++ "' and '"
           ++ b_type ++ "'")
  end.

(** [a == b] for a float [b] *)
Definition eq_float (a : value) (b : Q) : bool :=
  match num a with
  | Some x => Qeq_bool x b
  | None => false
  end.

(** ASCII white space, as [str.split()] sees it. *)
Definition is_space (c : ascii) : bool :=
  let n := nat_of_ascii c in
  (((9 <=? n) && (n <=? 13)) || ((28 <=? n) && (n <=? 32)))%nat.

(** [len(s.split())]: the number of maximal runs of non-space characters. *)
Fixpoint count_words (in_word : bool) (s : string) : Z :=
  match s with
  | EmptyString => 0
  | String c r =>
      if is_space c then count_words false r
      else if in_word then count_words true r
      else (1 + count_words true r)%Z
  end.

Definition word_count (s : string) : Z := count_words false s.

(** ** The console *)

(** [s.isascii()] *)
Fixpoint is_ascii (s : string) : bool :=
  match s with
  | EmptyString => true
  | String c r => (nat_of_ascii c <? 128)%nat && is_ascii r
  end.

(** [sys.stdout]: an open text stream whose encoding extends ASCII, as
    every encoding Python picks for a console does. For a line that has a
    character outside ASCII, [stdout line] is the message of the
    [UnicodeEncodeError] the stream's encoder raises, and [None] when the
    encoding (or its error handler) takes the line. *)
Definition Stdout : Type := string -> option string.

(** [print(line)] *)
Definition print (stdout : Stdout) (line : string) : result unit :=
  if is_ascii line then ret tt
  else
    match stdout line with
    | Some complaint => raise UnicodeEncodeError complaint
    | None => ret tt
    end.

(** The ASCII codec. A string is the UTF-8 form of the text, so the first
    byte from 128 on starts the first character the codec cannot encode,
    at the position that equals the number of bytes before it; the codec
    reports the whole run of such characters. *)
Fixpoint ascii_prefix_length (s : string) : Z :=
  match s with
  | EmptyString => 0
  | String c r => if (nat_of_ascii c <? 128)%nat then (1 + ascii_prefix_length r)%Z else 0%Z
  end.

Fixpoint non_ascii_run (s : string) : list N :=
  match s with
  | EmptyString => []
  | String c r => if (N_of_ascii c <? 128)%N then [] else N_of_ascii c :: non_ascii_run r
  end.

Fixpoint first_non_ascii_run (s : string) : list N :=
  match s with
  | EmptyString => []
  | String c r => if (N_of_ascii c <? 128)%N then first_non_ascii_run r else non_ascii_run s
  end.

(** The bytes that start a character, as opposed to continuing one. *)
Definition lead_bytes (run : list N) : list N := filter (fun b => (192 <=? b)%N) run.

(** The code point of the character a run of bytes starts with. *)
Fixpoint continue_code_point (acc : N) (bytes : list N) : N :=
  match bytes with
  | b :: rest =>
      if (b <? 192)%N then continue_code_point (acc * 64 + b mod 64) rest else acc
  | [] => acc
  end.

Definition code_point (run : list N) : N :=
  match run with
  | b :: rest =>
      continue_code_point
        (if (b <? 224)%N then b mod 32 else if (b <? 240)%N then b mod 16 else b mod 8)
        rest
  | [] => 0
  end.

Fixpoint hex (width : nat) (n : N) : string :=
  match width with
  | O => EmptyString
  | S w => hex w (n / 16) ++ String (hex_digit (N.to_nat (n mod 16))) EmptyString
  end.

(** A character as the message of a [UnicodeEncodeError] shows it. *)
Definition escape_code_point (cp : N) : string :=
  if (cp <? 256)%N then String backslash ("x" ++ hex 2 cp)
  else if (cp <? 65536)%N then String backslash ("u" ++ hex 4 cp)
  else String backslash ("U" ++ hex 8 cp).

(** [str(e)] for the [UnicodeEncodeError] of [line.encode("ascii")]. *)
Definition ascii_complaint (line : string) : string :=
  let start := ascii_prefix_length line in
  let run := first_non_ascii_run line in
  let count := Z.of_nat (length (lead_bytes run)) in
  "'ascii' codec can't encode " ++
  (if (count =? 1)%Z
   then "character '" ++ escape_code_point (code_point run) ++ "' in position " ++
        repr_int start
   else "characters in position " ++ repr_int start ++ "-" ++
        repr_int (start + count - 1)) ++
  ": ordinal not in range(128)".

End Py.

Notation "'do' x <- c ; k" := (Py.bind c (fun x => k))
  (at level 10, x name, c at level 100, k at level 200).


(* ================================================================== *)
(** * pricing_logic/material_db.py                                      *)
(* ================================================================== *)

Module MaterialDb.

(** [class Material] *)
Record Material := {
  name : string;
  category : string;
  unit : string;
  base_cost : Q;
  supplier_margin : Q;
  quality_grade : string;
  availability_score : Q;
  last_updated : string;
  supplier_id : option string
}.

(** [class MaterialDatabase]: the two dictionaries the object holds. *)
Record MaterialDatabase := {
  materials : gmap string Material;
  regional_multipliers : gmap string Q
}.

Definition mk (n c u : string) (cost margin : Q) (grade : string) (avail : Q)
    (now : string) : Material :=
  {| name := n; category := c; unit := u; base_cost := cost;
     supplier_margin := margin; quality_grade := grade;
     availability_score := avail; last_updated := now; supplier_id := None |}.

(** [_initialize_default_materials]; [now] is [datetime.now().isoformat()]. *)
Definition _initialize_default_materials (now : string) : gmap string Material :=
  list_to_map [
    ("ceramic_floor_basic",
      mk "Ceramic Floor Tiles - Basic" "flooring" "m²" 22.0 0.15 "basic" 0.95 now);
    ("ceramic_floor_standard",
      mk "Ceramic Floor Tiles - Standard" "flooring" "m²" 35.0 0.18 "standard" 0.90 now);
    ("wall_tiles_standard",
      mk "Wall Tiles - Standard" "tiling" "m²" 28.0 0.15 "standard" 0.90 now);
    ("tile_adhesive",
      mk "Flexible Tile Adhesive" "consumables" "kg" 2.8 0.10 "standard" 0.95 now);
    ("waterproof_membrane",
      mk "Waterproof Membrane" "consumables" "m²" 12.0 0.15 "standard" 0.90 now);
    ("shower_mixer_basic",
      mk "Shower Mixer - Basic Chrome" "plumbing" "unit" 85.0 0.25 "basic" 0.95 now);
    ("shower_mixer_premium",
      mk "Shower Mixer - Premium Thermostatic" "plumbing" "unit" 220.0 0.30 "premium" 0.75 now);
    ("toilet_standard",
      mk "Wall-hung Toilet - Standard" "plumbing" "unit" 280.0 0.20 "standard" 0.85 now);
    ("vanity_unit_60cm",
      mk "Vanity Unit 60cm with Basin" "installation" "unit" 320.0 0.25 "standard" 0.80 now);
    ("pipes_pvc",
      mk "PVC Pipes and Fittings" "plumbing" "m" 8.5 0.15 "standard" 0.95 now);
    ("bathroom_paint_basic",
      mk "Bathroom Paint - Anti-mold Basic" "painting" "liter" 15.0 0.12 "basic" 0.95 now);
    ("primer",
      mk "Wall Primer - Bathroom" "painting" "liter" 12.0 0.12 "standard" 0.95 now);
    ("demolition_materials",
      mk "Demolition Supplies" "consumables" "m²" 5.0 0.10 "basic" 0.95 now);
    ("electrical_supplies",
      mk "Electrical Supplies - Bathroom" "electrical" "unit" 45.0 0.20 "standard" 0.90 now)
  ].

(** [_setup_regional_pricing] *)
Definition _setup_regional_pricing : gmap string Q :=
  list_to_map [
    ("paris", 1.35); ("lyon", 1.15); ("marseille", 1.0); ("toulouse", 1.08);
    ("nice", 1.25); ("nantes", 1.05); ("strasbourg", 1.18); ("bordeaux", 1.12);
    ("lille", 1.10); ("montpellier", 1.03); ("rennes", 1.06); ("reims", 1.02)
  ].

(** [MaterialDatabase()] with no data file *)
Definition __init__ (now : string) : MaterialDatabase :=
  {| materials := _initialize_default_materials now;
     regional_multipliers := _setup_regional_pricing |}.

(** [self.regional_multipliers.get(key, 1.0)] *)
Definition multiplier_get (table : gmap string Q) (key : string) : Q :=
  default 1.0 (table !! key).

(** [get_material]: [None] for an unknown id, else the entry with its base
    cost scaled by the regional multiplier. *)
Definition get_material (self : MaterialDatabase) (material_id : string)
    (region : Py.value) : Py.result (option Material) :=
  match materials self !! material_id with
  | None => Py.ret None
  | Some base_material =>
      do key <- Py.str_lower region;
      let regional_multiplier := multiplier_get (regional_multipliers self) key in
      Py.ret (Some
        {| name := name base_material;
           category := category base_material;
           unit := unit base_material;
           base_cost := base_cost base_material * regional_multiplier;
           supplier_margin := supplier_margin base_material;
           quality_grade := quality_grade base_material;
           availability_score := availability_score base_material;
           last_updated := last_updated base_material;
           supplier_id := supplier_id base_material |})
  end.

(** The dictionary [get_cost_with_margin] returns on success. *)
Record CostInfo := {
  ci_material_id : string;
  ci_name : string;
  ci_quantity : Q;
  ci_unit : string;
  ci_unit_cost : Q;
  ci_base_cost : Q;
  ci_margin : Q;
  ci_total_cost : Q;
  ci_availability_score : Q;
  ci_quality_grade : string
}.

(** Either [{"error": ...}] or the cost dictionary. *)
Inductive cost_result :=
| CostError (error : string)
| CostOk (info : CostInfo).

Definition get_cost_with_margin (self : MaterialDatabase) (material_id : string)
    (quantity : Q) (region : Py.value) : Py.result cost_result :=
  do material <- get_material self material_id region;
  match material with
  | None => Py.ret (CostError ("Material " ++ material_id ++ " not found"))
  | Some material =>
      let base_cost_ := base_cost material * quantity in
      let margin_amount := base_cost_ * supplier_margin material in
      let total_cost := base_cost_ + margin_amount in
      Py.ret (CostOk
        {| ci_material_id := material_id;
           ci_name := name material;
           ci_quantity := quantity;
           ci_unit := unit material;
           ci_unit_cost := base_cost material;
           ci_base_cost := Py.py_round base_cost_ 2;
           ci_margin := Py.py_round margin_amount 2;
           ci_total_cost := Py.py_round total_cost 2;
           ci_availability_score := availability_score material;
           ci_quality_grade := quality_grade material |})
  end.

(** [update_material_price]: the new state and whether the id was known. *)
Definition update_material_price (self : MaterialDatabase) (material_id : string)
    (new_price : Q) (supplier : option string) (now : string) : MaterialDatabase * bool :=
  match materials self !! material_id with
  | Some m =>
      let m' :=
        {| name := name m; category := category m; unit := unit m;
           base_cost := new_price; supplier_margin := supplier_margin m;
           quality_grade := quality_grade m;
           availability_score := availability_score m;
           last_updated := now;
           supplier_id := match supplier with
                          | Some s => if String.eqb s EmptyString then supplier_id m else Some s
                          | None => supplier_id m
                          end |} in
      ({| materials := <[material_id := m']> (materials self);
          regional_multipliers := regional_multipliers self |}, true)
  | None => (self, false)
  end.

(** [add_material] *)
Definition add_material (self : MaterialDatabase) (material_id : string)
    (material : Material) : MaterialDatabase :=
  {| materials := <[material_id := material]> (materials self);
     regional_multipliers := regional_multipliers self |}.

(** [get_regional_multiplier] *)
Definition get_regional_multiplier (self : MaterialDatabase) (region : Py.value)
    : Py.result Q :=
  do key <- Py.str_lower region;
  Py.ret (multiplier_get (regional_multipliers self) key).

End MaterialDb.

(* ================================================================== *)
(** * pricing_logic/labor_calc.py                                       *)
(* ================================================================== *)

Module LaborCalc.

Inductive SkillLevel := HELPER | BASIC | SKILLED | SPECIALIST.

(** [skill_level.value] *)
Definition skill_value (s : SkillLevel) : string :=
  match s with
  | HELPER => "helper"
  | BASIC => "basic"
  | SKILLED => "skilled"
  | SPECIALIST => "specialist"
  end.

(** One entry of [task_definitions]. *)
Record TaskDef := {
  skill_level : SkillLevel;
  hours_per_sqm : Q;
  minimum_hours : Q;
  complexity_factors : gmap string Q
}.

(** [class LaborCalculator]: the tables [__init__] sets up. *)
Record LaborCalculator := {
  base_rates : SkillLevel -> Q;
  regional_multipliers : gmap string Q;
  task_definitions : gmap string TaskDef;
  seasonal_multipliers : gmap Z Q
}.

Definition __init__ : LaborCalculator :=
  {| base_rates := fun s =>
       match s with
       | HELPER => 22.0
       | BASIC => 30.0
       | SKILLED => 42.0
       | SPECIALIST => 65.0
       end;
     regional_multipliers := list_to_map [
       ("paris", 1.45); ("lyon", 1.20); ("marseille", 1.0); ("toulouse", 1.12);
       ("nice", 1.30); ("nantes", 1.05); ("strasbourg", 1.18); ("bordeaux", 1.15);
       ("lille", 1.10); ("montpellier", 1.03); ("rennes", 1.06); ("reims", 1.02) ];
     task_definitions := list_to_map [
       ("demolition",
         {| skill_level := BASIC; hours_per_sqm := 1.5; minimum_hours := 3.0;
            complexity_factors := list_to_map [
              ("thick_walls", 1.3); ("tight_access", 1.2); ("electrical_obstacles", 1.2) ] |});
       ("tiling",
         {| skill_level := SKILLED; hours_per_sqm := 2.8; minimum_hours := 6.0;
            complexity_factors := list_to_map [
              ("small_tiles", 1.4); ("pattern_work", 1.6); ("curved_surfaces", 1.5);
              ("waterproofing", 1.3) ] |});
       ("plumbing",
         {| skill_level := SPECIALIST; hours_per_sqm := 2.5; minimum_hours := 4.0;
            complexity_factors := list_to_map [
              ("new_connections", 1.5); ("old_building", 1.4); ("waterproofing", 1.2) ] |});
       ("electrical",
         {| skill_level := SPECIALIST; hours_per_sqm := 2.0; minimum_hours := 3.0;
            complexity_factors := list_to_map [
              ("new_circuit", 1.5); ("bathroom_safety", 1.3); ("concealed_wiring", 1.4) ] |});
       ("installation",
         {| skill_level := SKILLED; hours_per_sqm := 1.8; minimum_hours := 2.0;
            complexity_factors := list_to_map [
              ("heavy_items", 1.3); ("custom_fitting", 1.4); ("wall_mounting", 1.1) ] |});
       ("painting",
         {| skill_level := BASIC; hours_per_sqm := 1.0; minimum_hours := 4.0;
            complexity_factors := list_to_map [
              ("multiple_coats", 1.4); ("detail_work", 1.3); ("moisture_resistant", 1.1) ] |}) ];
     seasonal_multipliers := list_to_map [
       (1%Z, 0.95); (2%Z, 0.95); (3%Z, 1.0); (4%Z, 1.15); (5%Z, 1.25); (6%Z, 1.25);
       (7%Z, 1.35); (8%Z, 1.35); (9%Z, 1.15); (10%Z, 1.15); (11%Z, 0.95); (12%Z, 0.95) ]
  |}.

(** What the function reads of a [datetime]. *)
Record datetime := { year : Z; month : Z; day : Z }.

(** [{"factor": factor, "multiplier": factor_multiplier}] *)
Record AppliedFactor := { factor : string; multiplier : Q }.

(** The loop over [complexity_factors]: a tag the task's table knows
    multiplies the running product and is recorded; any other hashable
    value is passed over; the membership test hashes the tag. *)
Fixpoint apply_factors (task_def : TaskDef) (factors : list Py.value)
    (complexity_multiplier : Q) (applied_factors : list AppliedFactor)
    : Py.result (Q * list AppliedFactor) :=
  match factors with
  | [] => Py.ret (complexity_multiplier, applied_factors)
  | f :: rest =>
      if negb (Py.hashable f) then Py.unhashable f
      else
        match f with
        | Py.VStr tag =>
            match complexity_factors task_def !! tag with
            | Some factor_multiplier =>
                apply_factors task_def rest
                  (complexity_multiplier * factor_multiplier)
                  (applied_factors ++ [ {| factor := tag; multiplier := factor_multiplier |} ])
            | None => apply_factors task_def rest complexity_multiplier applied_factors
            end
        | _ => apply_factors task_def rest complexity_multiplier applied_factors
        end
  end.

(** The local variables of [calculate_task_labor], unrounded. *)
Record LaborVars := {
  v_base_hours : Q;
  v_billable_hours : Q;
  v_complexity_multiplier : Q;
  v_applied_factors : list AppliedFactor;
  v_final_hours : Q;
  v_base_hourly_rate : Q;
  v_regional_multiplier : Q;
  v_regional_rate : Q;
  v_seasonal_multiplier : Q;
  v_rush_multiplier : Q;
  v_final_hourly_rate : Q;
  v_base_labor_cost : Q
}.

(** The body of [calculate_task_labor] once the task is known, statement
    by statement. *)
Definition labor_vars (self : LaborCalculator) (task_def : TaskDef)
    (area_or_units region complexity : Py.value)
    (target_date : option datetime) (rush_job : bool) : Py.result LaborVars :=
  do area <- Py.as_number area_or_units;
  let base_hours := area * hours_per_sqm task_def in
  let billable_hours := Py.py_max base_hours (minimum_hours task_def) in
  do cm <- (if Py.truthy complexity
            then do fs <- Py.iter complexity; apply_factors task_def fs 1.0 []
            else Py.ret (1.0, []));
  let complexity_multiplier := fst cm in
  let final_hours := billable_hours * complexity_multiplier in
  let base_hourly_rate := base_rates self (skill_level task_def) in
  do key <- Py.str_lower region;
  let regional_multiplier := default 1.0 (regional_multipliers self !! key) in
  let regional_rate := base_hourly_rate * regional_multiplier in
  let seasonal_multiplier :=
    match target_date with
    | Some d => default 1.0 (seasonal_multipliers self !! month d)
    | None => 1.0
    end in
  let rush_multiplier := if rush_job then 1.8 else 1.0 in
  let final_hourly_rate := regional_rate * seasonal_multiplier * rush_multiplier in
  let base_labor_cost := final_hours * final_hourly_rate in
  Py.ret
    {| v_base_hours := base_hours;
       v_billable_hours := billable_hours;
       v_complexity_multiplier := complexity_multiplier;
       v_applied_factors := snd cm;
       v_final_hours := final_hours;
       v_base_hourly_rate := base_hourly_rate;
       v_regional_multiplier := regional_multiplier;
       v_regional_rate := regional_rate;
       v_seasonal_multiplier := seasonal_multiplier;
       v_rush_multiplier := rush_multiplier;
       v_final_hourly_rate := final_hourly_rate;
       v_base_labor_cost := base_labor_cost |}.

(** The dictionary [calculate_task_labor] returns on success. *)
Record LaborInfo := {
  task_type : string;
  skill_required : string;
  base_hours : Q;
  billable_hours : Q;
  final_hours : Q;
  base_hourly_rate : Q;
  regional_multiplier : Q;
  complexity_multiplier : Q;
  seasonal_multiplier : Q;
  rush_multiplier : Q;
  final_hourly_rate : Q;
  base_labor_cost : Q;
  applied_complexity_factors : list AppliedFactor;
  area_or_units : Py.value
}.

(** Either [{"error": ...}] or the labor dictionary. *)
Inductive labor_result :=
| LaborError (error : string)
| LaborOk (info : LaborInfo).

Definition calculate_task_labor (self : LaborCalculator) (task_type_ : string)
    (area_or_units_ region complexity : Py.value)
    (target_date : option datetime) (rush_job : bool) : Py.result labor_result :=
  match task_definitions self !! task_type_ with
  | None => Py.ret (LaborError ("Unknown task type: " ++ task_type_))
  | Some task_def =>
      do v <- labor_vars self task_def area_or_units_ region complexity target_date rush_job;
      Py.ret (LaborOk
        {| task_type := task_type_;
           skill_required := skill_value (skill_level task_def);
           base_hours := Py.py_round (v_base_hours v) 1;
           billable_hours := Py.py_round (v_billable_hours v) 1;
           final_hours := Py.py_round (v_final_hours v) 1;
           base_hourly_rate := v_base_hourly_rate v;
           regional_multiplier := v_regional_multiplier v;
           complexity_multiplier := Py.py_round (v_complexity_multiplier v) 2;
           seasonal_multiplier := Py.py_round (v_seasonal_multiplier v) 2;
           rush_multiplier := v_rush_multiplier v;
           final_hourly_rate := Py.py_round (v_final_hourly_rate v) 2;
           base_labor_cost := Py.py_round (v_base_labor_cost v) 2;
           applied_complexity_factors := v_applied_factors v;
           area_or_units := area_or_units_ |})
  end.

(** [get_hourly_rate] *)
Definition get_hourly_rate (self : LaborCalculator) (skill : SkillLevel)
    (region : Py.value) : Py.result Q :=
  let base_rate := base_rates self skill in
  do key <- Py.str_lower region;
  Py.ret (base_rate * default 1.0 (regional_multipliers self !! key)).

(** The dictionary [estimate_project_duration] returns. *)
Record Duration := {
  total_labor_hours : Q;
  work_days : Q;
  estimated_duration_days : Q
}.

(** [sum(task.get("final_hours", 0) for task in tasks)]: each task is
    read, then added, before the next one is looked at. *)
Fixpoint sum_final_hours (acc : Py.value) (tasks : list Py.value) : Py.result Py.value :=
  match tasks with
  | [] => Py.ret acc
  | task :: rest =>
      do h <- Py.get task "final_hours" (Py.VInt 0);
      do acc' <- Py.num_add acc h;
      sum_final_hours acc' rest
  end.

(** [estimate_project_duration]: eight-hour days plus 10% coordination. *)
Definition estimate_project_duration (self : LaborCalculator) (tasks : Py.value)
    : Py.result Duration :=
  do ts <- Py.iter tasks;
  do total <- sum_final_hours (Py.VInt 0) ts;
  let total_hours := Py.value_of total in
  let work_days_ := total_hours / 8.0 in
  let total_days := work_days_ * 1.1 in
  Py.ret {| total_labor_hours := Py.py_round total_hours 1;
            work_days := Py.py_round work_days_ 1;
            estimated_duration_days := Py.py_round total_days 1 |}.

End LaborCalc.

(* ================================================================== *)
(** * pricing_logic/vat_rules.py                                        *)
(* ================================================================== *)

Module VatRules.

(** The four named tiers of [self.vat_rates]. *)
Record VatRates := {
  standard : Q;
  renovation : Q;
  energy_efficiency : Q;
  social_housing : Q
}.

(** [class VATCalculatorForQuotes] *)
Record VATCalculatorForQuotes := {
  vat_rates : VatRates;
  energy_materials : list string
}.

Definition __init__ : VATCalculatorForQuotes :=
  {| vat_rates :=
       {| standard := 0.20; renovation := 0.10;
          energy_efficiency := 0.055; social_housing := 0.055 |};
     energy_materials :=
       [ "insulation_materials"; "heat_pump"; "solar_panels";
         "energy_efficient_windows"; "programmable_thermostat";
         "heat_recovery_ventilation"; "energy_efficient_boiler" ] |}.

(** The dictionary [calculate_simple_renovation_vat] returns. *)
Record VatResult := {
  materials_cost : Q;
  labor_cost : Q;
  subtotal : Q;
  vat_rate : Q;
  vat_amount : Q;
  total_including_vat : Q;
  rate_description : string;
  building_age_years : Z;
  is_energy_renovation : bool
}.

Definition calculate_simple_renovation_vat (self : VATCalculatorForQuotes)
    (materials_cost_ labor_cost_ : Q) (building_age : Z) (is_energy : bool)
    : VatResult :=
  let subtotal_ := materials_cost_ + labor_cost_ in
  let tier :=
    if is_energy && (2 <=? building_age)%Z then
      (energy_efficiency (vat_rates self), "Energy efficiency renovation (5.5%)")
    else if (2 <=? building_age)%Z then
      (renovation (vat_rates self), "Renovation work on building >2 years (10%)")
    else
      (standard (vat_rates self), "New construction rate (20%)") in
  let vat_rate_ := fst tier in
  let description := snd tier in
  let vat_amount_ := subtotal_ * vat_rate_ in
  let total := subtotal_ + vat_amount_ in
  {| materials_cost := materials_cost_;
     labor_cost := labor_cost_;
     subtotal := subtotal_;
     vat_rate := vat_rate_;
     vat_amount := Py.py_round vat_amount_ 2;
     total_including_vat := Py.py_round total 2;
     rate_description := description;
     building_age_years := building_age;
     is_energy_renovation := is_energy |}.

Inductive PropertyType :=
| RESIDENTIAL_PRIMARY | RESIDENTIAL_SECONDARY | COMMERCIAL | SOCIAL_HOUSING.

Inductive WorkType :=
| RENOVATION | NEW_CONSTRUCTION | MAINTENANCE | IMPROVEMENT | ENERGY_RENOVATION.

Definition property_type_eqb (a b : PropertyType) : bool :=
  match a, b with
  | RESIDENTIAL_PRIMARY, RESIDENTIAL_PRIMARY
  | RESIDENTIAL_SECONDARY, RESIDENTIAL_SECONDARY
  | COMMERCIAL, COMMERCIAL
  | SOCIAL_HOUSING, SOCIAL_HOUSING => true
  | _, _ => false
  end.

Definition work_type_eqb (a b : WorkType) : bool :=
  match a, b with
  | RENOVATION, RENOVATION
  | NEW_CONSTRUCTION, NEW_CONSTRUCTION
  | MAINTENANCE, MAINTENANCE
  | IMPROVEMENT, IMPROVEMENT
  | ENERGY_RENOVATION, ENERGY_RENOVATION => true
  | _, _ => false
  end.

(** The work context dictionary: each key may be absent; present keys hold
    an enum member, an integer age and a boolean, as the callers pass
    them. *)
Record WorkContext := {
  work_type : option WorkType;
  property_type : option PropertyType;
  ctx_building_age_years : option Z;
  has_energy_features : option bool
}.

(** The dictionary [_determine_vat_rate] returns. *)
Record VatInfo := {
  rate : Q;
  description : string;
  requirements : list string
}.

Definition _determine_vat_rate (self : VATCalculatorForQuotes) (context : WorkContext)
    : VatInfo :=
  let work_type_ := default RENOVATION (work_type context) in
  let property_type_ := default RESIDENTIAL_PRIMARY (property_type context) in
  let building_age := default 5%Z (ctx_building_age_years context) in
  let has_energy_features_ := default false (has_energy_features context) in
  if property_type_eqb property_type_ SOCIAL_HOUSING then
    {| rate := social_housing (vat_rates self);
       description := "Social housing improvements (5.5%)";
       requirements := [ "Social housing certification"; "Qualified contractor" ] |}
  else if (work_type_eqb work_type_ ENERGY_RENOVATION || has_energy_features_)
          && (2 <=? building_age)%Z then
    {| rate := energy_efficiency (vat_rates self);
       description := "Energy efficiency improvements (5.5%)";
       requirements := [ "Building age certificate (>2 years)";
                         "Energy efficiency certifications for materials";
                         "RGE certified contractor required";
                         "Customer declaration of building use" ] |}
  else if (2 <=? building_age)%Z
          && (property_type_eqb property_type_ RESIDENTIAL_PRIMARY
              || property_type_eqb property_type_ RESIDENTIAL_SECONDARY) then
    {| rate := renovation (vat_rates self);
       description := "Renovation work on building >2 years (10%)";
       requirements := [ "Building age certificate (>2 years)";
                         "VAT-registered contractor required";
                         "Detailed materials/labor breakdown";
                         "Customer declaration of building use" ] |}
  else
    {| rate := standard (vat_rates self);
       description := "Standard VAT rate (20%)";
       requirements := [ "Standard VAT invoice required" ] |}.

(** The loop of [calculate_detailed_vat]: the two running totals. *)
Fixpoint split_items (items : list Py.value) (total_materials total_labor : Py.value)
    : Py.result (Py.value * Py.value) :=
  match items with
  | [] => Py.ret (total_materials, total_labor)
  | item :: rest =>
      do ty <- Py.get item "type" Py.VNone;
      if Py.eq_str ty "materials" then
        do amount <- Py.subscript item "amount";
        do total_materials' <- Py.num_add total_materials amount;
        split_items rest total_materials' total_labor
      else if Py.eq_str ty "labor" then
        do amount <- Py.subscript item "amount";
        do total_labor' <- Py.num_add total_labor amount;
        split_items rest total_materials total_labor'
      else split_items rest total_materials total_labor
  end.

(** The dictionary [calculate_detailed_vat] returns. *)
Record DetailedVat := {
  dv_materials_total : Q;
  dv_labor_total : Q;
  dv_subtotal : Q;
  dv_vat_rate : Q;
  dv_vat_description : string;
  dv_vat_amount : Q;
  dv_total_including_vat : Q;
  dv_compliance_requirements : list string
}.

Definition calculate_detailed_vat (self : VATCalculatorForQuotes) (items : Py.value)
    (work_context : WorkContext) : Py.result DetailedVat :=
  do its <- Py.iter items;
  do totals <- split_items its (Py.VInt 0) (Py.VInt 0);
  let total_materials := Py.value_of (fst totals) in
  let total_labor := Py.value_of (snd totals) in
  let vat_info := _determine_vat_rate self work_context in
  let subtotal_ := total_materials + total_labor in
  let vat_amount_ := subtotal_ * rate vat_info in
  let total_with_vat := subtotal_ + vat_amount_ in
  Py.ret {| dv_materials_total := Py.py_round total_materials 2;
            dv_labor_total := Py.py_round total_labor 2;
            dv_subtotal := Py.py_round subtotal_ 2;
            dv_vat_rate := rate vat_info;
            dv_vat_description := description vat_info;
            dv_vat_amount := Py.py_round vat_amount_ 2;
            dv_total_including_vat := Py.py_round total_with_vat 2;
            dv_compliance_requirements := requirements vat_info |}.

(** One suggestion of [get_vat_optimization_suggestions]. *)
Record Suggestion := {
  sg_type : string;
  sg_description : string;
  sg_potential_savings_rate : Q;
  sg_requirements : string;
  sg_certification_needed : option string
}.

Definition get_vat_optimization_suggestions (self : VATCalculatorForQuotes)
    (context : WorkContext) : list Suggestion :=
  let building_age := default 0%Z (ctx_building_age_years context) in
  let current_work_type := default RENOVATION (work_type context) in
  let suggestions :=
    if work_type_eqb current_work_type RENOVATION
       && (2 <=? building_age)%Z
       && negb (default false (has_energy_features context)) then
      let current_rate := renovation (vat_rates self) in
      let energy_rate := energy_efficiency (vat_rates self) in
      [ {| sg_type := "energy_efficiency_upgrade";
           sg_description :=
             "Add energy efficiency improvements to qualify for 5.5% VAT rate";
           sg_potential_savings_rate := current_rate - energy_rate;
           sg_requirements :=
             "Add insulation, efficient heating, or renewable energy components";
           sg_certification_needed := Some "RGE certified contractor required" |} ]
    else [] in
  if (building_age <? 2)%Z then
    (suggestions ++
      [ {| sg_type := "timing_optimization";
           sg_description := "Wait until building is 2+ years old for reduced VAT rates";
           sg_potential_savings_rate := 0.10;
           sg_requirements := "Delay work until building age requirement is met";
           sg_certification_needed := None |} ])%list
  else suggestions.

(** The dictionary [validate_vat_compliance] returns. *)
Record Compliance := {
  compliant : bool;
  compliance_issues : list string;
  documentation_required : list string;
  vat_rate_applied : Py.value;
  validation_date : string
}.

(** [validate_vat_compliance]; [quote_data] is a dictionary of any values,
    [now] is [datetime.now().isoformat()]. *)
Definition validate_vat_compliance (self : VATCalculatorForQuotes)
    (quote_data : list (string * Py.value)) (now : string) : Py.result Compliance :=
  let vat_rate_ := Py.dict_get quote_data "vat_rate" (Py.VFloat 0.20) in
  let building_age := Py.dict_get quote_data "building_age_years" (Py.VInt 0) in
  let documentation :=
    if Py.eq_float vat_rate_ 0.10 then
      [ "Building age certificate or construction permit showing building >2 years old";
        "Contractor VAT registration certificate";
        "Detailed invoice separating materials and labor";
        "Customer declaration of residential use" ]
    else if Py.eq_float vat_rate_ 0.055 then
      [ "Building age certificate showing building >2 years old";
        "Energy efficiency certifications for all materials";
        "RGE (Reconnu Garant de l'Environnement) contractor certification";
        "Energy performance improvement documentation";
        "Customer declaration of residential use and building age" ]
    else [] in
  do reduced <- Py.lt_num vat_rate_ 0.20 "float";
  let documentation' :=
    if reduced then (documentation ++ [ "Contractor must be VAT registered in France" ])%list
    else documentation in
  do reduced_again <- Py.lt_num vat_rate_ 0.20 "float";
  do too_young <- (if reduced_again then Py.lt_num building_age 2 "int" else Py.ret false);
  let issues :=
    if reduced_again && too_young
    then [ "Building age is <2 years but reduced VAT rate applied" ]
    else [] in
  Py.ret {| compliant := (Z.of_nat (List.length issues) =? 0)%Z;
            compliance_issues := issues;
            documentation_required := documentation';
            vat_rate_applied := vat_rate_;
            validation_date := now |}.

(** One entry of the scenarios [calculate_vat_savings_scenarios] returns. *)
Record Scenario := {
  sc_rate : Q;
  sc_vat_amount : Q;
  sc_total : Q;
  sc_description : string;
  sc_savings_vs_standard : option Q;
  sc_savings_vs_renovation : option Q
}.

(** [calculate_vat_savings_scenarios]: the scenarios by name, in the order
    they are entered. *)
Definition calculate_vat_savings_scenarios (self : VATCalculatorForQuotes)
    (base_amount : Q) (building_age : Z) : list (string * Scenario) :=
  let standard_vat := base_amount * standard (vat_rates self) in
  let scenarios :=
    [ ("standard",
       {| sc_rate := standard (vat_rates self);
          sc_vat_amount := Py.py_round standard_vat 2;
          sc_total := Py.py_round (base_amount + standard_vat) 2;
          sc_description := "Standard rate (new construction/commercial)";
          sc_savings_vs_standard := None;
          sc_savings_vs_renovation := None |}) ] in
  if (2 <=? building_age)%Z then
    let renovation_vat := base_amount * renovation (vat_rates self) in
    let energy_vat := base_amount * energy_efficiency (vat_rates self) in
    (scenarios ++
      [ ("renovation",
         {| sc_rate := renovation (vat_rates self);
            sc_vat_amount := Py.py_round renovation_vat 2;
            sc_total := Py.py_round (base_amount + renovation_vat) 2;
            sc_description := "Renovation rate (building >2 years)";
            sc_savings_vs_standard := Some (Py.py_round (standard_vat - renovation_vat) 2);
            sc_savings_vs_renovation := None |});
        ("energy_efficiency",
         {| sc_rate := energy_efficiency (vat_rates self);
            sc_vat_amount := Py.py_round energy_vat 2;
            sc_total := Py.py_round (base_amount + energy_vat) 2;
            sc_description := "Energy efficiency rate (with certified improvements)";
            sc_savings_vs_standard := Some (Py.py_round (standard_vat - energy_vat) 2);
            sc_savings_vs_renovation :=
              Some (Py.py_round (renovation_vat - energy_vat) 2) |}) ])%list
  else scenarios.

End VatRules.

(* ================================================================== *)
(** * pricing_engine.py                                                 *)
(* ================================================================== *)

Module Engine.

(** The parser is an external service: a call either raises or returns the
    decoded JSON object. *)
Record SmartTranscriptParser := {
  parse_transcript : string -> Py.result (list (string * Py.value))
}.

(** One entry of the engine's own [task_definitions]; [materials] keeps
    the order of the dictionary literal. *)
Record TaskDefinition := {
  skill_level : LaborCalc.SkillLevel;
  hours_per_sqm : Q;
  materials : list (string * Q)
}.

(** [class PricingEngine] *)
Record PricingEngine := {
  material_db : MaterialDb.MaterialDatabase;
  labor_calc : LaborCalc.LaborCalculator;
  vat_calculator : VatRules.VATCalculatorForQuotes;
  transcript_parser : SmartTranscriptParser;
  task_definitions : gmap string TaskDefinition
}.

Definition __init__ (parser : SmartTranscriptParser) (now : string) : PricingEngine :=
  {| material_db := MaterialDb.__init__ now;
     labor_calc := LaborCalc.__init__;
     vat_calculator := VatRules.__init__;
     transcript_parser := parser;
     task_definitions := list_to_map [
       ("demolition",
         {| skill_level := LaborCalc.BASIC; hours_per_sqm := 1.5;
            materials := [ ("demolition_materials", 1.0) ] |});
       ("tiling",
         {| skill_level := LaborCalc.SKILLED; hours_per_sqm := 2.8;
            materials := [ ("ceramic_floor_basic", 1.1); ("tile_adhesive", 1.5);
                           ("waterproof_membrane", 1.0) ] |});
       ("plumbing",
         {| skill_level := LaborCalc.SPECIALIST; hours_per_sqm := 2.5;
            materials := [ ("shower_mixer_basic", 0.25); ("toilet_standard", 0.25);
                           ("pipes_pvc", 3.0) ] |});
       ("installation",
         {| skill_level := LaborCalc.SKILLED; hours_per_sqm := 1.8;
            materials := [ ("vanity_unit_60cm", 0.25) ] |});
       ("painting",
         {| skill_level := LaborCalc.BASIC; hours_per_sqm := 1.0;
            materials := [ ("bathroom_paint_basic", 0.2); ("primer", 0.15) ] |});
       ("electrical",
         {| skill_level := LaborCalc.SPECIALIST; hours_per_sqm := 2.0;
            materials := [ ("electrical_supplies", 0.5) ] |}) ] |}.

(** One costed material of a detailed task. *)
Record MaterialLine := {
  ml_name : string;
  ml_quantity : Q;
  ml_unit : string;
  ml_unit_cost : Q;
  ml_total_cost : Q
}.

(** One detailed task, as [_generate_detailed_tasks] appends it. *)
Record DetailedTask := {
  dt_task_type : string;
  dt_description : Py.value;
  dt_area_sqm : Py.value;
  dt_labor_hours : Q;
  dt_labor_cost : Q;
  dt_materials : list MaterialLine;
  dt_materials_cost : Q;
  dt_skill_required : string;
  dt_complexity_factors : Py.value
}.

Definition material_dict (m : MaterialLine) : Py.value :=
  Py.VDict [ ("name", Py.VStr (ml_name m));
             ("quantity", Py.VFloat (ml_quantity m));
             ("unit", Py.VStr (ml_unit m));
             ("unit_cost", Py.VFloat (ml_unit_cost m));
             ("total_cost", Py.VFloat (ml_total_cost m)) ].

(** The task as the Python dictionary it is, keys in insertion order. *)
Definition task_dict (t : DetailedTask) : Py.value :=
  Py.VDict [ ("task_type", Py.VStr (dt_task_type t));
             ("description", dt_description t);
             ("area_sqm", dt_area_sqm t);
             ("labor_hours", Py.VFloat (dt_labor_hours t));
             ("labor_cost", Py.VFloat (dt_labor_cost t));
             ("materials", Py.VList (map material_dict (dt_materials t)));
             ("materials_cost", Py.VFloat (dt_materials_cost t));
             ("skill_required", Py.VStr (dt_skill_required t));
             ("complexity_factors", dt_complexity_factors t) ].

(** [@dataclass class Quote] *)
Record Quote := {
  project_id : string;
  zone : string;
  city : Py.value;
  total_area_sqm : Py.value;
  tasks : list Py.value;
  subtotal_materials : Q;
  subtotal_labor : Q;
  vat_amount : Q;
  total_price : Q;
  margin_percentage : Q;
  confidence_score : Py.value;
  parsing_method : Py.value;
  created_at : string
}.

(** What the engine reads of the clock: [strftime('%Y%m%d_%H%M%S')] and
    [isoformat()] of [datetime.now()]. *)
Record Clock := { stamp : string; iso : string }.

(** The inner loop of [_generate_detailed_tasks], over
    [task_def["materials"].items()]. *)
Fixpoint cost_materials (self : PricingEngine) (area city_ : Py.value)
    (items : list (string * Q)) (materials_ : list MaterialLine)
    (total_materials_cost : Q) : Py.result (list MaterialLine * Q) :=
  match items with
  | [] => Py.ret (materials_, total_materials_cost)
  | (material_id, qty_per_sqm) :: rest =>
      do a <- Py.as_number area;
      let quantity := a * qty_per_sqm in
      do cost_info <-
        MaterialDb.get_cost_with_margin (material_db self) material_id quantity city_;
      match cost_info with
      | MaterialDb.CostOk ci =>
          cost_materials self area city_ rest
            (materials_ ++ [ {| ml_name := MaterialDb.ci_name ci;
                                ml_quantity := MaterialDb.ci_quantity ci;
                                ml_unit := MaterialDb.ci_unit ci;
                                ml_unit_cost := MaterialDb.ci_unit_cost ci;
                                ml_total_cost := MaterialDb.ci_total_cost ci |} ])
            (total_materials_cost + MaterialDb.ci_total_cost ci)
      | MaterialDb.CostError _ =>
          cost_materials self area city_ rest materials_ total_materials_cost
      end
  end.

(** The outer loop of [_generate_detailed_tasks], over the parsed tasks. *)
Fixpoint expand_tasks (self : PricingEngine) (area city_ : Py.value)
    (todo : list Py.value) (detailed_tasks : list DetailedTask)
    : Py.result (list DetailedTask) :=
  match todo with
  | [] => Py.ret detailed_tasks
  | task :: rest =>
      do task_type <- Py.get task "type" Py.VNone;
      if negb (Py.hashable task_type) then Py.unhashable task_type
      else
        match task_type with
        | Py.VStr key =>
            match task_definitions self !! key with
            | None => expand_tasks self area city_ rest detailed_tasks
            | Some task_def =>
                do mats <- cost_materials self area city_ (materials task_def) [] 0.0;
                do factors <- Py.get task "complexity_factors" (Py.VList []);
                do labor_result <-
                  LaborCalc.calculate_task_labor (labor_calc self)
                    (Py.remove_char "_" key) area city_ factors None false;
                match labor_result with
                | LaborCalc.LaborOk lr =>
                    do description <-
                      Py.get task "description" (Py.VStr (Py.title key ++ " work"));
                    expand_tasks self area city_ rest
                      (detailed_tasks ++
                        [ {| dt_task_type := key;
                             dt_description := description;
                             dt_area_sqm := area;
                             dt_labor_hours := LaborCalc.billable_hours lr;
                             dt_labor_cost := LaborCalc.base_labor_cost lr;
                             dt_materials := fst mats;
                             dt_materials_cost := Py.py_round (snd mats) 2;
                             dt_skill_required := LaborCalc.skill_required lr;
                             dt_complexity_factors := factors |} ])
                | LaborCalc.LaborError _ =>
                    expand_tasks self area city_ rest detailed_tasks
                end
            end
        | _ => expand_tasks self area city_ rest detailed_tasks
        end
  end.

Definition _generate_detailed_tasks (self : PricingEngine)
    (parsed_data : list (string * Py.value)) : Py.result (list DetailedTask) :=
  let area := Py.dict_get parsed_data "area_sqm" (Py.VFloat 4.0) in
  let city_ := Py.dict_get parsed_data "city" (Py.VStr "marseille") in
  do todo <- Py.iter (Py.dict_get parsed_data "tasks" (Py.VList []));
  expand_tasks self area city_ todo [].

(** The locals of [_calculate_final_quote]. *)

Definition margin_of (parsed_data : list (string * Py.value)) : Q :=
  if Py.truthy (Py.dict_get parsed_data "budget_conscious" (Py.VBool false))
  then 0.15 else 0.25.

Definition building_age : Z := 5.

(** [any("energy" in str(task).lower() for task in tasks)] *)
Definition is_energy (tasks_ : list DetailedTask) : bool :=
  existsb (fun task => Py.contains "energy" (Py.lower (Py.str (task_dict task)))) tasks_.

Definition vat_calculation (self : PricingEngine)
    (parsed_data : list (string * Py.value)) (tasks_ : list DetailedTask)
    : VatRules.VatResult :=
  let subtotal_materials_ := Py.py_sum (map dt_materials_cost tasks_) in
  let subtotal_labor_ := Py.py_sum (map dt_labor_cost tasks_) in
  let margin := margin_of parsed_data in
  VatRules.calculate_simple_renovation_vat (vat_calculator self)
    (subtotal_materials_ * (1 + margin))
    (subtotal_labor_ * (1 + margin))
    building_age
    (is_energy tasks_).

Definition _calculate_final_quote (self : PricingEngine)
    (parsed_data : list (string * Py.value)) (tasks_ : list DetailedTask)
    (now : Clock) : Quote :=
  let subtotal_materials_ := Py.py_sum (map dt_materials_cost tasks_) in
  let subtotal_labor_ := Py.py_sum (map dt_labor_cost tasks_) in
  let vat := vat_calculation self parsed_data tasks_ in
  {| project_id := "BTH_" ++ stamp now;
     zone := "bathroom";
     city := Py.dict_get parsed_data "city" (Py.VStr "marseille");
     total_area_sqm := Py.dict_get parsed_data "area_sqm" (Py.VFloat 4.0);
     tasks := map task_dict tasks_;
     subtotal_materials := Py.py_round subtotal_materials_ 2;
     subtotal_labor := Py.py_round subtotal_labor_ 2;
     vat_amount := VatRules.vat_amount vat;
     total_price := VatRules.total_including_vat vat;
     margin_percentage := margin_of parsed_data;
     confidence_score := Py.dict_get parsed_data "confidence_score" (Py.VFloat 0.5);
     parsing_method := Py.dict_get parsed_data "parsing_method" (Py.VStr "unknown");
     created_at := iso now |}.

(** The single placeholder line item of the fallback quote. *)
Definition fallback_task (error : string) : Py.value :=
  Py.VDict [ ("task_type", Py.VStr "general_renovation");
             ("description", Py.VStr "General bathroom renovation (fallback estimate)");
             ("area_sqm", Py.VFloat 4.0);
             ("labor_hours", Py.VFloat 20.0);
             ("labor_cost", Py.VFloat 800.0);
             ("materials", Py.VList [ Py.VDict [ ("name", Py.VStr "Mixed materials");
                                                 ("total_cost", Py.VFloat 1200.0) ] ]);
             ("materials_cost", Py.VFloat 1200.0);
             ("skill_required", Py.VStr "skilled");
             ("error", Py.VStr error) ].

Definition _generate_fallback_quote (transcript error : string) (now : Clock) : Quote :=
  {| project_id := "BTH_FALLBACK_" ++ stamp now;
     zone := "bathroom";
     city := Py.VStr "marseille";
     total_area_sqm := Py.VFloat 4.0;
     tasks := [ fallback_task error ];
     subtotal_materials := 1200.0;
     subtotal_labor := 800.0;
     vat_amount := 200.0;
     total_price := 2200.0;
     margin_percentage := 0.20;
     confidence_score := Py.VFloat 0.1;
     parsing_method := Py.VStr "fallback";
     created_at := iso now |}.

(** [_save_quote]: the file system is a map from path to stored quote;
    [io_ok] tells whether the write goes through. A failed write is caught
    inside the method and leaves the files as they were. The two lines the
    method prints, "Quote saved: <path>" and "Could not save quote:
    <error>", are ASCII for the path it writes ("output/BTH_", digits, "_",
    ".json") and for error texts in English, so the stream writes them. *)
Definition _save_quote (io_ok : bool) (quote : Quote) (files : gmap string Quote)
    : gmap string Quote :=
  if io_ok then insert ("output/" ++ project_id quote ++ ".json") quote files
  else files.

(** The [try] block of [generate_quote]. *)
Definition generate_quote_try (self : PricingEngine) (transcript : string)
    (now : Clock) (io_ok : bool) (files : gmap string Quote)
    : Py.result (Quote * gmap string Quote) :=
  do parsed_data <- parse_transcript (transcript_parser self) transcript;
  do tasks_ <- _generate_detailed_tasks self parsed_data;
  let quote := _calculate_final_quote self parsed_data tasks_ now in
  let files' := _save_quote io_ok quote files in
  Py.ret (quote, files').

(** The line the handler of [generate_quote] prints: a cross mark (U+274C),
    then the text and [str(e)]. *)
Definition failure_line (e : Py.exn) : string :=
  "❌ Quote generation failed: " ++ Py.str_exn e.

(** [generate_quote]: the quote returned, or the exception that leaves the
    method, and the files afterwards. The handler prints before it builds
    the fallback quote, and nothing guards the print. *)
Definition generate_quote (self : PricingEngine) (stdout : Py.Stdout)
    (transcript : string) (now : Clock) (io_ok : bool) (files : gmap string Quote)
    : Py.result Quote * gmap string Quote :=
  match generate_quote_try self transcript now io_ok files with
  | inr (quote, files') => (inr quote, files')
  | inl e =>
      (do printed <- Py.print stdout (failure_line e);
       Py.ret (_generate_fallback_quote transcript (Py.str_exn e) now),
       files)
  end.

End Engine.

(* ================================================================== *)
(** * pricing_logic/transcript_parser.py                                *)
(* ================================================================== *)

Module TranscriptParser.

(** [sum(len(task.get("complexity_factors", [])) for task in tasks)] *)
Fixpoint sum_complexity (acc : Z) (tasks : list Py.value) : Py.result Z :=
  match tasks with
  | [] => Py.ret acc
  | task :: rest =>
      do factors <- Py.get task "complexity_factors" (Py.VList []);
      do n <- Py.py_len factors;
      sum_complexity (acc + n) rest
  end.

(** [_calculate_confidence], on whatever the service's answer decoded to. *)
Definition _calculate_confidence (parsed_data : Py.value) (transcript : string)
    : Py.result Q :=
  let confidence := 0.75 in
  let confidence :=
    if existsb (fun indicator => Py.contains indicator (Py.lower transcript))
               [ "m²"; "meter"; "square" ]
    then confidence + 0.1 else confidence in
  let french_cities :=
    [ "paris"; "lyon"; "marseille"; "toulouse"; "nice"; "nantes"; "bordeaux" ] in
  let confidence :=
    if existsb (fun city => Py.contains city (Py.lower transcript)) french_cities
    then confidence + 0.1 else confidence in
  do tasks <- Py.get parsed_data "tasks" (Py.VList []);
  do task_count <- Py.py_len tasks;
  let confidence :=
    if (3 <=? task_count)%Z then confidence + 0.1
    else if (2 <=? task_count)%Z then confidence + 0.05
    else confidence in
  do tasks' <- Py.get parsed_data "tasks" (Py.VList []);
  do todo <- Py.iter tasks';
  do total_complexity <- sum_complexity 0 todo;
  let confidence :=
    if (0 <? total_complexity)%Z
    then confidence + Py.py_min 0.05 (inject_Z total_complexity * 0.02)
    else confidence in
  let words := Py.word_count transcript in
  let confidence :=
    if (words <? 10)%Z then confidence - 0.2
    else if (words <? 20)%Z then confidence - 0.1
    else confidence in
  Py.ret (Py.py_max 0.3 (Py.py_min 1.0 confidence)).

End TranscriptParser.

(* ================================================================== *)
(** * Notions the properties are stated with                            *)
(* ================================================================== *)

Module Notions.

(** Two catalog states differ at most in availability scores: the same
    regional table, and the same entries once the score is blanked. *)
Definition forget_availability (m : MaterialDb.Material) : MaterialDb.Material :=
  {| MaterialDb.name := MaterialDb.name m;
     MaterialDb.category := MaterialDb.category m;
     MaterialDb.unit := MaterialDb.unit m;
     MaterialDb.base_cost := MaterialDb.base_cost m;
     MaterialDb.supplier_margin := MaterialDb.supplier_margin m;
     MaterialDb.quality_grade := MaterialDb.quality_grade m;
     MaterialDb.availability_score := 0;
     MaterialDb.last_updated := MaterialDb.last_updated m;
     MaterialDb.supplier_id := MaterialDb.supplier_id m |}.

Definition same_but_availability (a b : MaterialDb.MaterialDatabase) : Prop :=
  MaterialDb.regional_multipliers a = MaterialDb.regional_multipliers b /\
  forget_availability <$> MaterialDb.materials a =
  forget_availability <$> MaterialDb.materials b.

(** Two outcomes of the material-cost operation show the same prices: the
    same exception, the same error, or the same four amounts. *)
Definition same_prices (r1 r2 : Py.result MaterialDb.cost_result) : Prop :=
  match r1, r2 with
  | inl e1, inl e2 => e1 = e2
  | inr (MaterialDb.CostError a), inr (MaterialDb.CostError b) => a = b
  | inr (MaterialDb.CostOk a), inr (MaterialDb.CostOk b) =>
      MaterialDb.ci_unit_cost a = MaterialDb.ci_unit_cost b /\
      MaterialDb.ci_base_cost a = MaterialDb.ci_base_cost b /\
      MaterialDb.ci_margin a = MaterialDb.ci_margin b /\
      MaterialDb.ci_total_cost a = MaterialDb.ci_total_cost b
  | _, _ => False
  end.

(** The total of one material line before any rounding, as section 4.1 of
    the specification words it: unit cost times quantity, plus the supplier
    margin on that. [None] for an unknown id. *)
Definition unrounded_total_cost (self : MaterialDb.MaterialDatabase)
    (material_id city : string) (quantity : Q) : option Q :=
  match MaterialDb.materials self !! material_id with
  | Some m =>
      let unit_cost :=
        MaterialDb.base_cost m *
        MaterialDb.multiplier_get (MaterialDb.regional_multipliers self) (Py.lower city) in
      let base := unit_cost * quantity in
      Some (base + base * MaterialDb.supplier_margin m)
  | None => None
  end.

(** The materials total of one task summed over those unrounded line
    totals, the accumulation the specification describes. *)
Definition unrounded_materials_total (self : MaterialDb.MaterialDatabase)
    (area : Q) (city : string) (items : list (string * Q)) : Q :=
  fold_left
    (fun acc item =>
       match unrounded_total_cost self (fst item) city (area * snd item) with
       | Some c => acc + c
       | None => acc
       end)
    items 0.

(** A number with at most two decimals. *)
Definition two_decimals (x : Q) : Prop := exists z : Z, x == z # 100.

(** What the material-cost operation reports for the materials of a task
    definition: [area * qty] of each material, in the city, in the order of
    the definition; a material the catalog lacks gives nothing. *)
Definition material_costs (db : MaterialDb.MaterialDatabase) (area city_ : Py.value)
    (items : list (string * Q)) : list MaterialDb.CostInfo :=
  flat_map
    (fun item =>
       match Py.as_number area with
       | inr a =>
           match MaterialDb.get_cost_with_margin db (fst item) (a * snd item) city_ with
           | inr (MaterialDb.CostOk info) => [ info ]
           | _ => []
           end
       | inl _ => []
       end)
    items.

(** The line a detailed task keeps of a reported cost. *)
Definition line_of (info : MaterialDb.CostInfo) : Engine.MaterialLine :=
  {| Engine.ml_name := MaterialDb.ci_name info;
     Engine.ml_quantity := MaterialDb.ci_quantity info;
     Engine.ml_unit := MaterialDb.ci_unit info;
     Engine.ml_unit_cost := MaterialDb.ci_unit_cost info;
     Engine.ml_total_cost := MaterialDb.ci_total_cost info |}.

(** A detailed task priced from the reported costs: its lines are those of
    the costs reported for the materials of its definition, and its
    materials cost is the two-decimal rounding of the sum, from 0.0 and in
    that order, of the total costs reported (each one already rounded). *)
Definition costed_task (self : Engine.PricingEngine) (area city_ : Py.value)
    (t : Engine.DetailedTask) : Prop :=
  exists def,
    Engine.task_definitions self !! Engine.dt_task_type t = Some def /\
    Engine.dt_materials t =
      map line_of
        (material_costs (Engine.material_db self) area city_ (Engine.materials def)) /\
    Engine.dt_materials_cost t =
      Py.py_round
        (fold_left Qplus
           (map MaterialDb.ci_total_cost
              (material_costs (Engine.material_db self) area city_ (Engine.materials def)))
           0.0) 2.

(** The work order of the demolition scenario, with whatever confidence
    score and method tag the parser attached. *)
Definition demolition_order : list (string * Py.value) :=
  [ ("area_sqm", Py.VFloat 4.0);
    ("city", Py.VStr "marseille");
    ("tasks", Py.VList [ Py.VDict [ ("type", Py.VStr "demolition");
                                    ("complexity_factors", Py.VList []) ] ]);
    ("budget_conscious", Py.VBool false) ].

(** A painting job of 1.1 square metres in Marseille. *)
Definition painting_order : list (string * Py.value) :=
  [ ("area_sqm", Py.VFloat 1.1);
    ("city", Py.VStr "marseille");
    ("tasks", Py.VList [ Py.VDict [ ("type", Py.VStr "painting") ] ]) ].

(** A parser that answers every transcript with the same outcome. *)
Definition constant_parser (outcome : Py.result (list (string * Py.value)))
    : Engine.SmartTranscriptParser :=
  {| Engine.parse_transcript := fun _ => outcome |}.

(** A clock reading. *)
Definition noon : Engine.Clock :=
  {| Engine.stamp := "20250101_120000"; Engine.iso := "2025-01-01T12:00:00" |}.

(** A work context for a residential property (the default when the key is
    absent). *)
Definition residential (context : VatRules.WorkContext) : Prop :=
  VatRules.property_type context = None \/
  VatRules.property_type context = Some VatRules.RESIDENTIAL_PRIMARY \/
  VatRules.property_type context = Some VatRules.RESIDENTIAL_SECONDARY.

(** The work is an energy renovation or has energy features. *)
Definition energy_work (context : VatRules.WorkContext) : bool :=
  VatRules.work_type_eqb
    (default VatRules.RENOVATION (VatRules.work_type context)) VatRules.ENERGY_RENOVATION
  || default false (VatRules.has_energy_features context).

(** The sum of the amounts of the items of one type. *)
Fixpoint amounts_of (kind : string) (items : list Py.value) : Q :=
  match items with
  | [] => 0
  | Py.VDict d :: rest =>
      (if Py.eq_str (Py.dict_get d "type" Py.VNone) kind
       then Py.value_of (Py.dict_get d "amount" Py.VNone) else 0)
      + amounts_of kind rest
  | _ :: rest => amounts_of kind rest
  end.

(** An item that is neither materials nor labor. *)
Definition other_item (d : list (string * Py.value)) : Prop :=
  Py.eq_str (Py.dict_get d "type" Py.VNone) "materials" = false /\
  Py.eq_str (Py.dict_get d "type" Py.VNone) "labor" = false.

(** The context is for social housing. *)
Definition social (context : VatRules.WorkContext) : bool :=
  match VatRules.property_type context with
  | Some VatRules.SOCIAL_HOUSING => true
  | _ => false
  end.

(** The unrounded hourly rate for a task, city, date and rush flag: base
    rate, regional, seasonal and rush multipliers. *)
Definition hourly (self : LaborCalc.LaborCalculator) (def : LaborCalc.TaskDef)
    (city : string) (date : option LaborCalc.datetime) (rush : bool) : Q :=
  LaborCalc.base_rates self (LaborCalc.skill_level def)
  * default 1.0 (LaborCalc.regional_multipliers self !! Py.lower city)
  * match date with
    | Some d => default 1.0 (LaborCalc.seasonal_multipliers self !! LaborCalc.month d)
    | None => 1.0
    end
  * (if rush then 1.8 else 1.0).

(** A parsed task the engine has no definition for: its type is a string
    outside the table, is missing ([None]), or is a boolean or a number.
    A list or a dict cannot be looked up in the table at all. *)
Definition unrecognized (self : Engine.PricingEngine) (d : list (string * Py.value))
    : Prop :=
  match Py.dict_get d "type" Py.VNone with
  | Py.VStr key => Engine.task_definitions self !! key = None
  | Py.VList _ | Py.VDict _ => False
  | _ => True
  end.

(** The types of the parsed tasks the engine has a definition for, in
    order. *)
Fixpoint recognized_types (self : Engine.PricingEngine) (todo : list Py.value)
    : list string :=
  match todo with
  | [] => []
  | Py.VDict d :: rest =>
      match Py.dict_get d "type" Py.VNone with
      | Py.VStr key =>
          match Engine.task_definitions self !! key with
          | Some _ => key :: recognized_types self rest
          | None => recognized_types self rest
          end
      | _ => recognized_types self rest
      end
  | _ :: rest => recognized_types self rest
  end.

(** Every material a task definition of the engine names is in its
    catalog. *)
Definition materials_in_catalog (self : Engine.PricingEngine) : Prop :=
  forall key def id qty,
    Engine.task_definitions self !! key = Some def ->
    In (id, qty) (Engine.materials def) ->
    is_Some (MaterialDb.materials (Engine.material_db self) !! id).

(** Every task type of the engine is one the labor calculator knows, once
    underscores are removed. *)
Definition tasks_in_labor_table (self : Engine.PricingEngine) : Prop :=
  forall key def,
    Engine.task_definitions self !! key = Some def ->
    is_Some (LaborCalc.task_definitions (Engine.labor_calc self) !! Py.remove_char "_" key).

(** A lower-case ASCII letter, and a word made of such letters. *)
Definition lower_letter (c : ascii) : bool :=
  let n := nat_of_ascii c in ((97 <=? n) && (n <=? 122))%nat.

Fixpoint lower_word (p : string) : bool :=
  match p with
  | EmptyString => true
  | String c r => lower_letter c && lower_word r
  end.

(** A console encoded in ASCII. *)
Definition ascii_stdout : Py.Stdout := fun line => Some (Py.ascii_complaint line).

End Notions.

(* ================================================================== *)
(** * Properties                                                        *)
(* ================================================================== *)

Open Scope Q_scope.

(** ** Rounding and maximum *)

Section Rounding.

(** [round] depends on the value of its argument only, errs by at most
    half a unit in the last kept digit, and is monotone. *)

Lemma round_half_even_comp (x y : Q) :
  x == y -> Py.round_half_even x = Py.round_half_even y.
Proof.
  intros Hxy. unfold Py.round_half_even.
  rewrite (Qfloor_comp _ _ Hxy).
  assert (Hc : (x - inject_Z (Qfloor y) ?= 1 # 2) = (y - inject_Z (Qfloor y) ?= 1 # 2)).
  { apply Qcompare_comp; [ rewrite Hxy | ]; reflexivity. }
  rewrite Hc. reflexivity.
Qed.

Lemma py_round_comp (x y : Q) (n : nat) :
  x == y -> Py.py_round x n = Py.py_round y n.
Proof.
  intros Hxy. unfold Py.py_round.
  rewrite (round_half_even_comp (x * _) (y * inject_Z (Z.pos (Py.pow10 n)))).
  - reflexivity.
  - rewrite Hxy. reflexivity.
Qed.

Lemma round_half_even_error (x : Q) :
  Qabs (inject_Z (Py.round_half_even x) - x) <= 1 # 2.
Proof.
  unfold Py.round_half_even.
  pose proof (Qfloor_le x) as Hlo.
  pose proof (Qlt_floor x) as Hhi.
  rewrite inject_Z_plus in Hhi. change (inject_Z 1) with 1 in Hhi.
  apply Qabs_Qle_condition.
  destruct (Qcompare_spec (x - inject_Z (Qfloor x)) (1 # 2)) as [He | Hl | Hg].
  - destruct (Z.even (Qfloor x)); rewrite ?inject_Z_plus;
      change (inject_Z 1) with 1; split; lra.
  - split; lra.
  - rewrite inject_Z_plus. change (inject_Z 1) with 1. split; lra.
Qed.

Lemma py_round_value (x : Q) (n : nat) :
  Py.py_round x n ==
  inject_Z (Py.round_half_even (x * inject_Z (Z.pos (Py.pow10 n)))) / inject_Z (Z.pos (Py.pow10 n)).
Proof.
  unfold Py.py_round. rewrite Qred_correct.
  rewrite Qmake_Qdiv. reflexivity.
Qed.

Lemma py_round_error (x : Q) (n : nat) :
  Qabs (Py.py_round x n - x) <= 1 # (2 * Py.pow10 n).
Proof.
  rewrite py_round_value.
  set (p := Py.pow10 n).
  set (r := Py.round_half_even (x * inject_Z (Z.pos p))).
  pose proof (round_half_even_error (x * inject_Z (Z.pos p))) as He.
  fold r in He.
  assert (Hp : 0 < inject_Z (Z.pos p)) by (unfold Qlt; simpl; lia).
  assert (Heq : inject_Z r / inject_Z (Z.pos p) - x ==
                (inject_Z r - x * inject_Z (Z.pos p)) / inject_Z (Z.pos p)).
  { field. lra. }
  rewrite Heq. unfold Qdiv. rewrite Qabs_Qmult.
  rewrite (Qabs_pos (/ _)) by (apply Qlt_le_weak, Qinv_lt_0_compat, Hp).
  assert (Hb : (1 # (2 * p)) == (1 # 2) * / inject_Z (Z.pos p)).
  { unfold Qeq, Qinv, Qmult, inject_Z; simpl. lia. }
  rewrite Hb. apply Qmult_le_compat_r; [ exact He | ].
  apply Qlt_le_weak, Qinv_lt_0_compat, Hp.
Qed.

Lemma round_half_even_mono (x y : Q) :
  x <= y -> (Py.round_half_even x <= Py.round_half_even y)%Z.
Proof.
  intros Hxy. unfold Py.round_half_even.
  pose proof (Qfloor_resp_le _ _ Hxy) as Hf.
  pose proof (Qfloor_le x) as Hxlo. pose proof (Qlt_floor x) as Hxhi.
  pose proof (Qfloor_le y) as Hylo. pose proof (Qlt_floor y) as Hyhi.
  rewrite inject_Z_plus in Hxhi, Hyhi. change (inject_Z 1) with 1 in Hxhi, Hyhi.
  destruct (Z.eq_dec (Qfloor x) (Qfloor y)) as [E | NE].
  - rewrite E in *.
    destruct (Qcompare_spec (x - inject_Z (Qfloor y)) (1 # 2));
    destruct (Qcompare_spec (y - inject_Z (Qfloor y)) (1 # 2));
    destruct (Z.even (Qfloor y)); try lia; exfalso; lra.
  - assert (Qfloor x + 1 <= Qfloor y)%Z by lia.
    destruct (Qcompare (x - inject_Z (Qfloor x)) (1 # 2));
    destruct (Qcompare (y - inject_Z (Qfloor y)) (1 # 2));
    destruct (Z.even (Qfloor x)); destruct (Z.even (Qfloor y)); lia.
Qed.

Lemma py_round_mono (x y : Q) (n : nat) :
  x <= y -> Py.py_round x n <= Py.py_round y n.
Proof.
  intros Hxy. rewrite !py_round_value.
  assert (Hp : 0 < inject_Z (Z.pos (Py.pow10 n))) by (unfold Qlt; simpl; lia).
  unfold Qdiv. apply Qmult_le_compat_r.
  - rewrite <- Zle_Qle. apply round_half_even_mono.
    apply Qmult_le_compat_r; [ exact Hxy | apply Qlt_le_weak, Hp ].
  - apply Qlt_le_weak, Qinv_lt_0_compat, Hp.
Qed.

Lemma py_max_spec (a b : Q) :
  b <= Py.py_max a b /\ a <= Py.py_max a b /\ (Py.py_max a b = a \/ Py.py_max a b = b).
Proof.
  unfold Py.py_max. destruct (Qcompare_spec b a); repeat split; auto; lra.
Qed.

Lemma py_max_Qmax (a b : Q) : Py.py_max a b = Qmax a b.
Proof.
  unfold Py.py_max, Qmax, GenericMinMax.gmax.
  rewrite <- (Qcompare_antisym a b). destruct (a ?= b); reflexivity.
Qed.

End Rounding.

(** ** The simple VAT resolution *)

Section SimpleVat.

Import VatRules.

(** The rate is chosen by the ladder alone. *)
Lemma vat_rate_ladder (m l : Q) (a : Z) (e : bool) :
  vat_rate (calculate_simple_renovation_vat VatRules.__init__ m l a e) =
  if e && (2 <=? a)%Z then 0.055 else if (2 <=? a)%Z then 0.10 else 0.20.
Proof.
  unfold calculate_simple_renovation_vat.
  destruct (e && (2 <=? a)%Z); [ reflexivity | ].
  destruct (2 <=? a)%Z; reflexivity.
Qed.

(** Amount and total are the rounded products of the subtotal. *)
Lemma vat_amounts (self : VATCalculatorForQuotes) (m l : Q) (a : Z) (e : bool) :
  let r := calculate_simple_renovation_vat self m l a e in
  subtotal r = m + l /\
  vat_amount r = Py.py_round ((m + l) * vat_rate r) 2 /\
  total_including_vat r = Py.py_round ((m + l) + (m + l) * vat_rate r) 2.
Proof.
  unfold calculate_simple_renovation_vat.
  destruct (e && (2 <=? a)%Z); [ | destruct (2 <=? a)%Z ]; simpl; auto.
Qed.

(** C2. For all materials cost [m], labor cost [l], building age [a] and
    energy flag [e], the simple VAT resolution picks its rate by first
    match: 5.5% when [e] holds and [a >= 2], else 10% when [a >= 2], else
    20%.  The VAT amount is [(m + l) * rate] and the total is the subtotal
    plus that VAT, each rounded to 2 decimals.  In particular, without the
    energy flag the rate is 20% for ages 0 and 1 and 10% from age 2 on. *)
Theorem simple_vat_first_match (m l : Q) (a : Z) (e : bool) :
  let r := calculate_simple_renovation_vat VatRules.__init__ m l a e in
  (e = true /\ (2 <= a)%Z -> vat_rate r = 0.055) /\
  (e = false /\ (2 <= a)%Z -> vat_rate r = 0.10) /\
  ((a < 2)%Z -> vat_rate r = 0.20) /\
  subtotal r = m + l /\
  vat_amount r = Py.py_round ((m + l) * vat_rate r) 2 /\
  total_including_vat r = Py.py_round ((m + l) + (m + l) * vat_rate r) 2 /\
  (e = false -> (a = 0 \/ a = 1)%Z -> vat_rate r = 0.20) /\
  (e = false -> (2 <= a)%Z -> vat_rate r = 0.10).
Proof.
  intros r.
  pose proof (vat_rate_ladder m l a e) as Hr. fold r in Hr.
  destruct (vat_amounts VatRules.__init__ m l a e) as (Hs & Hv & Ht). fold r in Hs, Hv, Ht.
  repeat split; try assumption.
  - intros [-> Ha]. rewrite Hr. apply Z.leb_le in Ha. rewrite Ha. reflexivity.
  - intros [-> Ha]. rewrite Hr. apply Z.leb_le in Ha. rewrite Ha. reflexivity.
  - intros Ha. rewrite Hr. apply Z.leb_gt in Ha. rewrite Ha.
    rewrite andb_false_r. reflexivity.
  - intros -> Ha. rewrite Hr.
    assert (Hlt : (2 <=? a)%Z = false) by (apply Z.leb_gt; lia).
    rewrite Hlt. reflexivity.
  - intros -> Ha. rewrite Hr. apply Z.leb_le in Ha. rewrite Ha. reflexivity.
Qed.

(** The ladder at work: an old building with and without the energy flag,
    and a one-year-old building. *)
Lemma simple_vat_first_match_witness :
  let r1 := calculate_simple_renovation_vat VatRules.__init__ 27.5 225 5 true in
  let r2 := calculate_simple_renovation_vat VatRules.__init__ 27.5 225 5 false in
  let r3 := calculate_simple_renovation_vat VatRules.__init__ 27.5 225 1 false in
  vat_rate r1 = 0.055 /\ vat_rate r2 = 0.10 /\ vat_rate r3 = 0.20.
Proof.
  split; [ | split ].
  - destruct (simple_vat_first_match 27.5 225 5 true) as (H & _).
    apply H. split; [ reflexivity | lia ].
  - destruct (simple_vat_first_match 27.5 225 5 false) as (_ & H & _).
    apply H. split; [ reflexivity | lia ].
  - destruct (simple_vat_first_match 27.5 225 1 false) as (_ & _ & H & _).
    apply H. lia.
Defined.

(** Splitting the subtotal between the two arguments changes nothing. *)
Lemma vat_split_irrelevant (self : VATCalculatorForQuotes) (m l s : Q) (a : Z) (e : bool) :
  m + l == s ->
  let r := calculate_simple_renovation_vat self m l a e in
  vat_rate r = vat_rate (calculate_simple_renovation_vat self s 0 a e) /\
  vat_amount r = Py.py_round (s * vat_rate r) 2 /\
  total_including_vat r = Py.py_round (s + s * vat_rate r) 2.
Proof.
  intros Hs r.
  destruct (vat_amounts self m l a e) as (_ & Hv & Ht). fold r in Hv, Ht.
  split; [ | split ].
  - unfold r, calculate_simple_renovation_vat.
    destruct (e && (2 <=? a)%Z); [ | destruct (2 <=? a)%Z ]; reflexivity.
  - rewrite Hv. apply py_round_comp. rewrite Hs. reflexivity.
  - rewrite Ht. apply py_round_comp. rewrite Hs. reflexivity.
Qed.

(** C4. Feeding the two margin-inflated components [m * (1 + p)] and
    [l * (1 + p)] separately into the simple VAT resolution gives the same
    rate, the same VAT amount and the same VAT-inclusive total as resolving
    the single margin-inflated subtotal [(m + l) * (1 + p)], over exact
    arithmetic; so the quote's VAT is the VAT on [subtotal_with_margin]. *)
Theorem vat_on_components_is_vat_on_subtotal
    (self : VATCalculatorForQuotes) (m l p : Q) (a : Z) (e : bool) :
  let split_ := calculate_simple_renovation_vat self (m * (1 + p)) (l * (1 + p)) a e in
  let whole := calculate_simple_renovation_vat self ((m + l) * (1 + p)) 0 a e in
  (vat_rate split_ = vat_rate whole /\
   vat_amount split_ = vat_amount whole /\
   total_including_vat split_ = total_including_vat whole /\
   vat_amount split_ = Py.py_round ((m + l) * (1 + p) * vat_rate split_) 2 /\
   total_including_vat split_ =
     Py.py_round ((m + l) * (1 + p) + (m + l) * (1 + p) * vat_rate split_) 2) /\
  (forall engine parsed tasks_,
     let subtotal_with_margin :=
       (Py.py_sum (map Engine.dt_materials_cost tasks_) +
        Py.py_sum (map Engine.dt_labor_cost tasks_)) * (1 + Engine.margin_of parsed) in
     let v := Engine.vat_calculation engine parsed tasks_ in
     vat_amount v = Py.py_round (subtotal_with_margin * vat_rate v) 2 /\
     total_including_vat v =
       Py.py_round (subtotal_with_margin + subtotal_with_margin * vat_rate v) 2).
Proof.
  intros split_ whole.
  assert (Hs : m * (1 + p) + l * (1 + p) == (m + l) * (1 + p)) by ring.
  assert (Hw : (m + l) * (1 + p) + 0 == (m + l) * (1 + p)) by ring.
  destruct (vat_split_irrelevant self _ _ _ a e Hs) as (Hr & Hv & Ht).
  destruct (vat_split_irrelevant self _ _ _ a e Hw) as (_ & Hv' & Ht').
  fold split_ in Hr, Hv, Ht. fold whole in Hr, Hv', Ht'.
  split.
  - split; [ exact Hr | ].
    split; [ rewrite Hv, Hv', Hr; reflexivity | ].
    split; [ rewrite Ht, Ht', Hr; reflexivity | ].
    split; assumption.
  - intros engine parsed tasks_ subtotal_with_margin v.
    apply (vat_split_irrelevant (Engine.vat_calculator engine)).
    unfold subtotal_with_margin. ring.
Qed.

End SimpleVat.

(** ** The material catalog *)

Section Materials.

Import MaterialDb.

Lemma get_material_missing (self : MaterialDatabase) (id : string) (region : Py.value) :
  materials self !! id = None -> get_material self id region = inr None.
Proof. intros H. unfold get_material. rewrite H. reflexivity. Qed.

Lemma get_cost_found (self : MaterialDatabase) (id city : string) (m : Material) (q : Q) :
  materials self !! id = Some m ->
  exists info,
    get_cost_with_margin self id q (Py.VStr city) = inr (CostOk info) /\
    ci_unit_cost info =
      base_cost m * multiplier_get (regional_multipliers self) (Py.lower city) /\
    ci_base_cost info = Py.py_round (ci_unit_cost info * q) 2 /\
    ci_margin info = Py.py_round (ci_unit_cost info * q * supplier_margin m) 2 /\
    ci_total_cost info =
      Py.py_round (ci_unit_cost info * q + ci_unit_cost info * q * supplier_margin m) 2.
Proof.
  intros H. unfold get_cost_with_margin, get_material.
  rewrite H. simpl.
  eexists. split; [ reflexivity | ]. simpl. auto.
Qed.

Lemma get_cost_same_multiplier (self : MaterialDatabase) (id c1 c2 : string) (q : Q) :
  multiplier_get (regional_multipliers self) (Py.lower c1) =
  multiplier_get (regional_multipliers self) (Py.lower c2) ->
  get_cost_with_margin self id q (Py.VStr c1) = get_cost_with_margin self id q (Py.VStr c2).
Proof.
  intros H. unfold get_cost_with_margin, get_material.
  destruct (materials self !! id); [ | reflexivity ].
  simpl. rewrite H. reflexivity.
Qed.

(** C8. For a material in the catalog, a quantity [q >= 0] and any city,
    the total cost for [q] equals [q] times the total cost for quantity 1
    within rounding tolerance: each of the two totals is off its exact
    value by at most half a cent, so the two sides differ by at most
    [(1 + q)] half-cents. *)
Theorem total_cost_linear_in_quantity
    (self : MaterialDatabase) (id city : string) (m : Material) (q : Q) :
  materials self !! id = Some m ->
  0 <= q ->
  exists cq c1,
    get_cost_with_margin self id q (Py.VStr city) = inr (CostOk cq) /\
    get_cost_with_margin self id 1 (Py.VStr city) = inr (CostOk c1) /\
    Qabs (ci_total_cost cq - ci_total_cost c1 * q) <= (1 + q) * (1 # 200).
Proof.
  intros Hm Hq.
  destruct (get_cost_found self id city m q Hm) as (cq & Hcq & Huq & _ & _ & Htq).
  destruct (get_cost_found self id city m 1 Hm) as (c1 & Hc1 & Hu1 & _ & _ & Ht1).
  exists cq, c1. split; [ exact Hcq | split; [ exact Hc1 | ] ].
  rewrite Htq, Ht1, Huq, Hu1.
  set (u := base_cost m * _).
  set (s := supplier_margin m).
  pose proof (py_round_error (u * q + u * q * s) 2) as Ea.
  pose proof (py_round_error (u * 1 + u * 1 * s) 2) as Eb.
  set (ra := Py.py_round (u * q + u * q * s) 2) in *.
  set (rb := Py.py_round (u * 1 + u * 1 * s) 2) in *.
  change (1 # 2 * Py.pow10 2) with (1 # 200) in Ea, Eb.
  apply Qabs_Qle_condition in Ea, Eb. destruct Ea as [Ea1 Ea2], Eb as [Eb1 Eb2].
  pose proof (Qmult_le_compat_r _ _ q Eb1 Hq) as P1.
  pose proof (Qmult_le_compat_r _ _ q Eb2 Hq) as P2.
  apply Qabs_Qle_condition. split; lra.
Qed.

(** Four metres of PVC pipe in Paris. *)
Lemma total_cost_linear_in_quantity_witness :
  exists cq c1,
    get_cost_with_margin (MaterialDb.__init__ "2025-01-01T00:00:00") "pipes_pvc" 4
      (Py.VStr "paris") = inr (CostOk cq) /\
    get_cost_with_margin (MaterialDb.__init__ "2025-01-01T00:00:00") "pipes_pvc" 1
      (Py.VStr "paris") = inr (CostOk c1) /\
    Qabs (ci_total_cost cq - ci_total_cost c1 * 4) <= (1 + 4) * (1 # 200).
Proof.
  eapply (total_cost_linear_in_quantity _ "pipes_pvc" "paris" _ 4).
  - vm_compute. reflexivity.
  - unfold Qle. simpl. lia.
Defined.

(** The tolerance has to grow with the quantity: for a thousand metres of
    PVC pipe in Paris the two sides are 3.75 apart. *)
Remark linearity_gap_grows_with_quantity :
  exists cq c1,
    get_cost_with_margin (MaterialDb.__init__ "2025-01-01T00:00:00") "pipes_pvc" 1000
      (Py.VStr "paris") = inr (CostOk cq) /\
    get_cost_with_margin (MaterialDb.__init__ "2025-01-01T00:00:00") "pipes_pvc" 1
      (Py.VStr "paris") = inr (CostOk c1) /\
    ci_total_cost c1 * 1000 - ci_total_cost cq == 3.75.
Proof.
  eexists. eexists. split; [ vm_compute; reflexivity | ].
  split; vm_compute; reflexivity.
Qed.

(** C9. Two catalog states that differ only in availability scores give,
    for every material id, quantity and region, the same outcome of the
    material-cost operation: the same unit cost, base cost, margin and
    total cost (or the same error). *)
Theorem availability_noninterference
    (db1 db2 : MaterialDatabase) (id : string) (q : Q) (region : Py.value) :
  Notions.same_but_availability db1 db2 ->
  Notions.same_prices (get_cost_with_margin db1 id q region)
                      (get_cost_with_margin db2 id q region).
Proof.
  intros [Hr Hm].
  assert (Hl : Notions.forget_availability <$> (materials db1 !! id) =
               Notions.forget_availability <$> (materials db2 !! id)).
  { rewrite <- !lookup_fmap, Hm. reflexivity. }
  unfold get_cost_with_margin, get_material. rewrite Hr.
  destruct (materials db1 !! id) as [m1 | ], (materials db2 !! id) as [m2 | ];
    simpl in Hl; try discriminate; [ | reflexivity ].
  injection Hl as Hn Hc Hu Hb Hs Hg Hd Hi.
  destruct (Py.str_lower region) as [e | key]; simpl; [ reflexivity | ].
  rewrite Hb, Hs. auto.
Qed.

(** The default catalog and the same catalog with the primer's availability
    lowered from 0.95 to 0.10. *)
Lemma availability_noninterference_witness :
  Notions.same_prices
    (get_cost_with_margin (MaterialDb.__init__ "2025-01-01T00:00:00") "primer" 0.6
       (Py.VStr "lyon"))
    (get_cost_with_margin
       (add_material (MaterialDb.__init__ "2025-01-01T00:00:00") "primer"
          (mk "Wall Primer - Bathroom" "painting" "liter" 12.0 0.12 "standard" 0.10
              "2025-01-01T00:00:00"))
       "primer" 0.6 (Py.VStr "lyon")).
Proof.
  apply availability_noninterference.
  split; [ reflexivity | ].
  unfold add_material. cbn [materials].
  rewrite fmap_insert. symmetry. apply insert_id.
  rewrite lookup_fmap. vm_compute. reflexivity.
Defined.

End Materials.

(** ** The labor calculator *)

Section Labor.

Import LaborCalc.

Lemma apply_factors_strings (def : TaskDef) (tags : list string) :
  forall cm applied, exists r, apply_factors def (map Py.VStr tags) cm applied = inr r.
Proof.
  induction tags as [ | tag tags IH ]; intros cm applied; simpl.
  - eexists. reflexivity.
  - destruct (complexity_factors def !! tag); apply IH.
Qed.

Lemma labor_vars_ok (self : LaborCalculator) (def : TaskDef) (area : Q)
    (city : string) (tags : list string) (date : option datetime) (rush : bool) :
  exists v,
    labor_vars self def (Py.VFloat area) (Py.VStr city) (Py.VList (map Py.VStr tags)) date rush
      = inr v /\
    v_billable_hours v = Py.py_max (area * hours_per_sqm def) (minimum_hours def) /\
    v_regional_multiplier v = default 1.0 (regional_multipliers self !! Py.lower city).
Proof.
  assert (Hcm : exists cm,
    (if Py.truthy (Py.VList (map Py.VStr tags))
     then Py.bind (Py.iter (Py.VList (map Py.VStr tags)))
            (fun fs => apply_factors def fs 1.0 [])
     else Py.ret (1.0, [])) = inr cm).
  { destruct (Py.truthy _).
    - exact (apply_factors_strings def tags 1.0 []).
    - eexists. reflexivity. }
  destruct Hcm as [cm Hcm].
  unfold labor_vars. rewrite Hcm. simpl.
  eexists. split; [ reflexivity | ]. simpl. auto.
Qed.

Lemma labor_same_multiplier (self : LaborCalculator) (t : string)
    (area cf : Py.value) (date : option datetime) (rush : bool) (c1 c2 : string) :
  default 1.0 (regional_multipliers self !! Py.lower c1) =
  default 1.0 (regional_multipliers self !! Py.lower c2) ->
  calculate_task_labor self t area (Py.VStr c1) cf date rush =
  calculate_task_labor self t area (Py.VStr c2) cf date rush.
Proof.
  intros H. unfold calculate_task_labor.
  destruct (task_definitions self !! t); [ | reflexivity ].
  unfold labor_vars. simpl Py.str_lower.
  destruct (Py.as_number area); [ reflexivity | ]. simpl.
  destruct (if Py.truthy cf then _ else _); [ reflexivity | ]. simpl.
  rewrite H. reflexivity.
Qed.

Lemma known_task_cases (t : string) (def : TaskDef) :
  task_definitions LaborCalc.__init__ !! t = Some def ->
  Py.py_round (minimum_hours def) 1 == minimum_hours def.
Proof.
  intros H. unfold LaborCalc.__init__, task_definitions in H.
  apply elem_of_list_to_map_2 in H.
  repeat (apply elem_of_cons in H; destruct H as [H | H];
          [ injection H as _ ->; vm_compute; reflexivity | ]).
  apply elem_of_nil in H. contradiction.
Qed.

(** C6. For every task type of the labor rule table and every area
    [>= 0], the billable hours the labor operation computes are
    [max(area * hours_per_sqm, minimum_hours)], hence at least the task's
    minimum hours; so is the figure it reports, which is that value to one
    decimal. *)
Theorem billable_hours_floor (t : string) (def : TaskDef) (area : Q)
    (city : string) (tags : list string) (date : option datetime) (rush : bool) :
  task_definitions LaborCalc.__init__ !! t = Some def ->
  0 <= area ->
  exists v info,
    labor_vars LaborCalc.__init__ def (Py.VFloat area) (Py.VStr city)
      (Py.VList (map Py.VStr tags)) date rush = inr v /\
    calculate_task_labor LaborCalc.__init__ t (Py.VFloat area) (Py.VStr city)
      (Py.VList (map Py.VStr tags)) date rush = inr (LaborOk info) /\
    v_billable_hours v = Qmax (area * hours_per_sqm def) (minimum_hours def) /\
    minimum_hours def <= v_billable_hours v /\
    billable_hours info = Py.py_round (v_billable_hours v) 1 /\
    minimum_hours def <= billable_hours info.
Proof.
  intros Ht Ha.
  destruct (labor_vars_ok LaborCalc.__init__ def area city tags date rush)
    as (v & Hv & Hb & _).
  assert (Hmin : minimum_hours def <= v_billable_hours v).
  { rewrite Hb. apply py_max_spec. }
  exists v. eexists. split; [ exact Hv | ].
  split; [ unfold calculate_task_labor; rewrite Ht, Hv; reflexivity | ].
  simpl. split; [ rewrite Hb; apply py_max_Qmax | ].
  split; [ exact Hmin | ]. split; [ reflexivity | ].
  rewrite <- (known_task_cases t def Ht) at 1.
  apply py_round_mono, Hmin.
Qed.

(** One square metre of demolition: the three-hour minimum applies. *)
Lemma billable_hours_floor_witness :
  exists def v info,
    task_definitions LaborCalc.__init__ !! "demolition"%string = Some def /\
    labor_vars LaborCalc.__init__ def (Py.VFloat 1.0) (Py.VStr "marseille")
      (Py.VList (map Py.VStr [])) None false = inr v /\
    calculate_task_labor LaborCalc.__init__ "demolition" (Py.VFloat 1.0)
      (Py.VStr "marseille") (Py.VList (map Py.VStr [])) None false = inr (LaborOk info) /\
    minimum_hours def <= billable_hours info.
Proof.
  assert (H : exists def, task_definitions LaborCalc.__init__ !! "demolition"%string = Some def).
  { eexists. vm_compute. reflexivity. }
  destruct H as [def H].
  assert (Ha : 0 <= 1.0) by (unfold Qle; simpl; lia).
  destruct (billable_hours_floor "demolition" def 1.0 "marseille" [] None false H Ha)
    as (v & info & H1 & H2 & _ & _ & _ & H6).
  exists def, v, info. auto.
Defined.

End Labor.

(** ** Regional multipliers *)

Section Regional.

(** C7. A city absent from a regional multiplier table gets the multiplier
    1.0, and the lookup raises nothing: labor pricing, respectively
    material costing, for that city succeeds whenever the task,
    respectively the material, is known, and gives the result of the
    baseline city, the one the table maps to 1.0. *)
Theorem unknown_city_multiplier_is_one
    (labor : LaborCalc.LaborCalculator) (db : MaterialDb.MaterialDatabase)
    (city baseline : string) :
  (LaborCalc.regional_multipliers labor !! Py.lower city = None ->
   LaborCalc.regional_multipliers labor !! Py.lower baseline = Some 1.0 ->
   (forall skill,
      LaborCalc.get_hourly_rate labor skill (Py.VStr city) =
      inr (LaborCalc.base_rates labor skill * 1.0)) /\
   (forall t area factors date rush,
      LaborCalc.calculate_task_labor labor t area (Py.VStr city) factors date rush =
      LaborCalc.calculate_task_labor labor t area (Py.VStr baseline) factors date rush) /\
   (forall t def area tags date rush,
      LaborCalc.task_definitions labor !! t = Some def ->
      exists info,
        LaborCalc.calculate_task_labor labor t (Py.VFloat area) (Py.VStr city)
          (Py.VList (map Py.VStr tags)) date rush = inr (LaborCalc.LaborOk info) /\
        LaborCalc.regional_multiplier info = 1.0)) /\
  (MaterialDb.regional_multipliers db !! Py.lower city = None ->
   MaterialDb.regional_multipliers db !! Py.lower baseline = Some 1.0 ->
   MaterialDb.get_regional_multiplier db (Py.VStr city) = inr 1.0 /\
   (forall id q,
      MaterialDb.get_cost_with_margin db id q (Py.VStr city) =
      MaterialDb.get_cost_with_margin db id q (Py.VStr baseline)) /\
   (forall id m q,
      MaterialDb.materials db !! id = Some m ->
      exists info,
        MaterialDb.get_cost_with_margin db id q (Py.VStr city) =
          inr (MaterialDb.CostOk info) /\
        MaterialDb.ci_unit_cost info = MaterialDb.base_cost m * 1.0)).
Proof.
  split.
  - intros Hc Hb. split; [ | split ].
    + intros skill. unfold LaborCalc.get_hourly_rate. simpl. rewrite Hc. reflexivity.
    + intros. apply labor_same_multiplier. rewrite Hc, Hb. reflexivity.
    + intros t def area tags date rush Ht.
      destruct (labor_vars_ok labor def area city tags date rush) as (v & Hv & _ & Hm).
      eexists. split.
      * unfold LaborCalc.calculate_task_labor. rewrite Ht, Hv. reflexivity.
      * simpl. rewrite Hm, Hc. reflexivity.
  - intros Hc Hb. split; [ | split ].
    + unfold MaterialDb.get_regional_multiplier, MaterialDb.multiplier_get. simpl.
      rewrite Hc. reflexivity.
    + intros. apply get_cost_same_multiplier.
      unfold MaterialDb.multiplier_get. rewrite Hc, Hb. reflexivity.
    + intros id m q Hm.
      destruct (get_cost_found db id city m q Hm) as (info & Hi & Hu & _).
      exists info. split; [ exact Hi | ].
      rewrite Hu. unfold MaterialDb.multiplier_get. rewrite Hc. reflexivity.
Qed.

(** A town neither default table lists, against Marseille. *)
Lemma unknown_city_multiplier_is_one_witness :
  LaborCalc.get_hourly_rate LaborCalc.__init__ LaborCalc.SKILLED (Py.VStr "Aubagne") =
    inr (42.0 * 1.0) /\
  MaterialDb.get_cost_with_margin (MaterialDb.__init__ "2025-01-01T00:00:00")
    "tile_adhesive" 6 (Py.VStr "Aubagne") =
  MaterialDb.get_cost_with_margin (MaterialDb.__init__ "2025-01-01T00:00:00")
    "tile_adhesive" 6 (Py.VStr "marseille").
Proof.
  destruct (unknown_city_multiplier_is_one LaborCalc.__init__
              (MaterialDb.__init__ "2025-01-01T00:00:00") "Aubagne" "marseille")
    as [Hl Hm].
  split.
  - apply Hl; vm_compute; reflexivity.
  - apply Hm; vm_compute; reflexivity.
Defined.

End Regional.

(** ** Materials accumulation in the orchestrator *)

Section Assembly.

Import Engine.

(** Every amount [get_cost_with_margin] reports, except the unit cost, is
    a rounding to two decimals. *)
Lemma get_cost_rounded (db : MaterialDb.MaterialDatabase) (id : string) (q : Q)
    (region : Py.value) (info : MaterialDb.CostInfo) :
  MaterialDb.get_cost_with_margin db id q region = inr (MaterialDb.CostOk info) ->
  exists m,
    MaterialDb.get_material db id region = inr (Some m) /\
    MaterialDb.ci_unit_cost info = MaterialDb.base_cost m /\
    MaterialDb.ci_base_cost info = Py.py_round (MaterialDb.base_cost m * q) 2 /\
    MaterialDb.ci_margin info =
      Py.py_round (MaterialDb.base_cost m * q * MaterialDb.supplier_margin m) 2 /\
    MaterialDb.ci_total_cost info =
      Py.py_round (MaterialDb.base_cost m * q +
                   MaterialDb.base_cost m * q * MaterialDb.supplier_margin m) 2.
Proof.
  unfold MaterialDb.get_cost_with_margin.
  destruct (MaterialDb.get_material db id region) as [e | [m | ]]; simpl;
    intros H; try discriminate.
  injection H as <-. exists m. simpl. auto.
Qed.


(** The inner loop appends the lines of the reported costs and adds the
    total costs reported. *)
Lemma cost_materials_costs (self : PricingEngine) (area city_ : Py.value)
    (items : list (string * Q)) :
  forall lines total lines' total',
    cost_materials self area city_ items lines total = inr (lines', total') ->
    lines' =
      (lines ++ map Notions.line_of
                  (Notions.material_costs (material_db self) area city_ items))%list /\
    total' =
      fold_left Qplus
        (map MaterialDb.ci_total_cost
           (Notions.material_costs (material_db self) area city_ items))
        total.
Proof.
  induction items as [ | [id qty] items IH ]; intros lines total lines' total' H.
  - injection H as <- <-. simpl. rewrite app_nil_r. auto.
  - simpl in H. unfold Notions.material_costs. simpl flat_map.
    destruct (Py.as_number area) as [e | a] eqn:Ha; [ discriminate | ]. simpl in H.
    destruct (MaterialDb.get_cost_with_margin _ id (a * qty) city_)
      as [e | [msg | ci]] eqn:Hc; [ discriminate | | ]; simpl in H.
    + apply IH in H. unfold Notions.material_costs in H. rewrite Ha in H. exact H.
    + apply IH in H. unfold Notions.material_costs in H. rewrite Ha in H.
      destruct H as [-> ->]. rewrite <- app_assoc. split; reflexivity.
Qed.

(** The outer loop only ever appends tasks priced from the reported costs. *)
Lemma expand_tasks_costed (self : PricingEngine) (area city_ : Py.value)
    (todo : list Py.value) :
  forall detailed result,
    expand_tasks self area city_ todo detailed = inr result ->
    Forall (Notions.costed_task self area city_) detailed ->
    Forall (Notions.costed_task self area city_) result.
Proof.
  induction todo as [ | task todo IH ]; intros detailed result H Hd.
  - injection H as <-. exact Hd.
  - simpl in H.
    destruct (Py.get task "type" Py.VNone) as [e | ty]; [ discriminate | ]. simpl in H.
    destruct (Py.hashable ty); simpl in H; [ | discriminate ].
    destruct ty as [ | b | z | q | key | l | d ]; try (eapply IH; eassumption).
    destruct (task_definitions self !! key) as [def | ] eqn:Hk;
      [ | eapply IH; eassumption ].
    destruct (cost_materials self area city_ (materials def) [] 0.0)
      as [e | [lines total]] eqn:Hm; [ discriminate | ]. simpl in H.
    destruct (Py.get task "complexity_factors" _) as [e | factors]; [ discriminate | ].
    simpl in H.
    destruct (LaborCalc.calculate_task_labor _ _ _ _ _ _ _) as [e | [msg | lr]];
      [ discriminate | eapply IH; eassumption | ]. simpl in H.
    destruct (Py.get task "description" _) as [e | description]; [ discriminate | ].
    simpl in H.
    eapply IH; [ exact H | ].
    apply Forall_app. split; [ exact Hd | ].
    constructor; [ | constructor ].
    destruct (cost_materials_costs _ _ _ _ _ _ _ _ Hm) as (Hl & Ht).
    simpl in Hl. subst lines total.
    exists def. simpl. auto.
Qed.

(** Every detailed task is priced from the reported costs. *)
Lemma generated_tasks_costed (self : PricingEngine)
    (parsed : list (string * Py.value)) (tasks_ : list DetailedTask) :
  _generate_detailed_tasks self parsed = inr tasks_ ->
  Forall (Notions.costed_task self
            (Py.dict_get parsed "area_sqm" (Py.VFloat 4.0))
            (Py.dict_get parsed "city" (Py.VStr "marseille"))) tasks_.
Proof.
  unfold _generate_detailed_tasks.
  destruct (Py.iter _) as [e | todo]; [ discriminate | ]. simpl.
  intros H. eapply expand_tasks_costed; [ exact H | constructor ].
Qed.

(** C5, as the code has it. The material-cost operation reports base cost,
    margin and total cost rounded to 2 decimals and the unit cost as it
    is. In every detailed task the lines are those reported by the
    material-cost operation for the materials of the task's definition,
    and the task's materials cost is the 2-decimal rounding of the sum of
    the total costs so reported, which are rounded already. The materials
    subtotal of a quote that is computed is the 2-decimal rounding of the
    sum of its tasks' materials costs. *)
Theorem materials_rounded_then_accumulated :
  (forall db id q region info,
     MaterialDb.get_cost_with_margin db id q region = inr (MaterialDb.CostOk info) ->
     exists m,
       MaterialDb.get_material db id region = inr (Some m) /\
       MaterialDb.ci_unit_cost info = MaterialDb.base_cost m /\
       MaterialDb.ci_base_cost info = Py.py_round (MaterialDb.base_cost m * q) 2 /\
       MaterialDb.ci_margin info =
         Py.py_round (MaterialDb.base_cost m * q * MaterialDb.supplier_margin m) 2 /\
       MaterialDb.ci_total_cost info =
         Py.py_round (MaterialDb.base_cost m * q +
                      MaterialDb.base_cost m * q * MaterialDb.supplier_margin m) 2) /\
  (forall self transcript now io_ok files q files',
     generate_quote_try self transcript now io_ok files = inr (q, files') ->
     exists parsed tasks_,
       parse_transcript (transcript_parser self) transcript = inr parsed /\
       _generate_detailed_tasks self parsed = inr tasks_ /\
       tasks q = map task_dict tasks_ /\
       Forall (Notions.costed_task self
                 (Py.dict_get parsed "area_sqm" (Py.VFloat 4.0))
                 (Py.dict_get parsed "city" (Py.VStr "marseille"))) tasks_ /\
       subtotal_materials q = Py.py_round (Py.py_sum (map dt_materials_cost tasks_)) 2).
Proof.
  split; [ exact get_cost_rounded | ].
  intros self transcript now io_ok files q files'. unfold generate_quote_try.
  destruct (parse_transcript (transcript_parser self) transcript) as [e | parsed];
    [ discriminate | ]. simpl.
  destruct (_generate_detailed_tasks self parsed) as [e | tasks_] eqn:Hg;
    [ discriminate | ]. simpl.
  intros H. injection H as <- _.
  exists parsed, tasks_. split; [ reflexivity | ]. split; [ exact Hg | ].
  split; [ reflexivity | ].
  split; [ exact (generated_tasks_costed _ _ _ Hg) | reflexivity ].
Qed.

(** The painting job: the reported totals 3.70 and 2.22 accumulate to
    5.92, which is the materials subtotal of the quote. *)
Lemma materials_rounded_then_accumulated_witness :
  let self := Engine.__init__ (Notions.constant_parser (inr Notions.painting_order))
                "2025-01-01T12:00:00" in
  exists q files' t,
    generate_quote_try self "Paint the bathroom" Notions.noon true ∅ = inr (q, files') /\
    _generate_detailed_tasks self Notions.painting_order = inr [t] /\
    Notions.costed_task self (Py.VFloat 1.1) (Py.VStr "marseille") t /\
    Forall2 Qeq (map ml_total_cost (dt_materials t)) [ 3.70; 2.22 ] /\
    dt_materials_cost t == 5.92 /\
    subtotal_materials q == 5.92.
Proof.
  intros self.
  destruct materials_rounded_then_accumulated as (_ & H).
  assert (Hq : exists q files' t,
    generate_quote_try self "Paint the bathroom" Notions.noon true ∅ = inr (q, files') /\
    _generate_detailed_tasks self Notions.painting_order = inr [t] /\
    Forall2 Qeq (map ml_total_cost (dt_materials t)) [ 3.70; 2.22 ] /\
    dt_materials_cost t == 5.92 /\
    subtotal_materials q == 5.92).
  { eexists. eexists. eexists.
    split; [ vm_compute; reflexivity | ].
    split; [ vm_compute; reflexivity | ].
    split; [ repeat constructor | ].
    split; vm_compute; reflexivity. }
  destruct Hq as (q & files' & t & Hq & Hg & Hl & Hc & Hs).
  exists q, files', t. split; [ exact Hq | ]. split; [ exact Hg | ].
  split; [ | auto ].
  destruct (H _ _ _ _ _ _ _ Hq) as (parsed & tasks_ & Hp & Hg' & _ & Hf & _).
  injection Hp as <-. rewrite Hg in Hg'. injection Hg' as <-.
  exact (Forall_inv Hf).
Defined.

(** C5 as stated does not hold. For 1.1 square metres of painting in
    Marseille the loop accumulates 3.70 + 2.22 = 5.92 from the rounded line
    totals, while the unrounded totals 3.696 + 2.2176 sum to 5.9136, which
    rounds to 5.91; and the unit cost of PVC pipe in Paris is reported as
    11.475, not rounded to 2 decimals. *)
Lemma unrounded_accumulation_counterexample :
  let db := MaterialDb.__init__ "2025-01-01T12:00:00" in
  let self := Engine.__init__ (Notions.constant_parser (inr Notions.painting_order))
                "2025-01-01T12:00:00" in
  let items := [ ("bathroom_paint_basic"%string, 0.2); ("primer"%string, 0.15) ] in
  (exists lines total,
     cost_materials self (Py.VFloat 1.1) (Py.VStr "marseille") items [] 0.0
       = inr (lines, total) /\
     total == 5.92 /\
     Notions.unrounded_materials_total db 1.1 "marseille" items == 5.9136 /\
     ~ total == Notions.unrounded_materials_total db 1.1 "marseille" items /\
     ~ Py.py_round total 2 ==
       Py.py_round (Notions.unrounded_materials_total db 1.1 "marseille" items) 2) /\
  (exists info,
     MaterialDb.get_cost_with_margin db "pipes_pvc" 1 (Py.VStr "paris")
       = inr (MaterialDb.CostOk info) /\
     MaterialDb.ci_unit_cost info == 11.475 /\
     ~ Notions.two_decimals (MaterialDb.ci_unit_cost info)).
Proof.
  intros db self items. split.
  - eexists. eexists. split; [ vm_compute; reflexivity | ].
    split; [ vm_compute; reflexivity | ].
    split; [ vm_compute; reflexivity | ].
    split; vm_compute; intros H; discriminate H.
  - eexists. split; [ vm_compute; reflexivity | ].
    split; [ vm_compute; reflexivity | ].
    intros [z Hz]. unfold Qeq in Hz. cbn in Hz. lia.
Qed.

End Assembly.

(** ** Quote generation *)

Section Orchestrator.

Import Engine.

(** The [try] block raises exactly when parsing or task expansion does. *)
Lemma generate_quote_try_cases (self : PricingEngine) (transcript : string)
    (now : Clock) (io_ok : bool) (files : gmap string Quote) :
  (exists e,
     generate_quote_try self transcript now io_ok files = inl e /\
     (parse_transcript (transcript_parser self) transcript = inl e \/
      exists parsed,
        parse_transcript (transcript_parser self) transcript = inr parsed /\
        _generate_detailed_tasks self parsed = inl e)) \/
  (exists parsed tasks_,
     parse_transcript (transcript_parser self) transcript = inr parsed /\
     _generate_detailed_tasks self parsed = inr tasks_ /\
     generate_quote_try self transcript now io_ok files =
       inr (_calculate_final_quote self parsed tasks_ now,
            _save_quote io_ok (_calculate_final_quote self parsed tasks_ now) files)).
Proof.
  unfold generate_quote_try.
  destruct (parse_transcript (transcript_parser self) transcript) as [e | parsed].
  - left. exists e. split; [ reflexivity | left; reflexivity ].
  - simpl. destruct (_generate_detailed_tasks self parsed) as [e | tasks_] eqn:Hg.
    + left. exists e. split; [ reflexivity | right; exists parsed; auto ].
    + right. exists parsed, tasks_. auto.
Qed.

(** The handler's line is never plain ASCII: it starts with the cross
    mark. *)
Lemma failure_line_not_ascii (e : Py.exn) : Py.is_ascii (failure_line e) = false.
Proof. reflexivity. Qed.

(** What the ASCII codec says of the handler's line, whatever the error. *)
Lemma failure_line_ascii_complaint (e : Py.exn) :
  Py.ascii_complaint (failure_line e) =
  "'ascii' codec can't encode character '\u274c' in position 0: ordinal not in range(128)"%string.
Proof. reflexivity. Qed.

(** C1. [generate_quote] can fail outward. When parsing or task expansion
    raises [e], the handler prints a line that starts with the cross mark
    U+274C before it builds the fallback quote. On a console that cannot
    encode the line the [UnicodeEncodeError] of that print leaves
    [generate_quote] and no quote is returned; on a console encoded in
    ASCII this is so for every [e]. On a console that takes the line the
    result is the fallback quote: zone "bathroom", city "marseille", area
    4.0, one placeholder line item that carries [str(e)], margin 0.20,
    confidence 0.1, method "fallback", total 2200.0. Nothing is saved either
    way. *)
Theorem generate_quote_fails_when_print_fails (self : PricingEngine)
    (transcript : string) (now : Clock) (io_ok : bool) (files : gmap string Quote)
    (e : Py.exn) :
  (parse_transcript (transcript_parser self) transcript = inl e \/
   exists parsed,
     parse_transcript (transcript_parser self) transcript = inr parsed /\
     _generate_detailed_tasks self parsed = inl e) ->
  (forall stdout complaint,
     stdout (failure_line e) = Some complaint ->
     generate_quote self stdout transcript now io_ok files =
       (inl (Py.Exn Py.UnicodeEncodeError complaint), files)) /\
  generate_quote self Notions.ascii_stdout transcript now io_ok files =
    (inl (Py.Exn Py.UnicodeEncodeError
            "'ascii' codec can't encode character '\u274c' in position 0: ordinal not in range(128)"),
     files) /\
  (forall stdout,
     stdout (failure_line e) = None ->
     let q := _generate_fallback_quote transcript (Py.str_exn e) now in
     generate_quote self stdout transcript now io_ok files = (inr q, files) /\
     zone q = "bathroom"%string /\
     city q = Py.VStr "marseille" /\
     total_area_sqm q = Py.VFloat 4.0 /\
     tasks q = [ fallback_task (Py.message e) ] /\
     Py.get (fallback_task (Py.message e)) "error" Py.VNone = inr (Py.VStr (Py.message e)) /\
     margin_percentage q = 0.20 /\
     confidence_score q = Py.VFloat 0.1 /\
     parsing_method q = Py.VStr "fallback" /\
     total_price q = 2200.0).
Proof.
  intros He.
  assert (Ht : generate_quote_try self transcript now io_ok files = inl e).
  { unfold generate_quote_try.
    destruct He as [-> | (parsed & -> & Hg)]; [ reflexivity | ].
    simpl. rewrite Hg. reflexivity. }
  assert (Hraise : forall stdout complaint,
            stdout (failure_line e) = Some complaint ->
            generate_quote self stdout transcript now io_ok files =
              (inl (Py.Exn Py.UnicodeEncodeError complaint), files)).
  { intros stdout complaint Hs. unfold generate_quote, Py.print.
    rewrite Ht, failure_line_not_ascii, Hs. reflexivity. }
  split; [ exact Hraise | ]. split.
  - apply Hraise. unfold Notions.ascii_stdout.
    rewrite failure_line_ascii_complaint. reflexivity.
  - intros stdout Hs q.
    split; [ | repeat split ].
    unfold generate_quote, Py.print.
    rewrite Ht, failure_line_not_ascii, Hs. reflexivity.
Qed.

(** The service answers with text that is no JSON, so the parser raises,
    and the console is encoded in ASCII. *)
Lemma generate_quote_fails_when_print_fails_witness :
  let e := Py.Exn Py.ValueError "Expecting value: line 1 column 1 (char 0)" in
  let self := Engine.__init__ (Notions.constant_parser (inl e)) "2025-01-01T12:00:00" in
  generate_quote self Notions.ascii_stdout "Redo the bathroom" Notions.noon true ∅ =
    (inl (Py.Exn Py.UnicodeEncodeError
            "'ascii' codec can't encode character '\u274c' in position 0: ordinal not in range(128)"),
     ∅).
Proof.
  intros e self.
  destruct (generate_quote_fails_when_print_fails self "Redo the bathroom" Notions.noon
              true ∅ e) as (_ & H & _).
  - left. reflexivity.
  - exact H.
Defined.

(** C3. Area 4.0, Marseille, one demolition task without complexity
    factors, not budget-conscious: billable hours [max(4.0 * 1.5, 3.0)] =
    6.0, hourly rate 30.0 (basic skill, regional multiplier 1.0), labor
    cost 180.0; one material line, demolition materials, quantity 4.0 at
    unit cost 5.0 with 10% supplier margin, 22.0 in all; VAT at 10%
    (building age 5, no energy renovation) on the materials and labor
    components, each inflated by the 25% margin. *)
Theorem demolition_scenario (parser : SmartTranscriptParser) (now : string) :
  let self := Engine.__init__ parser now in
  (exists v info,
     LaborCalc.labor_vars LaborCalc.__init__
       {| LaborCalc.skill_level := LaborCalc.BASIC; LaborCalc.hours_per_sqm := 1.5;
          LaborCalc.minimum_hours := 3.0;
          LaborCalc.complexity_factors := list_to_map [
            ("thick_walls"%string, 1.3); ("tight_access"%string, 1.2);
            ("electrical_obstacles"%string, 1.2) ] |}
       (Py.VFloat 4.0) (Py.VStr "marseille") (Py.VList []) None false = inr v /\
     LaborCalc.calculate_task_labor LaborCalc.__init__ "demolition" (Py.VFloat 4.0)
       (Py.VStr "marseille") (Py.VList []) None false = inr (LaborCalc.LaborOk info) /\
     LaborCalc.v_billable_hours v = Qmax (4.0 * 1.5) 3.0 /\
     LaborCalc.v_billable_hours v == 6.0 /\
     LaborCalc.billable_hours info == 6.0 /\
     LaborCalc.skill_required info = "basic"%string /\
     LaborCalc.base_hourly_rate info == 30.0 /\
     LaborCalc.regional_multiplier info == 1.0 /\
     LaborCalc.final_hourly_rate info == 30.0 /\
     LaborCalc.base_labor_cost info == 180.0) /\
  (exists m info,
     MaterialDb.materials (material_db self) !! "demolition_materials"%string = Some m /\
     MaterialDb.supplier_margin m == 0.10 /\
     MaterialDb.get_cost_with_margin (material_db self) "demolition_materials"
       (4.0 * 1.0) (Py.VStr "marseille") = inr (MaterialDb.CostOk info) /\
     MaterialDb.ci_quantity info == 4.0 /\
     MaterialDb.ci_unit_cost info == 5.0 /\
     MaterialDb.ci_total_cost info == 22.0) /\
  (exists line t,
     _generate_detailed_tasks self Notions.demolition_order = inr [t] /\
     dt_labor_hours t == 6.0 /\
     dt_labor_cost t == 180.0 /\
     dt_materials t = [line] /\
     ml_name line = "Demolition Supplies"%string /\
     ml_quantity line == 4.0 /\
     ml_unit_cost line == 5.0 /\
     ml_total_cost line == 22.0 /\
     dt_materials_cost t == 22.0 /\
     margin_of Notions.demolition_order = 0.25 /\
     let vat := vat_calculation self Notions.demolition_order [t] in
     VatRules.building_age_years vat = 5%Z /\
     VatRules.is_energy_renovation vat = false /\
     VatRules.vat_rate vat = 0.10 /\
     VatRules.materials_cost vat == 22.0 * (1 + 0.25) /\
     VatRules.labor_cost vat == 180.0 * (1 + 0.25) /\
     VatRules.vat_amount vat == (22.0 + 180.0) * (1 + 0.25) * 0.10).
Proof.
  intros self. split; [ | split ].
  - eexists. eexists. split; [ vm_compute; reflexivity | ].
    split; [ vm_compute; reflexivity | ].
    split; [ rewrite <- py_max_Qmax; reflexivity | ].
    repeat split; vm_compute; reflexivity.
  - eexists. eexists. split; [ vm_compute; reflexivity | ].
    split; [ vm_compute; reflexivity | ].
    split; [ vm_compute; reflexivity | ].
    repeat split; vm_compute; reflexivity.
  - eexists. eexists. split; [ vm_compute; reflexivity | ].
    repeat split; vm_compute; reflexivity.
Qed.

(** C10. On a successful quote computation the VAT resolver is given
    building age 5, and the energy flag holds exactly when "energy" occurs
    in the lower-cased string form of some detailed task; the rate is
    5.5% with the flag and 10% without, never 20%. *)
Theorem successful_quote_vat_tier (self : PricingEngine) (stdout : Py.Stdout)
    (transcript : string) (now : Clock) (io_ok : bool)
    (files files' : gmap string Quote) (q : Quote) :
  vat_calculator self = VatRules.__init__ ->
  generate_quote_try self transcript now io_ok files = inr (q, files') ->
  exists parsed tasks_,
    parse_transcript (transcript_parser self) transcript = inr parsed /\
    _generate_detailed_tasks self parsed = inr tasks_ /\
    generate_quote self stdout transcript now io_ok files = (inr q, files') /\
    let vat := vat_calculation self parsed tasks_ in
    VatRules.building_age_years vat = 5%Z /\
    VatRules.is_energy_renovation vat =
      existsb (fun task =>
                 Py.contains "energy" (Py.lower (Py.str (task_dict task)))) tasks_ /\
    (VatRules.is_energy_renovation vat = true -> VatRules.vat_rate vat = 0.055) /\
    (VatRules.is_energy_renovation vat = false -> VatRules.vat_rate vat = 0.10) /\
    (VatRules.vat_rate vat = 0.10 \/ VatRules.vat_rate vat = 0.055) /\
    ~ VatRules.vat_rate vat == 0.20 /\
    vat_amount q = VatRules.vat_amount vat /\
    total_price q = VatRules.total_including_vat vat.
Proof.
  intros Hv Hq.
  destruct (generate_quote_try_cases self transcript now io_ok files)
    as [(e & He & _) | (parsed & tasks_ & Hp & Hg & Ht)]; [ congruence | ].
  rewrite Ht in Hq. injection Hq as <- <-.
  exists parsed, tasks_. split; [ exact Hp | ]. split; [ exact Hg | ].
  split; [ unfold generate_quote; rewrite Ht; reflexivity | ].
  assert (Hrate : VatRules.vat_rate (vat_calculation self parsed tasks_) =
                  if is_energy tasks_ then 0.055 else 0.10).
  { unfold vat_calculation. rewrite Hv, vat_rate_ladder.
    change (2 <=? building_age)%Z with true. rewrite andb_true_r. reflexivity. }
  cbv zeta. split; [ reflexivity | ]. split; [ reflexivity | ].
  change (VatRules.is_energy_renovation (vat_calculation self parsed tasks_))
    with (is_energy tasks_).
  rewrite Hrate.
  destruct (is_energy tasks_);
    (split; [ intros H; reflexivity || discriminate H | ];
     split; [ intros H; reflexivity || discriminate H | ];
     split; [ (left; reflexivity) || (right; reflexivity) | ];
     split; [ intros H; vm_compute in H; discriminate H | ];
     split; reflexivity).
Qed.

(** An empty task list raises nothing: the quote is assembled, priced at
    zero, and is not the fallback. *)
Remark empty_task_list_is_priced_at_zero (parser : SmartTranscriptParser)
    (now : string) (clock : Clock) :
  let order := [ ("area_sqm"%string, Py.VFloat 4.0); ("tasks"%string, Py.VList []) ] in
  let self := Engine.__init__ parser now in
  _generate_detailed_tasks self order = inr [] /\
  total_price (_calculate_final_quote self order [] clock) == 0 /\
  parsing_method (_calculate_final_quote self order [] clock) = Py.VStr "unknown".
Proof.
  intros order self. split; [ vm_compute; reflexivity | ]. split; vm_compute; reflexivity.
Qed.

(** The demolition scenario goes through at 10%. *)
Lemma successful_quote_vat_tier_witness :
  let self := Engine.__init__ (Notions.constant_parser (inr Notions.demolition_order))
                "2025-01-01T12:00:00" in
  exists tasks_,
    _generate_detailed_tasks self Notions.demolition_order = inr tasks_ /\
    VatRules.vat_rate (vat_calculation self Notions.demolition_order tasks_) = 0.10.
Proof.
  intros self.
  assert (Hq : exists q,
    generate_quote_try self "Strip the old tiles" Notions.noon false ∅ = inr (q, ∅)).
  { eexists. vm_compute. reflexivity. }
  destruct Hq as [q Hq].
  destruct (successful_quote_vat_tier self Notions.ascii_stdout "Strip the old tiles"
              Notions.noon false ∅ ∅ q eq_refl Hq)
    as (parsed & tasks_ & Hp & Hg & _ & _ & He & _ & Hr & _).
  injection Hp as <-.
  exists tasks_. split; [ exact Hg | ].
  apply Hr. rewrite He.
  assert (Ht : exists t, _generate_detailed_tasks self Notions.demolition_order = inr [t] /\
                         is_energy [t] = false).
  { eexists. split; [ vm_compute; reflexivity | vm_compute; reflexivity ]. }
  destruct Ht as (t & Ht & Hf). rewrite Ht in Hg. injection Hg as <-. exact Hf.
Defined.

End Orchestrator.

(** ** The detailed VAT path *)

Section DetailedVat.

Import VatRules.

(** X1. With the default rates the detailed resolution returns 5.5%, 10% or
    20%. Social housing gets 5.5% whatever the building age; any other
    property gets less than 20% only for a building of at least 2 years
    (5 when the age is absent); a commercial property never gets 10%. *)
Theorem detailed_rate_tiers (context : WorkContext) :
  let info := _determine_vat_rate VatRules.__init__ context in
  let age := default 5%Z (ctx_building_age_years context) in
  (rate info = 0.055 \/ rate info = 0.10 \/ rate info = 0.20) /\
  (property_type context = Some SOCIAL_HOUSING -> rate info = 0.055) /\
  (property_type context <> Some SOCIAL_HOUSING -> rate info < 0.20 -> (2 <= age)%Z) /\
  (property_type context = Some COMMERCIAL -> ~ rate info == 0.10).
Proof.
  intros info age. subst info age. unfold _determine_vat_rate.
  destruct context as [wt pt ba ef]. simpl.
  destruct pt as [[ | | | ] | ]; simpl;
    destruct (work_type_eqb (default RENOVATION wt) ENERGY_RENOVATION || default false ef);
    destruct (2 <=? default 5%Z ba)%Z eqn:Hage; simpl;
    try apply Z.leb_le in Hage;
    (split; [ first [ left; reflexivity | right; left; reflexivity
                    | right; right; reflexivity ] | ]);
    (split; [ intros H; first [ discriminate H | reflexivity ] | ]);
    (split; [ intros Hn Hr;
              first [ exact Hage | exfalso; apply Hn; reflexivity
                    | vm_compute in Hr; discriminate Hr ] | ]);
    intros H; first [ discriminate H | intros Hq; vm_compute in Hq; discriminate Hq ].
Qed.

(** Social housing in a new building. *)
Lemma detailed_rate_tiers_witness :
  rate (_determine_vat_rate VatRules.__init__
          {| work_type := None; property_type := Some SOCIAL_HOUSING;
             ctx_building_age_years := Some 0%Z; has_energy_features := None |}) = 0.055.
Proof.
  destruct (detailed_rate_tiers
              {| work_type := None; property_type := Some SOCIAL_HOUSING;
                 ctx_building_age_years := Some 0%Z; has_energy_features := None |})
    as (_ & H & _).
  apply H. reflexivity.
Defined.

(** The two resolutions pick the same rate for a residential property. *)
Lemma residential_rate_is_simple_rate
    (self : VATCalculatorForQuotes) (context : WorkContext) (m l : Q) :
  Notions.residential context ->
  rate (_determine_vat_rate self context) =
  vat_rate (calculate_simple_renovation_vat self m l
              (default 5%Z (ctx_building_age_years context)) (Notions.energy_work context)).
Proof.
  intros Hres. unfold _determine_vat_rate, calculate_simple_renovation_vat, Notions.energy_work.
  destruct context as [wt pt ba ef]. unfold Notions.residential in Hres. simpl in *.
  destruct Hres as [-> | [-> | ->]]; simpl;
    destruct (work_type_eqb (default RENOVATION wt) ENERGY_RENOVATION || default false ef);
    destruct (2 <=? default 5%Z ba)%Z; reflexivity.
Qed.

(** X2. For a residential property (or none given) the detailed
    resolution picks the rate the simple resolution picks for the same
    building age, the energy flag being: energy renovation work or energy
    features. *)
Theorem detailed_rate_is_simple_rate_for_residential
    (self : VATCalculatorForQuotes) (context : WorkContext) (m l : Q) :
  Notions.residential context ->
  rate (_determine_vat_rate self context) =
  vat_rate (calculate_simple_renovation_vat self m l
              (default 5%Z (ctx_building_age_years context)) (Notions.energy_work context)).
Proof.
  intros Hres. apply residential_rate_is_simple_rate, Hres.
Qed.

(** An energy renovation with every other key absent. *)
Lemma detailed_rate_is_simple_rate_for_residential_witness :
  rate (_determine_vat_rate VatRules.__init__
          {| work_type := Some ENERGY_RENOVATION; property_type := None;
             ctx_building_age_years := None; has_energy_features := None |}) =
  vat_rate (calculate_simple_renovation_vat VatRules.__init__ 1500.0 1200.0 5 true).
Proof.
  apply (detailed_rate_is_simple_rate_for_residential VatRules.__init__
           {| work_type := Some ENERGY_RENOVATION; property_type := None;
              ctx_building_age_years := None; has_energy_features := None |}).
  left. reflexivity.
Defined.

(** Adding to a number gives a number, the sum of the two values. *)
Lemma num_add_value (a b c : Py.value) :
  is_Some (Py.num a) ->
  Py.num_add a b = inr c ->
  is_Some (Py.num c) /\ Py.value_of c == Py.value_of a + Py.value_of b.
Proof.
  intros [x Hx] H. unfold Py.num_add in H.
  destruct a as [ | [ | ] | za | qa | | | ]; try discriminate Hx;
    destruct b as [ | [ | ] | zb | qb | | | ]; simpl in H; try discriminate H;
    injection H as <-; (split; [ eexists; reflexivity | ]);
    unfold Py.value_of; simpl; rewrite ?inject_Z_plus; try reflexivity; try ring.
Qed.

(** The loop adds up the amounts of each type. *)
Lemma split_items_totals (items : list Py.value) :
  forall tm tl tm' tl',
    is_Some (Py.num tm) -> is_Some (Py.num tl) ->
    split_items items tm tl = inr (tm', tl') ->
    Py.value_of tm' == Py.value_of tm + Notions.amounts_of "materials" items /\
    Py.value_of tl' == Py.value_of tl + Notions.amounts_of "labor" items.
Proof.
  induction items as [ | item items IH ]; intros tm tl tm' tl' Hm Hl H.
  - injection H as <- <-. simpl. split; ring.
  - simpl in H.
    destruct item as [ | b | z | q | s | l | d ]; try discriminate H.
    simpl in H. simpl Notions.amounts_of.
    destruct (Py.eq_str (Py.dict_get d "type" Py.VNone) "materials") eqn:Em.
    + assert (El : Py.eq_str (Py.dict_get d "type" Py.VNone) "labor" = false).
      { destruct (Py.dict_get d "type" Py.VNone); try reflexivity.
        simpl in Em |- *. apply String.eqb_eq in Em. subst. reflexivity. }
      rewrite El. unfold Py.getitem, Py.dict_get in *.
      destruct (Py.assoc "amount" d) as [amount | ]; [ | discriminate H ]. simpl in H.
      destruct (Py.num_add tm amount) as [e | tm1] eqn:Ha; [ discriminate H | ].
      simpl in H. destruct (num_add_value _ _ _ Hm Ha) as [Hs Hv].
      destruct (IH _ _ _ _ Hs Hl H) as [H1 H2].
      split; [ rewrite H1, Hv; ring | rewrite H2; ring ].
    + destruct (Py.eq_str (Py.dict_get d "type" Py.VNone) "labor") eqn:El.
      * unfold Py.getitem, Py.dict_get in *.
        destruct (Py.assoc "amount" d) as [amount | ]; [ | discriminate H ]. simpl in H.
        destruct (Py.num_add tl amount) as [e | tl1] eqn:Ha; [ discriminate H | ].
        simpl in H. destruct (num_add_value _ _ _ Hl Ha) as [Hs Hv].
        destruct (IH _ _ _ _ Hm Hs H) as [H1 H2].
        split; [ rewrite H1; ring | rewrite H2, Hv; ring ].
      * destruct (IH _ _ _ _ Hm Hl H) as [H1 H2].
        split; [ rewrite H1; ring | rewrite H2; ring ].
Qed.

(** X3. When the detailed calculation returns, for a residential context,
    its materials and labor totals are the rounded sums of the amounts of
    the items of each type, and its rate, VAT amount and VAT-inclusive
    total are those of the simple resolution on these two sums. *)
Theorem detailed_vat_is_simple_vat_on_totals
    (self : VATCalculatorForQuotes) (items : list Py.value) (context : WorkContext)
    (r : DetailedVat) :
  Notions.residential context ->
  calculate_detailed_vat self (Py.VList items) context = inr r ->
  let simple :=
    calculate_simple_renovation_vat self
      (Notions.amounts_of "materials" items) (Notions.amounts_of "labor" items)
      (default 5%Z (ctx_building_age_years context)) (Notions.energy_work context) in
  dv_materials_total r = Py.py_round (Notions.amounts_of "materials" items) 2 /\
  dv_labor_total r = Py.py_round (Notions.amounts_of "labor" items) 2 /\
  dv_vat_rate r = vat_rate simple /\
  dv_vat_amount r = vat_amount simple /\
  dv_total_including_vat r = total_including_vat simple.
Proof.
  intros Hres H simple.
  pose proof (residential_rate_is_simple_rate self context
                (Notions.amounts_of "materials" items) (Notions.amounts_of "labor" items)
                Hres) as Hr.
  fold simple in Hr.
  destruct (vat_amounts self (Notions.amounts_of "materials" items)
              (Notions.amounts_of "labor" items)
              (default 5%Z (ctx_building_age_years context))
              (Notions.energy_work context)) as (_ & Hv & Ht).
  fold simple in Hv, Ht. rewrite Hv, Ht, <- Hr. clear Hv Ht Hr. clearbody simple.
  unfold calculate_detailed_vat in H. simpl in H.
  destruct (split_items items (Py.VInt 0) (Py.VInt 0)) as [e | [tm tl]] eqn:Hs;
    [ discriminate H | ].
  simpl in H. injection H as <-.
  cbn [dv_materials_total dv_labor_total dv_vat_rate dv_vat_amount dv_total_including_vat].
  assert (H0 : is_Some (Py.num (Py.VInt 0))) by (eexists; reflexivity).
  destruct (split_items_totals items _ _ _ _ H0 H0 Hs) as [Hm Hl].
  change (Py.value_of (Py.VInt 0)) with (inject_Z 0) in Hm, Hl.
  assert (Hm' : Py.value_of tm == Notions.amounts_of "materials" items)
    by (rewrite Hm; ring).
  assert (Hl' : Py.value_of tl == Notions.amounts_of "labor" items)
    by (rewrite Hl; ring).
  split; [ apply py_round_comp, Hm' | ].
  split; [ apply py_round_comp, Hl' | ].
  split; [ reflexivity | ].
  split; apply py_round_comp; rewrite Hm', Hl'; reflexivity.
Qed.

(** An item of another type changes nothing, wherever it stands. *)
Lemma other_items_skipped (d : list (string * Py.value)) (pre post : list Py.value) :
  Notions.other_item d ->
  forall tm tl,
    split_items (pre ++ Py.VDict d :: post) tm tl = split_items (pre ++ post) tm tl.
Proof.
  intros [Hm Hl]. induction pre as [ | item pre IH ]; intros tm tl.
  - simpl. rewrite Hm, Hl. reflexivity.
  - simpl. destruct (Py.get item "type" Py.VNone) as [e | ty]; [ reflexivity | ].
    simpl. destruct (Py.eq_str ty "materials").
    + destruct (Py.subscript item "amount") as [e | amount]; [ reflexivity | ]. simpl.
      destruct (Py.num_add tm amount); [ reflexivity | ]. simpl. apply IH.
    + destruct (Py.eq_str ty "labor"); [ | apply IH ].
      destruct (Py.subscript item "amount") as [e | amount]; [ reflexivity | ]. simpl.
      destruct (Py.num_add tl amount); [ reflexivity | ]. simpl. apply IH.
Qed.

(** X4. An item whose type is neither "materials" nor "labor" (or that has
    no type) is ignored by the detailed calculation, its amount never read:
    the outcome, result or exception, is the one without the item. *)
Theorem detailed_vat_ignores_other_items
    (self : VATCalculatorForQuotes) (context : WorkContext)
    (d : list (string * Py.value)) (pre post : list Py.value) :
  Notions.other_item d ->
  calculate_detailed_vat self (Py.VList (pre ++ Py.VDict d :: post)) context =
  calculate_detailed_vat self (Py.VList (pre ++ post)) context.
Proof.
  intros Hd. unfold calculate_detailed_vat. simpl.
  rewrite (other_items_skipped d pre post Hd). reflexivity.
Qed.

(** One materials item, one labor item, same totals as the simple path. *)
Lemma detailed_vat_is_simple_vat_on_totals_witness :
  exists r,
    calculate_detailed_vat VatRules.__init__
      (Py.VList [ Py.VDict [ ("type"%string, Py.VStr "materials");
                             ("amount"%string, Py.VFloat 1500.0) ];
                  Py.VDict [ ("type"%string, Py.VStr "labor");
                             ("amount"%string, Py.VInt 1200) ] ])
      {| work_type := None; property_type := None;
         ctx_building_age_years := None; has_energy_features := None |} = inr r /\
    dv_vat_rate r = 0.10.
Proof.
  assert (Hr : exists r,
    calculate_detailed_vat VatRules.__init__
      (Py.VList [ Py.VDict [ ("type"%string, Py.VStr "materials");
                             ("amount"%string, Py.VFloat 1500.0) ];
                  Py.VDict [ ("type"%string, Py.VStr "labor");
                             ("amount"%string, Py.VInt 1200) ] ])
      {| work_type := None; property_type := None;
         ctx_building_age_years := None; has_energy_features := None |} = inr r).
  { eexists. vm_compute. reflexivity. }
  destruct Hr as [r Hr]. exists r. split; [ exact Hr | ].
  assert (Hres : Notions.residential
                   {| work_type := None; property_type := None;
                      ctx_building_age_years := None; has_energy_features := None |})
    by (left; reflexivity).
  destruct (detailed_vat_is_simple_vat_on_totals VatRules.__init__ _ _ r Hres Hr)
    as (_ & _ & H & _).
  rewrite H. reflexivity.
Defined.

(** A transport item between a materials item and a labor item. *)
Lemma detailed_vat_ignores_other_items_witness :
  calculate_detailed_vat VatRules.__init__
    (Py.VList ([ Py.VDict [ ("type"%string, Py.VStr "materials");
                            ("amount"%string, Py.VFloat 1500.0) ] ] ++
               Py.VDict [ ("type"%string, Py.VStr "transport") ] ::
               [ Py.VDict [ ("type"%string, Py.VStr "labor");
                            ("amount"%string, Py.VInt 1200) ] ]))
    {| work_type := None; property_type := None;
       ctx_building_age_years := None; has_energy_features := None |} =
  calculate_detailed_vat VatRules.__init__
    (Py.VList ([ Py.VDict [ ("type"%string, Py.VStr "materials");
                            ("amount"%string, Py.VFloat 1500.0) ] ] ++
               [ Py.VDict [ ("type"%string, Py.VStr "labor");
                            ("amount"%string, Py.VInt 1200) ] ]))
    {| work_type := None; property_type := None;
       ctx_building_age_years := None; has_energy_features := None |}.
Proof.
  apply detailed_vat_ignores_other_items. split; reflexivity.
Defined.

End DetailedVat.

(** ** Compliance validation, suggestions and scenarios *)

Section Compliance.

Import VatRules.

(** Comparing an integer with an integer bound. *)
Lemma lt_num_int (a b : Z) (ty : string) :
  Py.lt_num (Py.VInt a) (inject_Z b) ty = inr (a <? b)%Z.
Proof.
  unfold Py.lt_num. simpl. unfold Py.ret. f_equal.
  unfold Qcompare, Z.ltb. simpl. rewrite !Z.mul_1_r. reflexivity.
Qed.

(** X5. The rate the detailed resolution picks for a context, checked by
    the compliance validation against the context's building age, is found
    compliant, except for social housing in a building younger than 2
    years, which the resolution rates at 5.5% and the validation flags. *)
Theorem determined_rate_validates_unless_new_social_housing
    (context : WorkContext) (age : Z) (now : string) :
  ctx_building_age_years context = Some age ->
  exists c,
    validate_vat_compliance VatRules.__init__
      [ ("vat_rate"%string, Py.VFloat (rate (_determine_vat_rate VatRules.__init__ context)));
        ("building_age_years"%string, Py.VInt age) ] now = inr c /\
    compliant c = negb (Notions.social context && (age <? 2)%Z).
Proof.
  intros Hage. unfold validate_vat_compliance, _determine_vat_rate, Notions.social.
  destruct context as [wt pt ba ef]. simpl in Hage. subst ba.
  cbn [Py.dict_get Py.assoc String.eqb Ascii.eqb Bool.eqb default work_type property_type
       ctx_building_age_years has_energy_features option_rect from_option id].
  change 2 with (inject_Z 2).
  rewrite !lt_num_int.
  destruct pt as [[ | | | ] | ]; simpl;
    destruct (work_type_eqb (default RENOVATION wt) ENERGY_RENOVATION || default false ef);
    simpl; destruct (2 <=? age)%Z eqn:Ha; simpl;
    try (apply Z.leb_le in Ha; assert (Hlt : (age <? 2)%Z = false) by (apply Z.ltb_ge; lia));
    try (apply Z.leb_gt in Ha; assert (Hlt : (age <? 2)%Z = true) by (apply Z.ltb_lt; lia));
    rewrite ?Hlt; simpl; eexists; split; reflexivity.
Qed.

(** Social housing, one year old: rated 5.5%, flagged. *)
Lemma determined_rate_validates_unless_new_social_housing_witness :
  exists c,
    validate_vat_compliance VatRules.__init__
      [ ("vat_rate"%string,
         Py.VFloat (rate (_determine_vat_rate VatRules.__init__
                            {| work_type := None; property_type := Some SOCIAL_HOUSING;
                               ctx_building_age_years := Some 1%Z;
                               has_energy_features := None |})));
        ("building_age_years"%string, Py.VInt 1) ] "2025-01-01T12:00:00" = inr c /\
    compliant c = false.
Proof.
  apply (determined_rate_validates_unless_new_social_housing
           {| work_type := None; property_type := Some SOCIAL_HOUSING;
              ctx_building_age_years := Some 1%Z; has_energy_features := None |}
           1 "2025-01-01T12:00:00").
  reflexivity.
Defined.

(** X6. The validation reads a missing rate as 20% and a missing building
    age as 0: a quote without a rate is compliant with no documentation
    required, whatever else it holds, and a quote with a rate below 20% and
    no building age is never compliant. *)
Theorem validation_defaults (self : VATCalculatorForQuotes)
    (quote_data : list (string * Py.value)) (now : string) :
  (Py.assoc "vat_rate" quote_data = None ->
   exists c,
     validate_vat_compliance self quote_data now = inr c /\
     compliant c = true /\ documentation_required c = [] /\
     vat_rate_applied c = Py.VFloat 0.20) /\
  (forall r,
     Py.assoc "vat_rate" quote_data = Some (Py.VFloat r) ->
     r < 0.20 ->
     Py.assoc "building_age_years" quote_data = None ->
     exists c,
       validate_vat_compliance self quote_data now = inr c /\
       compliant c = false /\
       compliance_issues c = [ "Building age is <2 years but reduced VAT rate applied"%string ]).
Proof.
  split.
  - intros Hr. unfold validate_vat_compliance, Py.dict_get. rewrite Hr.
    eexists. split; [ reflexivity | ]. simpl. auto.
  - intros r Hr Hlt Ha. unfold validate_vat_compliance, Py.dict_get. rewrite Hr, Ha.
    assert (Hc : Py.lt_num (Py.VFloat r) 0.20 "float" = inr true).
    { unfold Py.lt_num. cbn [Py.num]. apply Qlt_alt in Hlt.
      unfold Qcompare in *. rewrite Hlt. reflexivity. }
    rewrite Hc. simpl. eexists. split; [ reflexivity | ]. simpl. auto.
Qed.

(** A 10% quote that does not state the building age. *)
Lemma validation_defaults_witness :
  exists c,
    validate_vat_compliance VatRules.__init__ [ ("vat_rate"%string, Py.VFloat 0.10) ]
      "2025-01-01T12:00:00" = inr c /\
    compliant c = false /\
    compliance_issues c = [ "Building age is <2 years but reduced VAT rate applied"%string ].
Proof.
  destruct (validation_defaults VatRules.__init__ [ ("vat_rate"%string, Py.VFloat 0.10) ]
              "2025-01-01T12:00:00") as [_ H].
  apply (H 0.10); [ reflexivity | reflexivity | reflexivity ].
Defined.

(** X7. At most one optimization suggestion is returned. A context without
    a building age gets the timing suggestion (age read as 0), although the
    rate resolution rates the same context as a 5-year-old building. *)
Theorem suggestions_at_most_one (self : VATCalculatorForQuotes) (context : WorkContext) :
  (length (get_vat_optimization_suggestions self context) <= 1)%nat /\
  (ctx_building_age_years context = None ->
   map sg_type (get_vat_optimization_suggestions self context) =
     [ "timing_optimization"%string ] /\
   rate (_determine_vat_rate self context) =
   rate (_determine_vat_rate self
           {| work_type := work_type context;
              property_type := property_type context;
              ctx_building_age_years := Some 5%Z;
              has_energy_features := has_energy_features context |})).
Proof.
  split.
  - unfold get_vat_optimization_suggestions.
    destruct (2 <=? default 0%Z (ctx_building_age_years context))%Z eqn:Ha.
    + assert (Hlt : (default 0%Z (ctx_building_age_years context) <? 2)%Z = false)
        by (apply Z.ltb_ge, Z.leb_le, Ha).
      rewrite Hlt, andb_true_r.
      destruct (_ && _); simpl; lia.
    + rewrite andb_false_r. simpl. destruct (_ <? 2)%Z; simpl; lia.
  - intros Ha. destruct context as [wt pt ba ef]. simpl in Ha. subst ba.
    split; [ | reflexivity ].
    unfold get_vat_optimization_suggestions. simpl.
    rewrite andb_false_r. reflexivity.
Qed.

(** The empty context. *)
Lemma suggestions_at_most_one_witness :
  map sg_type (get_vat_optimization_suggestions VatRules.__init__
                 {| work_type := None; property_type := None;
                    ctx_building_age_years := None; has_energy_features := None |}) =
  [ "timing_optimization"%string ].
Proof.
  destruct (suggestions_at_most_one VatRules.__init__
              {| work_type := None; property_type := None;
                 ctx_building_age_years := None; has_energy_features := None |})
    as [_ H].
  apply H. reflexivity.
Defined.

(** X8. For a base amount [>= 0] and the default rates: under 2 years only
    the standard scenario is returned; from 2 years on the standard,
    renovation and energy scenarios are returned in that order, VAT amounts
    and totals decrease from standard to renovation to energy, and every
    reported saving is [>= 0]. *)
Theorem savings_scenarios_ordered (base_amount : Q) (building_age : Z) :
  0 <= base_amount ->
  ((building_age < 2)%Z ->
   map fst (calculate_vat_savings_scenarios VatRules.__init__ base_amount building_age) =
     [ "standard"%string ]) /\
  ((2 <= building_age)%Z ->
   exists st rn en s1 s2 s3,
     calculate_vat_savings_scenarios VatRules.__init__ base_amount building_age =
       [ ("standard"%string, st); ("renovation"%string, rn);
         ("energy_efficiency"%string, en) ] /\
     sc_vat_amount en <= sc_vat_amount rn /\ sc_vat_amount rn <= sc_vat_amount st /\
     sc_total en <= sc_total rn /\ sc_total rn <= sc_total st /\
     sc_savings_vs_standard rn = Some s1 /\ 0 <= s1 /\
     sc_savings_vs_standard en = Some s2 /\ 0 <= s2 /\
     sc_savings_vs_renovation en = Some s3 /\ 0 <= s3).
Proof.
  intros Hb. split.
  - intros Ha. unfold calculate_vat_savings_scenarios.
    apply Z.leb_gt in Ha. rewrite Ha. reflexivity.
  - intros Ha. unfold calculate_vat_savings_scenarios.
    apply Z.leb_le in Ha. rewrite Ha. simpl.
    do 6 eexists. split; [ reflexivity | ]. simpl.
    assert (H0 : Py.py_round 0 2 == 0) by (vm_compute; reflexivity).
    repeat split; try (apply py_round_mono; lra);
      rewrite <- H0; apply py_round_mono; lra.
Qed.

(** A one-year-old building. *)
Lemma savings_scenarios_ordered_witness :
  map fst (calculate_vat_savings_scenarios VatRules.__init__ 2700.0 1) =
  [ "standard"%string ].
Proof.
  destruct (savings_scenarios_ordered 2700.0 1) as [H _].
  - unfold Qle. simpl. lia.
  - apply H. lia.
Defined.

End Compliance.

(** ** The catalog: lookups and price updates *)

Section Catalog.

Import MaterialDb.

(** X9. An unknown material id is reported, never raised: the lookup gives
    nothing, the cost operation an error dictionary naming the id, the
    price update [False] and an unchanged catalog, whatever the region is.
    For a known id a region that is no string raises [AttributeError]. *)
Theorem material_lookup_errors
    (self : MaterialDatabase) (id : string) (q price : Q) (region : Py.value)
    (supplier : option string) (now : string) :
  (materials self !! id = None ->
   get_material self id region = inr None /\
   get_cost_with_margin self id q region =
     inr (CostError ("Material " ++ id ++ " not found")%string) /\
   update_material_price self id price supplier now = (self, false)) /\
  (is_Some (materials self !! id) ->
   (forall s, region <> Py.VStr s) ->
   get_cost_with_margin self id q region =
     inl (Py.Exn Py.AttributeError
            ("'" ++ Py.type_name region ++ "' object has no attribute 'lower'")%string)).
Proof.
  split.
  - intros H. unfold get_cost_with_margin, update_material_price, get_material.
    rewrite H. auto.
  - intros [m H] Hr. unfold get_cost_with_margin, get_material. rewrite H.
    destruct region; try reflexivity. exfalso. eapply Hr. reflexivity.
Qed.

(** Gold taps are not in the default catalog; primer is. *)
Lemma material_lookup_errors_witness :
  get_cost_with_margin (MaterialDb.__init__ "2025-01-01T00:00:00") "gold_taps" 2 Py.VNone =
    inr (CostError "Material gold_taps not found") /\
  get_cost_with_margin (MaterialDb.__init__ "2025-01-01T00:00:00") "primer" 2 Py.VNone =
    inl (Py.Exn Py.AttributeError "'NoneType' object has no attribute 'lower'").
Proof.
  split.
  - destruct (material_lookup_errors (MaterialDb.__init__ "2025-01-01T00:00:00")
                "gold_taps" 2 0 Py.VNone None "2025-01-01T00:00:00") as [H _].
    apply H. vm_compute. reflexivity.
  - destruct (material_lookup_errors (MaterialDb.__init__ "2025-01-01T00:00:00")
                "primer" 2 0 Py.VNone None "2025-01-01T00:00:00") as [_ H].
    apply H; [ eexists; vm_compute; reflexivity | discriminate ].
Defined.

(** X10. After a price update of a known material the cost operation works
    from the new price: unit cost is the new price times the regional
    multiplier, the total is rounded from it with the unchanged supplier
    margin, and name, availability and regional table are as before. *)
Theorem price_update_is_read_back
    (self : MaterialDatabase) (id city : string) (m : Material) (new_price q : Q)
    (supplier : option string) (now : string) :
  materials self !! id = Some m ->
  exists self' info,
    update_material_price self id new_price supplier now = (self', true) /\
    regional_multipliers self' = regional_multipliers self /\
    get_cost_with_margin self' id q (Py.VStr city) = inr (CostOk info) /\
    ci_unit_cost info =
      new_price * multiplier_get (regional_multipliers self) (Py.lower city) /\
    ci_total_cost info =
      Py.py_round (ci_unit_cost info * q + ci_unit_cost info * q * supplier_margin m) 2 /\
    ci_availability_score info = availability_score m /\
    ci_name info = name m.
Proof.
  intros H. unfold update_material_price. rewrite H.
  eexists. eexists. split; [ reflexivity | ]. split; [ reflexivity | ].
  unfold get_cost_with_margin, get_material. cbn [materials regional_multipliers].
  rewrite lookup_insert_eq. simpl. split; [ reflexivity | ]. simpl. auto.
Qed.

(** Primer repriced at 14.0, read back in Lyon. *)
Lemma price_update_is_read_back_witness :
  exists self' info,
    update_material_price (MaterialDb.__init__ "2025-01-01T00:00:00") "primer" 14.0
      (Some "S42"%string) "2025-06-01T00:00:00" = (self', true) /\
    get_cost_with_margin self' "primer" 2 (Py.VStr "Lyon") = inr (CostOk info) /\
    ci_unit_cost info = 14.0 * 1.15.
Proof.
  assert (Hm : exists m,
    materials (MaterialDb.__init__ "2025-01-01T00:00:00") !! "primer"%string = Some m).
  { eexists. vm_compute. reflexivity. }
  destruct Hm as [m Hm].
  destruct (price_update_is_read_back (MaterialDb.__init__ "2025-01-01T00:00:00")
              "primer" "Lyon" m 14.0 2 (Some "S42"%string) "2025-06-01T00:00:00" Hm)
    as (self' & info & Hu & _ & Hc & Hunit & _).
  exists self', info. split; [ exact Hu | ]. split; [ exact Hc | ].
  rewrite Hunit. f_equal.
Defined.

(** X11. A price update changes the cost results of no other material id
    (each id holding its own entry, as in the catalogs the constructor and
    the loader build). *)
Theorem price_update_leaves_other_materials
    (self : MaterialDatabase) (id other : string) (new_price q : Q)
    (supplier : option string) (now : string) (region : Py.value) :
  other <> id ->
  get_cost_with_margin (fst (update_material_price self id new_price supplier now))
    other q region =
  get_cost_with_margin self other q region.
Proof.
  intros Hne. unfold update_material_price.
  destruct (materials self !! id) as [m | ]; [ | reflexivity ].
  unfold get_cost_with_margin, get_material. cbn [fst materials regional_multipliers].
  rewrite lookup_insert_ne by congruence. reflexivity.
Qed.

(** Repricing primer does not move the price of pipes. *)
Lemma price_update_leaves_other_materials_witness :
  get_cost_with_margin
    (fst (update_material_price (MaterialDb.__init__ "2025-01-01T00:00:00") "primer" 14.0
            None "2025-06-01T00:00:00"))
    "pipes_pvc" 3 (Py.VStr "paris") =
  get_cost_with_margin (MaterialDb.__init__ "2025-01-01T00:00:00") "pipes_pvc" 3
    (Py.VStr "paris").
Proof.
  apply price_update_leaves_other_materials. discriminate.
Defined.

End Catalog.

(** ** The shape of a material cost *)

Section CostShape.

Import MaterialDb.

(** Three roundings to cents of [b], [m] and [b + m] agree to a cent. *)
Lemma rounded_sum_within_a_cent (b m : Q) :
  Qabs (Py.py_round (b + m) 2 - (Py.py_round b 2 + Py.py_round m 2)) <= 1 # 100.
Proof.
  rewrite !py_round_value.
  change (inject_Z (Z.pos (Py.pow10 2))) with 100.
  set (zt := Py.round_half_even ((b + m) * 100)).
  set (zb := Py.round_half_even (b * 100)).
  set (zm := Py.round_half_even (m * 100)).
  pose proof (round_half_even_error ((b + m) * 100)) as Et.
  pose proof (round_half_even_error (b * 100)) as Eb.
  pose proof (round_half_even_error (m * 100)) as Em.
  fold zt in Et. fold zb in Eb. fold zm in Em.
  apply Qabs_Qle_condition in Et, Eb, Em.
  destruct Et as [Et1 Et2], Eb as [Eb1 Eb2], Em as [Em1 Em2].
  assert (Hk : inject_Z (zt - zb - zm) < inject_Z 2 /\ inject_Z (-2) < inject_Z (zt - zb - zm)).
  { unfold Z.sub. rewrite !inject_Z_plus, !inject_Z_opp.
    change (inject_Z 2) with 2. change (inject_Z (-2)) with (-2). split; lra. }
  destruct Hk as [Hk1 Hk2]. rewrite <- Zlt_Qlt in Hk1, Hk2.
  assert (Hle : inject_Z (zt - zb - zm) <= 1 /\ - (1) <= inject_Z (zt - zb - zm)).
  { change 1 with (inject_Z 1). change (- inject_Z 1) with (inject_Z (-1)).
    rewrite <- !Zle_Qle. lia. }
  destruct Hle as [Hle1 Hle2].
  unfold Z.sub in Hle1, Hle2. rewrite !inject_Z_plus, !inject_Z_opp in Hle1, Hle2.
  unfold Qdiv. change (/ 100) with (1 # 100).
  apply Qabs_Qle_condition. split; lra.
Qed.

(** X12. The reported total cost differs from the sum of the reported base
    cost and margin by at most one cent: the three amounts are rounded
    separately. *)
Theorem reported_total_within_a_cent_of_parts
    (self : MaterialDatabase) (id : string) (q : Q) (region : Py.value) (info : CostInfo) :
  get_cost_with_margin self id q region = inr (CostOk info) ->
  Qabs (ci_total_cost info - (ci_base_cost info + ci_margin info)) <= 1 # 100.
Proof.
  intros H.
  destruct (get_cost_rounded self id q region info H) as (m & _ & _ & Hb & Hm & Ht).
  rewrite Hb, Hm, Ht. apply rounded_sum_within_a_cent.
Qed.

(** X13. For a material whose price, margin and regional multiplier are
    not negative, the total cost is not negative, does not decrease when
    the quantity grows, and is at least the base cost. *)
Theorem total_cost_monotone_in_quantity
    (self : MaterialDatabase) (id city : string) (m : Material) (q1 q2 : Q) :
  materials self !! id = Some m ->
  0 <= base_cost m -> 0 <= supplier_margin m ->
  0 <= multiplier_get (regional_multipliers self) (Py.lower city) ->
  0 <= q1 -> q1 <= q2 ->
  exists c1 c2,
    get_cost_with_margin self id q1 (Py.VStr city) = inr (CostOk c1) /\
    get_cost_with_margin self id q2 (Py.VStr city) = inr (CostOk c2) /\
    0 <= ci_total_cost c1 /\
    ci_total_cost c1 <= ci_total_cost c2 /\
    ci_base_cost c1 <= ci_total_cost c1.
Proof.
  intros Hm Hb Hs Hr Hq1 Hq.
  destruct (get_cost_found self id city m q1 Hm) as (c1 & H1 & Hu1 & Hb1 & _ & Ht1).
  destruct (get_cost_found self id city m q2 Hm) as (c2 & H2 & Hu2 & _ & _ & Ht2).
  exists c1, c2. split; [ exact H1 | ]. split; [ exact H2 | ].
  rewrite Ht1, Ht2, Hb1, Hu1, Hu2.
  set (u := base_cost m * _) in *.
  set (s := supplier_margin m) in *.
  assert (Hu : 0 <= u) by (apply Qmult_le_0_compat; assumption).
  assert (H0 : Py.py_round 0 2 == 0) by (vm_compute; reflexivity).
  assert (Huq1 : 0 <= u * q1) by (apply Qmult_le_0_compat; assumption).
  assert (Huq : u * q1 <= u * q2).
  { rewrite (Qmult_comm u q1), (Qmult_comm u q2). apply Qmult_le_compat_r; assumption. }
  assert (Hs1 : 0 <= u * q1 * s) by (apply Qmult_le_0_compat; assumption).
  assert (Hs2 : u * q1 * s <= u * q2 * s) by (apply Qmult_le_compat_r; assumption).
  split; [ rewrite <- H0; apply py_round_mono; lra | ].
  split; apply py_round_mono; lra.
Qed.

(** Four metres of pipe in Paris. *)
Lemma reported_total_within_a_cent_of_parts_witness :
  exists info,
    get_cost_with_margin (MaterialDb.__init__ "2025-01-01T00:00:00") "pipes_pvc" 4
      (Py.VStr "paris") = inr (CostOk info) /\
    Qabs (ci_total_cost info - (ci_base_cost info + ci_margin info)) <= 1 # 100.
Proof.
  assert (H : exists info,
    get_cost_with_margin (MaterialDb.__init__ "2025-01-01T00:00:00") "pipes_pvc" 4
      (Py.VStr "paris") = inr (CostOk info)).
  { eexists. vm_compute. reflexivity. }
  destruct H as [info H]. exists info. split; [ exact H | ].
  exact (reported_total_within_a_cent_of_parts _ _ _ _ _ H).
Defined.

(** One toilet and two toilets in Nice. *)
Lemma total_cost_monotone_in_quantity_witness :
  exists c1 c2,
    get_cost_with_margin (MaterialDb.__init__ "2025-01-01T00:00:00") "toilet_standard" 1
      (Py.VStr "nice") = inr (CostOk c1) /\
    get_cost_with_margin (MaterialDb.__init__ "2025-01-01T00:00:00") "toilet_standard" 2
      (Py.VStr "nice") = inr (CostOk c2) /\
    ci_total_cost c1 <= ci_total_cost c2.
Proof.
  assert (Hm : exists m,
    materials (MaterialDb.__init__ "2025-01-01T00:00:00") !! "toilet_standard"%string
      = Some m /\ 0 <= base_cost m /\ 0 <= supplier_margin m).
  { eexists. split; [ vm_compute; reflexivity | ].
    split; unfold Qle; simpl; lia. }
  destruct Hm as (m & Hm & Hb & Hs).
  destruct (total_cost_monotone_in_quantity (MaterialDb.__init__ "2025-01-01T00:00:00")
              "toilet_standard" "nice" m 1 2 Hm Hb Hs)
    as (c1 & c2 & H1 & H2 & _ & Hle & _).
  - vm_compute. discriminate.
  - unfold Qle. simpl. lia.
  - unfold Qle. simpl. lia.
  - exists c1, c2. auto.
Defined.

End CostShape.

(** ** The shape of a labor cost *)

Section LaborShape.

Import LaborCalc.

(** What the call computes for a numeric area, a city name and a list of
    tags: hours and cost in terms of the complexity product. *)
Lemma labor_vars_strings (self : LaborCalculator) (def : TaskDef) (area : Q)
    (city : string) (tags : list string) (date : option datetime) (rush : bool) :
  exists cm applied v,
    apply_factors def (map Py.VStr tags) 1.0 [] = inr (cm, applied) /\
    labor_vars self def (Py.VFloat area) (Py.VStr city) (Py.VList (map Py.VStr tags))
      date rush = inr v /\
    v_billable_hours v = Py.py_max (area * hours_per_sqm def) (minimum_hours def) /\
    v_final_hours v = v_billable_hours v * cm /\
    v_final_hourly_rate v = Notions.hourly self def city date rush /\
    v_base_labor_cost v = v_billable_hours v * cm * Notions.hourly self def city date rush /\
    v_applied_factors v = applied.
Proof.
  destruct (apply_factors_strings def tags 1.0 []) as [[cm applied] Hf].
  assert (Hcm :
    (if Py.truthy (Py.VList (map Py.VStr tags))
     then Py.bind (Py.iter (Py.VList (map Py.VStr tags)))
            (fun fs => apply_factors def fs 1.0 [])
     else Py.ret (1.0, [])) = inr (cm, applied)).
  { destruct tags as [ | tag tags ]; [ | exact Hf ].
    simpl in Hf. simpl. exact Hf. }
  exists cm, applied. eexists. split; [ exact Hf | ].
  unfold labor_vars. rewrite Hcm. simpl.
  split; [ reflexivity | ]. simpl. unfold Notions.hourly. auto.
Qed.

(** The same, for the reported dictionary. *)
Lemma calculate_task_labor_strings (self : LaborCalculator) (t : string) (def : TaskDef)
    (area : Q) (city : string) (tags : list string) (date : option datetime) (rush : bool) :
  task_definitions self !! t = Some def ->
  exists cm applied info,
    apply_factors def (map Py.VStr tags) 1.0 [] = inr (cm, applied) /\
    calculate_task_labor self t (Py.VFloat area) (Py.VStr city)
      (Py.VList (map Py.VStr tags)) date rush = inr (LaborOk info) /\
    billable_hours info =
      Py.py_round (Py.py_max (area * hours_per_sqm def) (minimum_hours def)) 1 /\
    final_hours info =
      Py.py_round (Py.py_max (area * hours_per_sqm def) (minimum_hours def) * cm) 1 /\
    final_hourly_rate info = Py.py_round (Notions.hourly self def city date rush) 2 /\
    base_labor_cost info =
      Py.py_round (Py.py_max (area * hours_per_sqm def) (minimum_hours def) * cm
                   * Notions.hourly self def city date rush) 2 /\
    applied_complexity_factors info = applied.
Proof.
  intros Ht.
  destruct (labor_vars_strings self def area city tags date rush)
    as (cm & applied & v & Hf & Hv & Hb & Hfh & Hr & Hc & Ha).
  exists cm, applied. eexists. split; [ exact Hf | ].
  unfold calculate_task_labor. rewrite Ht, Hv. simpl.
  split; [ reflexivity | ]. simpl.
  rewrite Hc, Hfh, Hr, Hb, Ha. repeat split.
Qed.


(** The default tables hold no negative rate or multiplier. *)
Lemma default_hourly_nonneg (def : TaskDef) (city : string) (date : option datetime)
    (rush : bool) :
  0 <= Notions.hourly LaborCalc.__init__ def city date rush.
Proof.
  unfold Notions.hourly.
  assert (Hb : 0 <= base_rates LaborCalc.__init__ (skill_level def)).
  { destruct (skill_level def); vm_compute; discriminate. }
  assert (Hr : 0 <= default 1.0 (regional_multipliers LaborCalc.__init__ !! Py.lower city)).
  { destruct (regional_multipliers LaborCalc.__init__ !! Py.lower city) as [x | ] eqn:E;
      [ | vm_compute; discriminate ].
    unfold LaborCalc.__init__, regional_multipliers in E.
    apply elem_of_list_to_map_2 in E.
    repeat (apply elem_of_cons in E; destruct E as [E | E];
            [ injection E as _ ->; vm_compute; discriminate | ]).
    apply elem_of_nil in E. contradiction. }
  assert (Hs : 0 <= match date with
                    | Some d => default 1.0 (seasonal_multipliers LaborCalc.__init__ !! month d)
                    | None => 1.0
                    end).
  { destruct date as [d | ]; [ | vm_compute; discriminate ].
    destruct (seasonal_multipliers LaborCalc.__init__ !! month d) as [x | ] eqn:E;
      [ | vm_compute; discriminate ].
    unfold LaborCalc.__init__, seasonal_multipliers in E.
    apply elem_of_list_to_map_2 in E.
    repeat (apply elem_of_cons in E; destruct E as [E | E];
            [ injection E as _ ->; vm_compute; discriminate | ]).
    apply elem_of_nil in E. contradiction. }
  assert (Hu : 0 <= (if rush then 1.8 else 1.0)) by (destruct rush; vm_compute; discriminate).
  repeat apply Qmult_le_0_compat; assumption.
Qed.

(** The default task table: hours are not negative and every complexity
    factor is at least 1. *)
Lemma default_task_shape (t : string) (def : TaskDef) :
  task_definitions LaborCalc.__init__ !! t = Some def ->
  0 <= hours_per_sqm def /\ 0 <= minimum_hours def /\
  forall tag f, complexity_factors def !! tag = Some f -> 1 <= f.
Proof.
  intros H. unfold LaborCalc.__init__, task_definitions in H.
  apply elem_of_list_to_map_2 in H.
  repeat (apply elem_of_cons in H; destruct H as [H | H];
          [ injection H as _ ->;
            split; [ vm_compute; discriminate | ];
            split; [ vm_compute; discriminate | ];
            intros tag f E; unfold complexity_factors in E;
            repeat (rewrite lookup_insert in E; case_decide;
                    [ injection E as <-; vm_compute; discriminate | ]);
            rewrite lookup_empty in E; discriminate E | ]).
  apply elem_of_nil in H. contradiction.
Qed.

(** With factors of at least 1 the running product only grows. *)
Lemma apply_factors_grows (def : TaskDef) (tags : list string) :
  (forall tag f, complexity_factors def !! tag = Some f -> 1 <= f) ->
  forall cm applied cm' applied',
    0 <= cm ->
    apply_factors def (map Py.VStr tags) cm applied = inr (cm', applied') ->
    cm <= cm'.
Proof.
  intros Hf. induction tags as [ | tag tags IH ]; intros cm applied cm' applied' H0 H.
  - injection H as <- _. lra.
  - simpl in H. destruct (complexity_factors def !! tag) as [f | ] eqn:E.
    + pose proof (Hf _ _ E) as H1.
      assert (Hle : cm <= cm * f).
      { rewrite <- (Qmult_1_r cm) at 1. rewrite (Qmult_comm cm 1), (Qmult_comm cm f).
        apply Qmult_le_compat_r; assumption. }
      apply IH in H; lra.
    + apply IH in H; assumption.
Qed.

(** Tags the task's table does not hold leave the product as it is. *)
Lemma apply_factors_unknown (def : TaskDef) (tags : list string) :
  Forall (fun tag => complexity_factors def !! tag = None) tags ->
  forall cm applied,
    apply_factors def (map Py.VStr tags) cm applied = inr (cm, applied).
Proof.
  induction 1 as [ | tag tags E _ IH ]; intros cm applied; simpl.
  - reflexivity.
  - rewrite E. apply IH.
Qed.

(** X14. With the default tables, for a known task and an area [>= 0],
    complexity tags never lower the labor figures: billable hours are
    untouched, final hours and labor cost are at least those without
    tags; tags the task's table does not hold change nothing and are not
    reported as applied. *)
Theorem complexity_never_lowers_labor_cost (t : string) (def : TaskDef) (area : Q)
    (city : string) (tags : list string) (date : option datetime) (rush : bool) :
  task_definitions LaborCalc.__init__ !! t = Some def ->
  0 <= area ->
  exists plain loaded,
    calculate_task_labor LaborCalc.__init__ t (Py.VFloat area) (Py.VStr city)
      (Py.VList []) date rush = inr (LaborOk plain) /\
    calculate_task_labor LaborCalc.__init__ t (Py.VFloat area) (Py.VStr city)
      (Py.VList (map Py.VStr tags)) date rush = inr (LaborOk loaded) /\
    billable_hours loaded = billable_hours plain /\
    final_hours plain <= final_hours loaded /\
    base_labor_cost plain <= base_labor_cost loaded /\
    (Forall (fun tag => complexity_factors def !! tag = None) tags ->
     final_hours loaded = final_hours plain /\
     base_labor_cost loaded = base_labor_cost plain /\
     applied_complexity_factors loaded = []).
Proof.
  intros Ht Ha.
  destruct (default_task_shape t def Ht) as (Hh & Hmin & Hf).
  destruct (calculate_task_labor_strings LaborCalc.__init__ t def area city [] date rush Ht)
    as (cm0 & ap0 & plain & Hf0 & Hp & Hpb & Hpf & _ & Hpc & _).
  destruct (calculate_task_labor_strings LaborCalc.__init__ t def area city tags date rush Ht)
    as (cm & ap & loaded & Hf1 & Hl & Hlb & Hlf & _ & Hlc & Hla).
  simpl in Hf0. injection Hf0 as <- <-.
  exists plain, loaded. split; [ exact Hp | ]. split; [ exact Hl | ].
  assert (Hcm : 1.0 <= cm).
  { eapply apply_factors_grows; [ exact Hf | | exact Hf1 ]. vm_compute. discriminate. }
  set (B := Py.py_max (area * hours_per_sqm def) (minimum_hours def)) in *.
  assert (HB : 0 <= B).
  { destruct (py_max_spec (area * hours_per_sqm def) (minimum_hours def)) as (H1 & _).
    fold B in H1. lra. }
  pose proof (default_hourly_nonneg def city date rush) as HR.
  set (R := Notions.hourly LaborCalc.__init__ def city date rush) in *.
  assert (Hh1 : B * 1.0 <= B * cm).
  { rewrite (Qmult_comm B 1.0), (Qmult_comm B cm). apply Qmult_le_compat_r; assumption. }
  split; [ rewrite Hlb, Hpb; reflexivity | ].
  split; [ rewrite Hpf, Hlf; apply py_round_mono, Hh1 | ].
  split; [ rewrite Hpc, Hlc; apply py_round_mono, Qmult_le_compat_r; assumption | ].
  intros Hu. rewrite (apply_factors_unknown def tags Hu) in Hf1.
  injection Hf1 as <- <-.
  rewrite Hlf, Hpf, Hlc, Hpc, Hla. auto.
Qed.

(** Tiling in Paris with a known and an unknown tag. *)
Lemma complexity_never_lowers_labor_cost_witness :
  exists plain loaded,
    calculate_task_labor LaborCalc.__init__ "tiling" (Py.VFloat 4.0) (Py.VStr "paris")
      (Py.VList []) None false = inr (LaborOk plain) /\
    calculate_task_labor LaborCalc.__init__ "tiling" (Py.VFloat 4.0) (Py.VStr "paris")
      (Py.VList (map Py.VStr [ "small_tiles"; "mirror_finish" ]%string)) None false
      = inr (LaborOk loaded) /\
    base_labor_cost plain <= base_labor_cost loaded.
Proof.
  assert (H : exists def, task_definitions LaborCalc.__init__ !! "tiling"%string = Some def).
  { eexists. vm_compute. reflexivity. }
  destruct H as [def H].
  assert (Ha : 0 <= 4.0) by (unfold Qle; simpl; lia).
  destruct (complexity_never_lowers_labor_cost "tiling" def 4.0 "paris"
              [ "small_tiles"; "mirror_finish" ]%string None false H Ha)
    as (plain & loaded & H1 & H2 & _ & _ & H3 & _).
  exists plain, loaded. auto.
Defined.


(** X15. With the default tables the labor cost does not decrease when the
    area grows, and as long as [area * hours_per_sqm] stays within the
    task's minimum hours the billable hours, final hours and labor cost do
    not depend on the area at all. *)
Theorem labor_cost_monotone_with_minimum (t : string) (def : TaskDef) (a1 a2 : Q)
    (city : string) (tags : list string) (date : option datetime) (rush : bool) :
  task_definitions LaborCalc.__init__ !! t = Some def ->
  0 <= a1 -> a1 <= a2 ->
  exists i1 i2,
    calculate_task_labor LaborCalc.__init__ t (Py.VFloat a1) (Py.VStr city)
      (Py.VList (map Py.VStr tags)) date rush = inr (LaborOk i1) /\
    calculate_task_labor LaborCalc.__init__ t (Py.VFloat a2) (Py.VStr city)
      (Py.VList (map Py.VStr tags)) date rush = inr (LaborOk i2) /\
    billable_hours i1 <= billable_hours i2 /\
    base_labor_cost i1 <= base_labor_cost i2 /\
    (a2 * hours_per_sqm def <= minimum_hours def ->
     billable_hours i1 = billable_hours i2 /\
     final_hours i1 = final_hours i2 /\
     base_labor_cost i1 = base_labor_cost i2).
Proof.
  intros Ht Ha Hle.
  destruct (default_task_shape t def Ht) as (Hh & Hmin & Hf).
  destruct (calculate_task_labor_strings LaborCalc.__init__ t def a1 city tags date rush Ht)
    as (cm & ap & i1 & Hf1 & H1 & Hb1 & Hfh1 & _ & Hc1 & _).
  destruct (calculate_task_labor_strings LaborCalc.__init__ t def a2 city tags date rush Ht)
    as (cm' & ap' & i2 & Hf2 & H2 & Hb2 & Hfh2 & _ & Hc2 & _).
  rewrite Hf1 in Hf2. injection Hf2 as <- <-.
  exists i1, i2. split; [ exact H1 | ]. split; [ exact H2 | ].
  assert (Hcm : 1.0 <= cm).
  { eapply apply_factors_grows; [ exact Hf | | exact Hf1 ]. vm_compute. discriminate. }
  pose proof (default_hourly_nonneg def city date rush) as HR.
  set (R := Notions.hourly LaborCalc.__init__ def city date rush) in *.
  rewrite !py_max_Qmax in *.
  assert (Hprod : a1 * hours_per_sqm def <= a2 * hours_per_sqm def)
    by (apply Qmult_le_compat_r; assumption).
  pose proof (Q.max_le_compat_r _ _ (minimum_hours def) Hprod) as HB.
  rewrite Hb1, Hb2, Hfh1, Hfh2, Hc1, Hc2.
  split; [ apply py_round_mono, HB | ].
  split.
  - apply py_round_mono. apply Qmult_le_compat_r; [ | exact HR ].
    apply Qmult_le_compat_r; [ exact HB | lra ].
  - intros Hsmall.
    assert (E2 : Qmax (a2 * hours_per_sqm def) (minimum_hours def) == minimum_hours def)
      by (apply Q.max_r, Hsmall).
    assert (E1 : Qmax (a1 * hours_per_sqm def) (minimum_hours def) == minimum_hours def)
      by (apply Q.max_r; lra).
    repeat split; apply py_round_comp; rewrite E1, E2; reflexivity.
Qed.

(** Painting 1.0 and 3.5 square metres costs the same four hours. *)
Lemma labor_cost_monotone_with_minimum_witness :
  exists i1 i2,
    calculate_task_labor LaborCalc.__init__ "painting" (Py.VFloat 1.0) (Py.VStr "lille")
      (Py.VList (map Py.VStr [])) None false = inr (LaborOk i1) /\
    calculate_task_labor LaborCalc.__init__ "painting" (Py.VFloat 3.5) (Py.VStr "lille")
      (Py.VList (map Py.VStr [])) None false = inr (LaborOk i2) /\
    base_labor_cost i1 = base_labor_cost i2.
Proof.
  assert (H : exists def,
    task_definitions LaborCalc.__init__ !! "painting"%string = Some def /\
    3.5 * hours_per_sqm def <= minimum_hours def).
  { eexists. split; [ vm_compute; reflexivity | vm_compute; discriminate ]. }
  destruct H as (def & H & Hs).
  assert (Ha : 0 <= 1.0) by (unfold Qle; simpl; lia).
  assert (Hl : 1.0 <= 3.5) by (unfold Qle; simpl; lia).
  destruct (labor_cost_monotone_with_minimum "painting" def 1.0 3.5 "lille" [] None false
              H Ha Hl) as (i1 & i2 & H1 & H2 & _ & _ & H3).
  exists i1, i2. split; [ exact H1 | ]. split; [ exact H2 | ]. apply H3, Hs.
Defined.

(** The locals of a rush job next to those of the usual job: the rush
    multiplier is the last factor of the hourly rate, and the cost is the
    final hours times that rate. *)
Lemma labor_vars_rush (self : LaborCalculator) (def : TaskDef) (area : Q)
    (city : string) (tags : list string) (date : option datetime) :
  exists v r,
    labor_vars self def (Py.VFloat area) (Py.VStr city) (Py.VList (map Py.VStr tags))
      date false = inr v /\
    labor_vars self def (Py.VFloat area) (Py.VStr city) (Py.VList (map Py.VStr tags))
      date true = inr r /\
    v_final_hours r = v_final_hours v /\
    v_rush_multiplier v = 1.0 /\
    v_rush_multiplier r = 1.8 /\
    v_final_hourly_rate v = v_regional_rate v * v_seasonal_multiplier v * 1.0 /\
    v_final_hourly_rate r = v_regional_rate v * v_seasonal_multiplier v * 1.8 /\
    v_base_labor_cost v = v_final_hours v * v_final_hourly_rate v /\
    v_base_labor_cost r = v_final_hours v * v_final_hourly_rate r.
Proof.
  destruct (apply_factors_strings def tags 1.0 []) as [[cm applied] Hf].
  assert (Hcm :
    (if Py.truthy (Py.VList (map Py.VStr tags))
     then Py.bind (Py.iter (Py.VList (map Py.VStr tags)))
            (fun fs => apply_factors def fs 1.0 [])
     else Py.ret (1.0, [])) = inr (cm, applied)).
  { destruct tags as [ | tag tags ]; [ | exact Hf ].
    simpl in Hf. simpl. exact Hf. }
  eexists. eexists. unfold labor_vars. rewrite Hcm. simpl.
  split; [ reflexivity | ]. split; [ reflexivity | ]. simpl.
  repeat split; reflexivity.
Qed.

(** X16. A rush job leaves the hours as they are; the premium enters
    through the hourly rate, which is the regional rate times the seasonal
    multiplier times 1.8 instead of times 1.0, and the unrounded labor cost
    is the final hours times that rate. With the default tables and an
    area [>= 0] the reported cost of the rush job is at least the usual
    one. *)
Theorem rush_premium (t : string) (def : TaskDef) (area : Q)
    (city : string) (tags : list string) (date : option datetime) :
  task_definitions LaborCalc.__init__ !! t = Some def ->
  0 <= area ->
  exists v r usual rushed,
    labor_vars LaborCalc.__init__ def (Py.VFloat area) (Py.VStr city)
      (Py.VList (map Py.VStr tags)) date false = inr v /\
    labor_vars LaborCalc.__init__ def (Py.VFloat area) (Py.VStr city)
      (Py.VList (map Py.VStr tags)) date true = inr r /\
    v_final_hours r = v_final_hours v /\
    v_rush_multiplier v = 1.0 /\
    v_rush_multiplier r = 1.8 /\
    v_final_hourly_rate v = v_regional_rate v * v_seasonal_multiplier v * 1.0 /\
    v_final_hourly_rate r = v_regional_rate v * v_seasonal_multiplier v * 1.8 /\
    v_base_labor_cost v = v_final_hours v * v_final_hourly_rate v /\
    v_base_labor_cost r = v_final_hours v * v_final_hourly_rate r /\
    calculate_task_labor LaborCalc.__init__ t (Py.VFloat area) (Py.VStr city)
      (Py.VList (map Py.VStr tags)) date false = inr (LaborOk usual) /\
    calculate_task_labor LaborCalc.__init__ t (Py.VFloat area) (Py.VStr city)
      (Py.VList (map Py.VStr tags)) date true = inr (LaborOk rushed) /\
    final_hours rushed = final_hours usual /\
    base_labor_cost usual <= base_labor_cost rushed.
Proof.
  intros Ht Ha.
  destruct (default_task_shape t def Ht) as (Hh & Hmin & Hf).
  destruct (labor_vars_strings LaborCalc.__init__ def area city tags date false)
    as (cm & ap & v & Hf1 & Hv & Hvb & Hvf & Hvr & Hvc & _).
  destruct (labor_vars_strings LaborCalc.__init__ def area city tags date true)
    as (cm' & ap' & r & Hf2 & Hr & Hrb & Hrf & Hrr & Hrc & _).
  rewrite Hf1 in Hf2. injection Hf2 as <- <-.
  destruct (labor_vars_rush LaborCalc.__init__ def area city tags date)
    as (v' & r' & Hv' & Hr' & R1 & R2 & R3 & R4 & R5 & R6 & R7).
  rewrite Hv in Hv'. injection Hv' as <-. rewrite Hr in Hr'. injection Hr' as <-.
  exists v, r. eexists. eexists.
  split; [ exact Hv | ]. split; [ exact Hr | ].
  split; [ exact R1 | ]. split; [ exact R2 | ]. split; [ exact R3 | ].
  split; [ exact R4 | ]. split; [ exact R5 | ]. split; [ exact R6 | ].
  split; [ exact R7 | ].
  assert (Hcm : 1.0 <= cm).
  { eapply apply_factors_grows; [ exact Hf | | exact Hf1 ]. vm_compute. discriminate. }
  assert (HB : 0 <= v_billable_hours v).
  { rewrite Hvb.
    destruct (py_max_spec (area * hours_per_sqm def) (minimum_hours def)) as (H1 & _). lra. }
  pose proof (default_hourly_nonneg def city date false) as HR.
  assert (Hrate : Notions.hourly LaborCalc.__init__ def city date false <=
                  Notions.hourly LaborCalc.__init__ def city date true).
  { assert (E : Notions.hourly LaborCalc.__init__ def city date true ==
                1.8 * Notions.hourly LaborCalc.__init__ def city date false).
    { unfold Notions.hourly. ring. }
    rewrite E. lra. }
  unfold calculate_task_labor. rewrite Ht, Hv, Hr. simpl.
  split; [ reflexivity | ]. split; [ reflexivity | ]. simpl.
  split; [ rewrite R1; reflexivity | ].
  apply py_round_mono. rewrite Hrc, Hvc, Hrb, <- Hvb.
  rewrite (Qmult_comm _ (Notions.hourly LaborCalc.__init__ def city date false)),
          (Qmult_comm _ (Notions.hourly LaborCalc.__init__ def city date true)).
  apply Qmult_le_compat_r; [ exact Hrate | ].
  apply Qmult_le_0_compat; [ exact HB | lra ].
Qed.

(** Plumbing in Lyon, usual and rushed: 40.0 an hour against 72.0. *)
Lemma rush_premium_witness :
  exists usual rushed,
    calculate_task_labor LaborCalc.__init__ "plumbing" (Py.VFloat 4.0) (Py.VStr "lyon")
      (Py.VList (map Py.VStr [ "new_connections"%string ])) None false
      = inr (LaborOk usual) /\
    calculate_task_labor LaborCalc.__init__ "plumbing" (Py.VFloat 4.0) (Py.VStr "lyon")
      (Py.VList (map Py.VStr [ "new_connections"%string ])) None true
      = inr (LaborOk rushed) /\
    final_hours rushed = final_hours usual /\
    base_labor_cost usual <= base_labor_cost rushed.
Proof.
  assert (H : exists def, task_definitions LaborCalc.__init__ !! "plumbing"%string = Some def).
  { eexists. vm_compute. reflexivity. }
  destruct H as [def H].
  assert (Ha : 0 <= 4.0) by (unfold Qle; simpl; lia).
  destruct (rush_premium "plumbing" def 4.0 "lyon" [ "new_connections"%string ] None H Ha)
    as (v & r & usual & rushed & _ & _ & _ & _ & _ & _ & _ & _ & _ & H1 & H2 & H3 & H4).
  exists usual, rushed. auto.
Defined.

(** Base rate and regional multiplier as the call records them. *)
Lemma labor_vars_rates (self : LaborCalculator) (def : TaskDef) (area : Py.value)
    (city : string) (factors : Py.value) (date : option datetime) (rush : bool)
    (v : LaborVars) :
  labor_vars self def area (Py.VStr city) factors date rush = inr v ->
  v_base_hourly_rate v = base_rates self (skill_level def) /\
  v_regional_multiplier v = default 1.0 (regional_multipliers self !! Py.lower city).
Proof.
  unfold labor_vars. destruct (Py.as_number area); [ discriminate | ]. simpl.
  destruct (if Py.truthy factors then _ else _); [ discriminate | ]. simpl.
  intros H. injection H as <-. auto.
Qed.

(** X17. Without a date and without rush, the hourly rate a task is priced
    at is [get_hourly_rate] of the task's skill level and the city, rounded
    to 2 decimals; base rate and regional multiplier are reported
    unrounded. *)
Theorem task_rate_is_hourly_rate (self : LaborCalculator) (t : string) (def : TaskDef)
    (area : Q) (city : string) (tags : list string) :
  task_definitions self !! t = Some def ->
  exists rate info,
    get_hourly_rate self (skill_level def) (Py.VStr city) = inr rate /\
    calculate_task_labor self t (Py.VFloat area) (Py.VStr city)
      (Py.VList (map Py.VStr tags)) None false = inr (LaborOk info) /\
    final_hourly_rate info = Py.py_round rate 2 /\
    base_hourly_rate info = base_rates self (skill_level def) /\
    regional_multiplier info = default 1.0 (regional_multipliers self !! Py.lower city).
Proof.
  intros Ht.
  destruct (labor_vars_strings self def area city tags None false)
    as (cm & ap & v & _ & Hv & _ & _ & Hr & _).
  eexists. eexists. split; [ reflexivity | ].
  unfold calculate_task_labor. rewrite Ht, Hv. simpl.
  split; [ reflexivity | ]. simpl.
  destruct (labor_vars_rates self def (Py.VFloat area) city _ None false v Hv) as [Hb Hm].
  split; [ | auto ].
  rewrite Hr. apply py_round_comp. unfold Notions.hourly. ring.
Qed.

(** Tiling in Nice. *)
Lemma task_rate_is_hourly_rate_witness :
  exists rate info,
    get_hourly_rate LaborCalc.__init__ SKILLED (Py.VStr "Nice") = inr rate /\
    calculate_task_labor LaborCalc.__init__ "tiling" (Py.VFloat 4.0) (Py.VStr "Nice")
      (Py.VList (map Py.VStr [])) None false = inr (LaborOk info) /\
    final_hourly_rate info = Py.py_round rate 2.
Proof.
  assert (H : exists def, task_definitions LaborCalc.__init__ !! "tiling"%string = Some def
                          /\ skill_level def = SKILLED).
  { eexists. split; [ vm_compute; reflexivity | reflexivity ]. }
  destruct H as (def & H & Hs).
  destruct (task_rate_is_hourly_rate LaborCalc.__init__ "tiling" def 4.0 "Nice" [] H)
    as (rate & info & H1 & H2 & H3 & _).
  rewrite Hs in H1. exists rate, info. auto.
Defined.

End LaborShape.

(** ** Project duration *)

Section Duration.

Import LaborCalc.

(** Two numbers can always be added. *)
Lemma num_add_ok (a b : Py.value) :
  is_Some (Py.num a) -> is_Some (Py.num b) -> exists c, Py.num_add a b = inr c.
Proof.
  intros [x Hx] [y Hy]. unfold Py.num_add.
  destruct a as [ | [ | ] | za | qa | | | ]; try discriminate Hx;
    destruct b as [ | [ | ] | zb | qb | | | ]; try discriminate Hy;
    simpl; eexists; reflexivity.
Qed.

(** The running sum over well-formed task dictionaries. *)
Lemma sum_final_hours_total (ds : list (list (string * Py.value))) (hs : list Q) :
  Forall2 (fun d h => Py.num (Py.dict_get d "final_hours" (Py.VInt 0)) = Some h) ds hs ->
  forall acc, is_Some (Py.num acc) ->
    exists total,
      sum_final_hours acc (map Py.VDict ds) = inr total /\
      Py.value_of total == Py.value_of acc + fold_right Qplus 0 hs.
Proof.
  induction 1 as [ | d h ds hs Hd _ IH ]; intros acc Hacc.
  - exists acc. split; [ reflexivity | simpl; ring ].
  - simpl.
    assert (Hh : is_Some (Py.num (Py.dict_get d "final_hours" (Py.VInt 0))))
      by (rewrite Hd; eexists; reflexivity).
    destruct (num_add_ok _ _ Hacc Hh) as [acc' Ha]. rewrite Ha. simpl.
    destruct (num_add_value _ _ _ Hacc Ha) as [Hs Hv].
    destruct (IH acc' Hs) as (total & Ht & Htv).
    exists total. split; [ exact Ht | ].
    rewrite Htv, Hv. unfold Py.value_of at 2. rewrite Hd. simpl. ring.
Qed.

(** X18. For task dictionaries whose final hours are numbers (a missing
    entry counting as 0), the duration estimate works from the sum of the
    hours: total hours, that sum over 8.0 as work days and 1.1 times as
    many estimated days, each rounded to 1 decimal; for hours summing to
    [>= 0] the estimated days are at least the work days. *)
Theorem project_duration_from_hours (self : LaborCalculator)
    (ds : list (list (string * Py.value))) (hs : list Q) :
  Forall2 (fun d h => Py.num (Py.dict_get d "final_hours" (Py.VInt 0)) = Some h) ds hs ->
  exists r,
    estimate_project_duration self (Py.VList (map Py.VDict ds)) = inr r /\
    total_labor_hours r = Py.py_round (fold_right Qplus 0 hs) 1 /\
    work_days r = Py.py_round (fold_right Qplus 0 hs / 8.0) 1 /\
    estimated_duration_days r = Py.py_round (fold_right Qplus 0 hs / 8.0 * 1.1) 1 /\
    (0 <= fold_right Qplus 0 hs -> work_days r <= estimated_duration_days r).
Proof.
  intros H.
  assert (H0 : is_Some (Py.num (Py.VInt 0))) by (eexists; reflexivity).
  destruct (sum_final_hours_total ds hs H (Py.VInt 0) H0) as (total & Ht & Hv).
  change (Py.value_of (Py.VInt 0)) with (inject_Z 0) in Hv.
  assert (Hv' : Py.value_of total == fold_right Qplus 0 hs) by (rewrite Hv; ring).
  unfold estimate_project_duration. simpl. rewrite Ht. simpl.
  eexists. split; [ reflexivity | ]. simpl.
  split; [ apply py_round_comp, Hv' | ].
  split; [ apply py_round_comp; rewrite Hv'; reflexivity | ].
  split; [ apply py_round_comp; rewrite Hv'; reflexivity | ].
  intros Hpos. apply py_round_mono. rewrite Hv'.
  assert (Hw : 0 <= fold_right Qplus 0 hs / 8.0).
  { unfold Qdiv. apply Qmult_le_0_compat; [ exact Hpos | vm_compute; discriminate ]. }
  lra.
Qed.

(** Three tasks, one of them without hours. *)
Lemma project_duration_from_hours_witness :
  exists r,
    estimate_project_duration LaborCalc.__init__
      (Py.VList (map Py.VDict
         [ [ ("final_hours"%string, Py.VFloat 20.4) ];
           [ ("task_type"%string, Py.VStr "painting") ];
           [ ("final_hours"%string, Py.VInt 4) ] ])) = inr r /\
    work_days r <= estimated_duration_days r.
Proof.
  destruct (project_duration_from_hours LaborCalc.__init__
              [ [ ("final_hours"%string, Py.VFloat 20.4) ];
                [ ("task_type"%string, Py.VStr "painting") ];
                [ ("final_hours"%string, Py.VInt 4) ] ]
              [ 20.4; inject_Z 0; inject_Z 4 ])
    as (r & Hr & _ & _ & _ & Hle).
  - repeat constructor.
  - exists r. split; [ exact Hr | ]. apply Hle. vm_compute. discriminate.
Defined.

End Duration.

(** ** Task expansion *)

Section Expansion.

Import Engine.

(** A task of an unrecognized type leaves the loop as if it were absent. *)
Lemma unrecognized_skipped (self : PricingEngine) (area city_ : Py.value)
    (d : list (string * Py.value)) (pre post : list Py.value) :
  Notions.unrecognized self d ->
  forall detailed,
    expand_tasks self area city_ (pre ++ Py.VDict d :: post)%list detailed =
    expand_tasks self area city_ (pre ++ post)%list detailed.
Proof.
  intros Hd. induction pre as [ | task pre IH ]; intros detailed.
  - simpl. unfold Notions.unrecognized in Hd.
    destruct (Py.dict_get d "type" Py.VNone) as [ | b | z | q | key | l | d' ];
      simpl; try reflexivity; try contradiction.
    rewrite Hd. reflexivity.
  - simpl.
    destruct (Py.get task "type" Py.VNone) as [e | ty]; [ reflexivity | ]. simpl.
    destruct (Py.hashable ty); simpl; [ | reflexivity ].
    destruct ty as [ | b | z | q | key | l | d' ]; try apply IH.
    destruct (task_definitions self !! key) as [def | ]; [ | apply IH ].
    destruct (cost_materials self area city_ (materials def) [] 0.0) as [e | mats];
      [ reflexivity | ]. simpl.
    destruct (Py.get task "complexity_factors" _) as [e | factors]; [ reflexivity | ].
    simpl.
    destruct (LaborCalc.calculate_task_labor _ _ _ _ _ _ _) as [e | [msg | lr]];
      [ reflexivity | apply IH | ]. simpl.
    destruct (Py.get task "description" _) as [e | description]; [ reflexivity | ].
    simpl. apply IH.
Qed.

(** X19. A parsed task whose type is a string outside the engine's task
    table, is missing, or is a boolean or a number is skipped without a
    trace: the outcome of task expansion, result or exception, is the one
    for the work order without that task. (A list or a dict as type is no
    such task: see [unhashable_type_stops_expansion].) *)
Theorem unrecognized_tasks_are_skipped (self : PricingEngine)
    (with_task without : list (string * Py.value)) (d : list (string * Py.value))
    (pre post : list Py.value) :
  Notions.unrecognized self d ->
  Py.dict_get with_task "tasks" (Py.VList []) = Py.VList (pre ++ Py.VDict d :: post)%list ->
  Py.dict_get without "tasks" (Py.VList []) = Py.VList (pre ++ post)%list ->
  Py.dict_get with_task "area_sqm" (Py.VFloat 4.0) =
    Py.dict_get without "area_sqm" (Py.VFloat 4.0) ->
  Py.dict_get with_task "city" (Py.VStr "marseille") =
    Py.dict_get without "city" (Py.VStr "marseille") ->
  _generate_detailed_tasks self with_task = _generate_detailed_tasks self without.
Proof.
  intros Hd H1 H2 Ha Hc. unfold _generate_detailed_tasks.
  rewrite H1, H2, Ha, Hc. simpl Py.iter. simpl Py.bind.
  apply unrecognized_skipped, Hd.
Qed.

(** Roofing is no task of the engine. *)
Lemma unrecognized_tasks_are_skipped_witness :
  _generate_detailed_tasks
    (Engine.__init__ (Notions.constant_parser (inr [])) "2025-01-01T12:00:00")
    [ ("area_sqm"%string, Py.VFloat 5.5);
      ("tasks"%string,
       Py.VList [ Py.VDict [ ("type"%string, Py.VStr "roofing") ];
                  Py.VDict [ ("type"%string, Py.VStr "painting") ] ]) ] =
  _generate_detailed_tasks
    (Engine.__init__ (Notions.constant_parser (inr [])) "2025-01-01T12:00:00")
    [ ("area_sqm"%string, Py.VFloat 5.5);
      ("tasks"%string, Py.VList [ Py.VDict [ ("type"%string, Py.VStr "painting") ] ]) ].
Proof.
  apply (unrecognized_tasks_are_skipped _ _ _ [ ("type"%string, Py.VStr "roofing") ] []
           [ Py.VDict [ ("type"%string, Py.VStr "painting") ] ]).
  - unfold Notions.unrecognized. vm_compute. reflexivity.
  - reflexivity.
  - reflexivity.
  - reflexivity.
  - reflexivity.
Defined.

(** A list or a dict as the type of the first task is not skipped: the
    membership test raises and the expansion ends there. *)
Remark unhashable_type_stops_expansion (self : PricingEngine)
    (parsed d : list (string * Py.value)) (post : list Py.value) :
  Py.dict_get parsed "tasks" (Py.VList []) = Py.VList (Py.VDict d :: post) ->
  Py.hashable (Py.dict_get d "type" Py.VNone) = false ->
  _generate_detailed_tasks self parsed =
    inl (Py.Exn Py.TypeError
           ("unhashable type: '" ++ Py.type_name (Py.dict_get d "type" Py.VNone) ++ "'")).
Proof.
  intros Ht Hh. unfold _generate_detailed_tasks. rewrite Ht. simpl. rewrite Hh.
  reflexivity.
Qed.

(** The engine's task table agrees with the labor table and the catalog. *)
Lemma default_engine_in_step (parser : SmartTranscriptParser) (now : string) :
  Notions.tasks_in_labor_table (Engine.__init__ parser now) /\
  Notions.materials_in_catalog (Engine.__init__ parser now).
Proof.
  split.
  - intros key def H. unfold Engine.__init__, task_definitions in H.
    apply elem_of_list_to_map_2 in H.
    repeat (apply elem_of_cons in H; destruct H as [H | H];
            [ injection H as -> _; eexists; vm_compute; reflexivity | ]).
    apply elem_of_nil in H. contradiction.
  - intros key def id qty H Hin. unfold Engine.__init__, task_definitions in H.
    apply elem_of_list_to_map_2 in H.
    repeat (apply elem_of_cons in H; destruct H as [H | H];
            [ injection H as _ ->; simpl in Hin;
              repeat (destruct Hin as [Hin | Hin];
                      [ injection Hin as <- _; eexists; vm_compute; reflexivity | ]);
              contradiction | ]).
    apply elem_of_nil in H. contradiction.
Qed.

(** When every material is in the catalog each one yields a line. *)
Lemma cost_materials_keeps_all (self : PricingEngine) (area city_ : Py.value)
    (items : list (string * Q)) :
  (forall id qty, In (id, qty) items ->
     is_Some (MaterialDb.materials (material_db self) !! id)) ->
  forall lines total lines' total',
    cost_materials self area city_ items lines total = inr (lines', total') ->
    length lines' = (length lines + length items)%nat.
Proof.
  induction items as [ | [id qty] items IH ]; intros Hin lines total lines' total' H.
  - injection H as <- _. simpl. lia.
  - simpl in H.
    destruct (Py.as_number area) as [e | a]; [ discriminate | ]. simpl in H.
    destruct (Hin id qty (or_introl eq_refl)) as [m Hm].
    unfold MaterialDb.get_cost_with_margin, MaterialDb.get_material in H.
    rewrite Hm in H.
    destruct (Py.str_lower city_) as [e | key]; [ discriminate | ]. simpl in H.
    apply IH in H; [ | intros id' qty' Hi; apply (Hin id' qty'); right; exact Hi ].
    rewrite H, length_app. simpl. lia.
Qed.

(** When the tables agree the loop appends one task per recognized type. *)
Lemma expand_tasks_keeps_recognized (self : PricingEngine) (area city_ : Py.value)
    (todo : list Py.value) :
  Notions.tasks_in_labor_table self ->
  Notions.materials_in_catalog self ->
  forall detailed result,
    expand_tasks self area city_ todo detailed = inr result ->
    exists new,
      result = (detailed ++ new)%list /\
      map dt_task_type new = Notions.recognized_types self todo /\
      Forall (fun t => exists def,
                task_definitions self !! dt_task_type t = Some def /\
                length (dt_materials t) = length (materials def)) new.
Proof.
  intros Hlab Hmat. induction todo as [ | task todo IH ]; intros detailed result H.
  - injection H as <-. exists []. rewrite app_nil_r. auto.
  - simpl in H.
    destruct task as [ | b | z | q | s | l | d ]; try discriminate H.
    simpl in H. simpl Notions.recognized_types.
    destruct (Py.dict_get d "type" Py.VNone) as [ | b | z | q | key | l | d' ];
      simpl in H; try discriminate H; try (apply IH; exact H).
    destruct (task_definitions self !! key) as [def | ] eqn:Hk; [ | apply IH; exact H ].
    destruct (cost_materials self area city_ (materials def) [] 0.0)
      as [e | [lines total]] eqn:Hm; [ discriminate | ]. simpl in H.
    destruct (Hlab key def Hk) as [ldef Hl].
    unfold LaborCalc.calculate_task_labor in H. rewrite Hl in H.
    destruct (LaborCalc.labor_vars _ _ _ _ _ _ _) as [e | v]; [ discriminate | ].
    simpl in H. apply IH in H. destruct H as (new & -> & Hty & Hall).
    eexists (_ :: new). rewrite <- app_assoc. split; [ reflexivity | ].
    split; [ simpl; rewrite Hty; reflexivity | ].
    constructor; [ | exact Hall ].
    exists def. simpl. split; [ exact Hk | ].
    apply (cost_materials_keeps_all self area city_ (materials def)
             (fun id qty => Hmat key def id qty Hk)) in Hm.
    exact Hm.
Qed.

(** X20. When task expansion of the default engine returns, it has dropped
    nothing it recognized: the detailed tasks are, in order, the parsed
    tasks of a recognized type, and each carries one material line per
    material of its definition. *)
Theorem default_engine_keeps_recognized_tasks (parser : SmartTranscriptParser)
    (now : string) (parsed : list (string * Py.value)) (tasks_ : list DetailedTask) :
  _generate_detailed_tasks (Engine.__init__ parser now) parsed = inr tasks_ ->
  exists todo,
    Py.iter (Py.dict_get parsed "tasks" (Py.VList [])) = inr todo /\
    map dt_task_type tasks_ = Notions.recognized_types (Engine.__init__ parser now) todo /\
    Forall (fun t => exists def,
              task_definitions (Engine.__init__ parser now) !! dt_task_type t = Some def /\
              length (dt_materials t) = length (materials def)) tasks_.
Proof.
  unfold _generate_detailed_tasks.
  destruct (Py.iter _) as [e | todo]; [ discriminate | ]. simpl. intros H.
  destruct (default_engine_in_step parser now) as [Hlab Hmat].
  destruct (expand_tasks_keeps_recognized _ _ _ todo Hlab Hmat [] tasks_ H)
    as (new & -> & Hty & Hall).
  exists todo. auto.
Qed.

(** Tiling, roofing, plumbing: two detailed tasks. *)
Lemma default_engine_keeps_recognized_tasks_witness :
  exists tasks_,
    _generate_detailed_tasks
      (Engine.__init__ (Notions.constant_parser (inr [])) "2025-01-01T12:00:00")
      [ ("tasks"%string,
         Py.VList [ Py.VDict [ ("type"%string, Py.VStr "tiling") ];
                    Py.VDict [ ("type"%string, Py.VStr "roofing") ];
                    Py.VDict [ ("type"%string, Py.VStr "plumbing") ] ]) ] = inr tasks_ /\
    map dt_task_type tasks_ = [ "tiling"%string; "plumbing"%string ].
Proof.
  assert (H : exists tasks_,
    _generate_detailed_tasks
      (Engine.__init__ (Notions.constant_parser (inr [])) "2025-01-01T12:00:00")
      [ ("tasks"%string,
         Py.VList [ Py.VDict [ ("type"%string, Py.VStr "tiling") ];
                    Py.VDict [ ("type"%string, Py.VStr "roofing") ];
                    Py.VDict [ ("type"%string, Py.VStr "plumbing") ] ]) ] = inr tasks_).
  { eexists. vm_compute. reflexivity. }
  destruct H as [tasks_ H]. exists tasks_. split; [ exact H | ].
  destruct (default_engine_keeps_recognized_tasks _ _ _ _ H) as (todo & Hi & Hty & _).
  injection Hi as <-. rewrite Hty. vm_compute. reflexivity.
Defined.

End Expansion.

(** ** Saving quotes *)

Section Saving.

Import Engine.

(** X21. A successfully computed quote whose write goes through is stored
    under [output/BTH_<stamp>.json], every other file staying as it was; a
    fallback quote is never stored. *)
Theorem quote_is_saved_unless_fallback (self : PricingEngine) (stdout : Py.Stdout)
    (transcript : string) (now : Clock) (files : gmap string Quote) :
  (forall parsed tasks_,
     parse_transcript (transcript_parser self) transcript = inr parsed ->
     _generate_detailed_tasks self parsed = inr tasks_ ->
     let files' := snd (generate_quote self stdout transcript now true files) in
     let path := ("output/BTH_" ++ stamp now ++ ".json")%string in
     (exists q,
        fst (generate_quote self stdout transcript now true files) = inr q /\
        files' !! path = Some q) /\
     forall other, other <> path -> files' !! other = files !! other) /\
  (forall e io_ok,
     (parse_transcript (transcript_parser self) transcript = inl e \/
      exists parsed,
        parse_transcript (transcript_parser self) transcript = inr parsed /\
        _generate_detailed_tasks self parsed = inl e) ->
     snd (generate_quote self stdout transcript now io_ok files) = files).
Proof.
  split.
  - intros parsed tasks_ Hp Hg.
    unfold generate_quote, generate_quote_try. rewrite Hp. simpl. rewrite Hg. simpl.
    split.
    + eexists. split; [ reflexivity | ]. apply lookup_insert_eq.
    + intros other Hne. apply lookup_insert_ne. intros E. apply Hne.
      symmetry. exact E.
  - intros e io_ok He. unfold generate_quote, generate_quote_try.
    destruct He as [-> | (parsed & -> & Hg)]; [ reflexivity | ].
    simpl. rewrite Hg. reflexivity.
Qed.

(** X22. Two quotes computed within the same second get the same project
    id, and the second replaces the first in the output directory. *)
Theorem same_second_quotes_collide (self1 self2 : PricingEngine) (stdout : Py.Stdout)
    (t1 t2 : string) (now : Clock) (files : gmap string Quote)
    (p1 p2 : list (string * Py.value)) (ts1 ts2 : list DetailedTask) :
  parse_transcript (transcript_parser self1) t1 = inr p1 ->
  _generate_detailed_tasks self1 p1 = inr ts1 ->
  parse_transcript (transcript_parser self2) t2 = inr p2 ->
  _generate_detailed_tasks self2 p2 = inr ts2 ->
  let first := generate_quote self1 stdout t1 now true files in
  let second := generate_quote self2 stdout t2 now true (snd first) in
  exists q1 q2,
    fst first = inr q1 /\
    fst second = inr q2 /\
    project_id q1 = project_id q2 /\
    snd second = insert ("output/BTH_" ++ stamp now ++ ".json")%string q2 files.
Proof.
  intros Hp1 Hg1 Hp2 Hg2.
  unfold generate_quote, generate_quote_try.
  rewrite Hp1. simpl. rewrite Hg1. simpl. rewrite Hp2. simpl. rewrite Hg2. simpl.
  eexists. eexists. split; [ reflexivity | ]. split; [ reflexivity | ].
  split; [ reflexivity | ].
  unfold _save_quote. simpl. apply insert_insert_eq.
Qed.

(** The demolition order is stored; a broken order is not. *)
Lemma quote_is_saved_unless_fallback_witness :
  let good := Engine.__init__ (Notions.constant_parser (inr Notions.demolition_order))
                "2025-01-01T12:00:00" in
  let broken := Engine.__init__
                  (Notions.constant_parser (inr [ ("tasks"%string, Py.VNone) ]))
                  "2025-01-01T12:00:00" in
  (exists q,
     fst (generate_quote good Notions.ascii_stdout "Strip the old tiles" Notions.noon true ∅)
       = inr q /\
     snd (generate_quote good Notions.ascii_stdout "Strip the old tiles" Notions.noon true ∅)
       !! "output/BTH_20250101_120000.json"%string = Some q) /\
  snd (generate_quote broken Notions.ascii_stdout "Strip the old tiles" Notions.noon true ∅)
    = ∅.
Proof.
  intros good broken. split.
  - assert (Hg : exists tasks_,
      _generate_detailed_tasks good Notions.demolition_order = inr tasks_).
    { eexists. vm_compute. reflexivity. }
    destruct Hg as [tasks_ Hg].
    destruct (quote_is_saved_unless_fallback good Notions.ascii_stdout
                "Strip the old tiles" Notions.noon ∅) as [H _].
    destruct (H Notions.demolition_order tasks_ eq_refl Hg) as [Hs _].
    exact Hs.
  - destruct (quote_is_saved_unless_fallback broken Notions.ascii_stdout
                "Strip the old tiles" Notions.noon ∅) as [_ H].
    apply (H (Py.Exn Py.TypeError "'NoneType' object is not iterable") true).
    right. eexists. split; reflexivity.
Defined.

(** The demolition order and the painting order at the same clock reading. *)
Lemma same_second_quotes_collide_witness :
  let one := Engine.__init__ (Notions.constant_parser (inr Notions.demolition_order))
               "2025-01-01T12:00:00" in
  let two := Engine.__init__ (Notions.constant_parser (inr Notions.painting_order))
               "2025-01-01T12:00:00" in
  exists q1 q2,
    fst (generate_quote one Notions.ascii_stdout "first call" Notions.noon true ∅) = inr q1 /\
    fst (generate_quote two Notions.ascii_stdout "second call" Notions.noon true
           (snd (generate_quote one Notions.ascii_stdout "first call" Notions.noon true ∅)))
      = inr q2 /\
    project_id q1 = project_id q2.
Proof.
  intros one two.
  assert (H1 : exists ts, _generate_detailed_tasks one Notions.demolition_order = inr ts).
  { eexists. vm_compute. reflexivity. }
  assert (H2 : exists ts, _generate_detailed_tasks two Notions.painting_order = inr ts).
  { eexists. vm_compute. reflexivity. }
  destruct H1 as [ts1 H1], H2 as [ts2 H2].
  destruct (same_second_quotes_collide one two Notions.ascii_stdout "first call"
              "second call" Notions.noon ∅
              Notions.demolition_order Notions.painting_order ts1 ts2 eq_refl H1 eq_refl H2)
    as (q1 & q2 & Hq1 & Hq2 & Hid & _).
  exists q1, q2. auto.
Defined.

End Saving.

(** ** Margin and the energy flag *)

Section Budget.

Import Engine.

(** X23. For the same detailed tasks, with subtotals summing to [>= 0] and
    the default VAT rates, the budget-conscious quote (margin 15%) has a
    VAT amount and a total price no higher than the quote at the usual
    margin of 25%. *)
Theorem budget_conscious_quote_is_not_dearer (self : PricingEngine)
    (thrifty plain : list (string * Py.value)) (tasks_ : list DetailedTask) (now : Clock) :
  vat_calculator self = VatRules.__init__ ->
  Py.truthy (Py.dict_get thrifty "budget_conscious" (Py.VBool false)) = true ->
  Py.truthy (Py.dict_get plain "budget_conscious" (Py.VBool false)) = false ->
  0 <= Py.py_sum (map dt_materials_cost tasks_) + Py.py_sum (map dt_labor_cost tasks_) ->
  margin_percentage (_calculate_final_quote self thrifty tasks_ now) = 0.15 /\
  margin_percentage (_calculate_final_quote self plain tasks_ now) = 0.25 /\
  vat_amount (_calculate_final_quote self thrifty tasks_ now) <=
    vat_amount (_calculate_final_quote self plain tasks_ now) /\
  total_price (_calculate_final_quote self thrifty tasks_ now) <=
    total_price (_calculate_final_quote self plain tasks_ now).
Proof.
  intros Hv Ht Hp Hs.
  unfold _calculate_final_quote, vat_calculation, margin_of. rewrite Hv, Ht, Hp.
  cbn [margin_percentage vat_amount total_price].
  set (M := Py.py_sum (map dt_materials_cost tasks_)) in *.
  set (L := Py.py_sum (map dt_labor_cost tasks_)) in *.
  split; [ reflexivity | ]. split; [ reflexivity | ].
  destruct (vat_amounts VatRules.__init__ (M * (1 + 0.15)) (L * (1 + 0.15)) building_age
              (is_energy tasks_)) as (_ & Ha1 & Ht1).
  destruct (vat_amounts VatRules.__init__ (M * (1 + 0.25)) (L * (1 + 0.25)) building_age
              (is_energy tasks_)) as (_ & Ha2 & Ht2).
  rewrite Ha1, Ha2, Ht1, Ht2, !vat_rate_ladder.
  change (2 <=? building_age)%Z with true. rewrite andb_true_r.
  destruct (is_energy tasks_); split; apply py_round_mono; lra.
Qed.

(** The demolition task priced both ways: 255.53 against 277.75. *)
Lemma budget_conscious_quote_is_not_dearer_witness :
  let self := Engine.__init__ (Notions.constant_parser (inr Notions.demolition_order))
                "2025-01-01T12:00:00" in
  let thrifty := [ ("budget_conscious"%string, Py.VBool true) ] in
  let plain := [ ("budget_conscious"%string, Py.VBool false) ] in
  exists t,
    _generate_detailed_tasks self Notions.demolition_order = inr [t] /\
    total_price (_calculate_final_quote self thrifty [t] Notions.noon) == 255.53 /\
    total_price (_calculate_final_quote self plain [t] Notions.noon) == 277.75 /\
    vat_amount (_calculate_final_quote self thrifty [t] Notions.noon) <=
      vat_amount (_calculate_final_quote self plain [t] Notions.noon) /\
    total_price (_calculate_final_quote self thrifty [t] Notions.noon) <=
      total_price (_calculate_final_quote self plain [t] Notions.noon).
Proof.
  intros self thrifty plain.
  assert (H : exists t,
    _generate_detailed_tasks self Notions.demolition_order = inr [t] /\
    total_price (_calculate_final_quote self thrifty [t] Notions.noon) == 255.53 /\
    total_price (_calculate_final_quote self plain [t] Notions.noon) == 277.75 /\
    0 <= Py.py_sum (map dt_materials_cost [t]) + Py.py_sum (map dt_labor_cost [t])).
  { eexists. split; [ vm_compute; reflexivity | ].
    split; [ vm_compute; reflexivity | ].
    split; [ vm_compute; reflexivity | ].
    vm_compute. discriminate. }
  destruct H as (t & Hg & Ht & Hp & Hs).
  exists t. split; [ exact Hg | ]. split; [ exact Ht | ]. split; [ exact Hp | ].
  destruct (budget_conscious_quote_is_not_dearer self thrifty plain [t] Notions.noon
              eq_refl eq_refl eq_refl Hs) as (_ & _ & Hv & Htot).
  split; [ exact Hv | exact Htot ].
Defined.

End Budget.

Section EnergyText.

Import Engine.

(** Occurrence of a word survives additions in front and behind. *)
Lemma contains_cons (p : string) (c : ascii) (s : string) :
  Py.contains p s = true -> Py.contains p (String c s) = true.
Proof. intros H. simpl. rewrite H. apply orb_true_r. Qed.

Lemma contains_app_r (p a s : string) :
  Py.contains p s = true -> Py.contains p (a ++ s)%string = true.
Proof.
  intros H. induction a as [ | c a IH ]; [ exact H | ].
  simpl String.append. apply contains_cons, IH.
Qed.

Lemma starts_with_app_l (p s b : string) :
  Py.starts_with p s = true -> Py.starts_with p (s ++ b)%string = true.
Proof.
  revert s. induction p as [ | a p IH ]; intros s H; [ reflexivity | ].
  destruct s as [ | c s ]; [ discriminate H | ].
  simpl in *. apply andb_true_iff in H. destruct H as [H1 H2].
  rewrite H1. simpl. apply IH, H2.
Qed.

Lemma contains_app_l (p s b : string) :
  Py.contains p s = true -> Py.contains p (s ++ b)%string = true.
Proof.
  induction s as [ | c s IH ]; intros H.
  - simpl in H. rewrite orb_false_r in H.
    destruct p; [ destruct b; reflexivity | discriminate H ].
  - change (Py.contains p (String c s)) with
      (Py.starts_with p (String c s) || Py.contains p s) in H.
    change (Py.contains p (String c s ++ b)%string) with
      (Py.starts_with p (String c s ++ b)%string || Py.contains p (s ++ b)%string).
    apply orb_true_iff in H. destruct H as [H | H].
    + rewrite (starts_with_app_l _ _ _ H). reflexivity.
    + rewrite (IH H). apply orb_true_r.
Qed.

Lemma lower_app (a b : string) :
  Py.lower (a ++ b)%string = (Py.lower a ++ Py.lower b)%string.
Proof. induction a as [ | c a IH ]; simpl; [ reflexivity | rewrite IH; reflexivity ]. Qed.

(** A letter is never escaped. *)
Lemma letter_not_escaped (q c : ascii) :
  Notions.lower_letter (Py.lower_ascii c) = true ->
  q = Py.squote \/ q = Py.dquote ->
  Py.escape_char q c = String c EmptyString.
Proof.
  intros H Hq.
  destruct c as [[] [] [] [] [] [] [] []]; try discriminate H;
    destruct Hq as [-> | ->]; reflexivity.
Qed.

Lemma starts_with_escape (q : ascii) (p s : string) :
  q = Py.squote \/ q = Py.dquote ->
  Notions.lower_word p = true ->
  Py.starts_with p (Py.lower s) = true ->
  Py.starts_with p (Py.lower (Py.escape q s)) = true.
Proof.
  intros Hq. revert s. induction p as [ | a p IH ]; intros s Hp H; [ reflexivity | ].
  destruct s as [ | c s ]; [ discriminate H | ].
  simpl in Hp, H. apply andb_true_iff in Hp, H. destruct Hp as [Ha Hp], H as [H1 H2].
  apply Ascii.eqb_eq in H1. subst a.
  simpl Py.escape. rewrite (letter_not_escaped q c Ha Hq).
  simpl. rewrite Ascii.eqb_refl. simpl. apply IH; assumption.
Qed.

Lemma contains_escape (q : ascii) (p s : string) :
  q = Py.squote \/ q = Py.dquote ->
  Notions.lower_word p = true -> p <> EmptyString ->
  Py.contains p (Py.lower s) = true ->
  Py.contains p (Py.lower (Py.escape q s)) = true.
Proof.
  intros Hq Hp Hne. induction s as [ | c s IH ]; intros H.
  - simpl in H. destruct p; [ congruence | discriminate H ].
  - change (Py.contains p (Py.lower (String c s))) with
      (Py.starts_with p (Py.lower (String c s)) || Py.contains p (Py.lower s)) in H.
    apply orb_true_iff in H. destruct H as [H | H].
    + pose proof (starts_with_escape q p (String c s) Hq Hp H) as Hs.
      remember (Py.lower (Py.escape q (String c s))) as w eqn:Ew.
      destruct w; simpl; rewrite Hs; reflexivity.
    + simpl Py.escape. rewrite lower_app. apply contains_app_r, IH, H.
Qed.

(** [repr] of a string keeps every run of letters. *)
Lemma contains_repr_str (p s : string) :
  Notions.lower_word p = true -> p <> EmptyString ->
  Py.contains p (Py.lower s) = true ->
  Py.contains p (Py.lower (Py.repr_str s)) = true.
Proof.
  intros Hp Hne H. unfold Py.repr_str.
  assert (G : forall q, q = Py.squote \/ q = Py.dquote ->
    Py.contains p (Py.lower (String q (Py.escape q s ++ String q EmptyString))) = true).
  { intros q Hq. simpl Py.lower. apply contains_cons.
    rewrite lower_app. apply contains_app_l, contains_escape; assumption. }
  cbv zeta. destruct (_ && _); apply G; auto.
Qed.

(** The description is printed inside the task's string form. *)
Lemma description_in_task_string (p : string) (t : DetailedTask) :
  Py.contains p (Py.lower (Py.repr (dt_description t))) = true ->
  Py.contains p (Py.lower (Py.str (task_dict t))) = true.
Proof.
  intros H. unfold Py.str, task_dict.
  cbn [Py.repr map Py.join].
  rewrite !lower_app.
  apply contains_app_r, contains_app_l.
  apply contains_app_r, contains_app_r, contains_app_l.
  apply contains_app_r, contains_app_r. exact H.
Qed.

(** X24. With the default VAT rates, a detailed task whose description is a
    text in which "energy" occurs, in any case, sets the energy flag of the
    whole quote, and its VAT rate is 5.5%. *)
Theorem energy_in_description_lowers_vat (self : PricingEngine)
    (parsed : list (string * Py.value)) (tasks_ : list DetailedTask)
    (t : DetailedTask) (text : string) :
  vat_calculator self = VatRules.__init__ ->
  In t tasks_ ->
  dt_description t = Py.VStr text ->
  Py.contains "energy" (Py.lower text) = true ->
  is_energy tasks_ = true /\
  VatRules.vat_rate (vat_calculation self parsed tasks_) = 0.055.
Proof.
  intros Hv Hin Hd Htext.
  assert (He : is_energy tasks_ = true).
  { unfold is_energy. apply existsb_exists. exists t. split; [ exact Hin | ].
    apply description_in_task_string. rewrite Hd.
    apply contains_repr_str; [ reflexivity | discriminate | exact Htext ]. }
  split; [ exact He | ].
  unfold vat_calculation. rewrite Hv, vat_rate_ladder, He. reflexivity.
Qed.

(** A demolition task described as preparing an energy audit. *)
Lemma energy_in_description_lowers_vat_witness :
  let order := [ ("tasks"%string,
                  Py.VList [ Py.VDict [ ("type"%string, Py.VStr "demolition");
                                        ("description"%string,
                                         Py.VStr "Strip walls before the Energy audit") ] ]) ] in
  let self := Engine.__init__ (Notions.constant_parser (inr order)) "2025-01-01T12:00:00" in
  exists tasks_,
    _generate_detailed_tasks self order = inr tasks_ /\
    VatRules.vat_rate (vat_calculation self order tasks_) = 0.055.
Proof.
  intros order self.
  assert (H : exists t,
    _generate_detailed_tasks self order = inr [t] /\
    dt_description t = Py.VStr "Strip walls before the Energy audit").
  { eexists. split; [ vm_compute; reflexivity | reflexivity ]. }
  destruct H as (t & H & Hd).
  exists [t]. split; [ exact H | ].
  apply (energy_in_description_lowers_vat self order [t] t
           "Strip walls before the Energy audit").
  - reflexivity.
  - left. reflexivity.
  - exact Hd.
  - vm_compute. reflexivity.
Defined.

End EnergyText.

(** ** Parsing confidence *)

Section Confidence.

Import TranscriptParser.

(** [min] is below both arguments and is one of them. *)
Lemma py_min_spec (a b : Q) :
  Py.py_min a b <= a /\ Py.py_min a b <= b /\ (Py.py_min a b = a \/ Py.py_min a b = b).
Proof.
  unfold Py.py_min. destruct (Qcompare_spec b a); repeat split; auto; lra.
Qed.

(** X25. Whenever the confidence calculation returns, the score lies
    between 0.55 and 1.0: the lower clamp of 0.3 is never what decides. *)
Theorem confidence_between_55_and_100 (parsed : Py.value) (transcript : string) (c : Q) :
  _calculate_confidence parsed transcript = inr c ->
  0.55 <= c /\ c <= 1.0.
Proof.
  unfold _calculate_confidence.
  destruct (Py.get parsed "tasks" (Py.VList [])) as [e | tasks]; [ discriminate | ].
  cbn [Py.bind].
  destruct (Py.py_len tasks) as [e | n]; [ discriminate | ]. cbn [Py.bind].
  destruct (Py.iter tasks) as [e | todo]; [ discriminate | ]. cbn [Py.bind].
  destruct (sum_complexity 0 todo) as [e | k]; [ discriminate | ]. cbn [Py.bind].
  intros H. cbv zeta in H. injection H as <-.
  destruct (py_min_spec 0.05 (inject_Z k * 0.02)) as (M1 & M2 & M3).
  assert (Mk : (0 < k)%Z -> 0 <= Py.py_min 0.05 (inject_Z k * 0.02)).
  { intros Hk. destruct M3 as [-> | ->]; [ lra | ].
    assert (0 <= inject_Z k) by (change 0 with (inject_Z 0); rewrite <- Zle_Qle; lia).
    lra. }
  set (m := Py.py_min 0.05 (inject_Z k * 0.02)) in *.
  cbv zeta.
  destruct (0 <? k)%Z eqn:Ek; try (apply Z.ltb_lt in Ek; specialize (Mk Ek));
    repeat match goal with
           | |- context [ if ?b then _ else _ ] => destruct b
           end;
    match goal with
    | |- _ <= Py.py_max ?a (Py.py_min ?b ?x) /\ _ =>
        destruct (py_min_spec b x) as (N1 & N2 & [N3 | N3]);
        destruct (py_max_spec a (Py.py_min b x)) as (X1 & X2 & [X3 | X3]);
        rewrite ?X3, ?N3 in *; split; lra
    end.
Qed.

(** A two-word transcript and no task: the lowest score. *)
Lemma confidence_between_55_and_100_witness :
  exists c,
    _calculate_confidence (Py.VDict []) "fix bathroom" = inr c /\ 0.55 <= c /\ c <= 1.0.
Proof.
  assert (H : exists c, _calculate_confidence (Py.VDict []) "fix bathroom" = inr c).
  { eexists. vm_compute. reflexivity. }
  destruct H as [c H]. exists c. split; [ exact H | ].
  exact (confidence_between_55_and_100 _ _ _ H).
Defined.

End Confidence.
